(** * Microlife blood pressure monitor: protocol engines of [bpm_bt.py] and
    [bpm_usb.py], embedded as Rocq functions.

    Bytes and code points are integers ([Z]); a [bytearray] or a list of
    ints is a [list Z]; a Python [str] is the list of its code points.
    Python exceptions are values of [Py.exn]. *)

From Stdlib Require Import ZArith List Lia Bool String Ascii DecimalString.
From stdpp Require Import base list strings.
Import ListNotations.
Open Scope Z_scope.

(** ** The fragment of the Python runtime the two modules rely on *)
Module Py.

Inductive exn : Type :=
| AssertionError
| IndexError
| TypeError
| ValueError
| UnicodeDecodeError      (* a subclass of ValueError *)
| NotAHexDigit            (* Exception("not a hex digit") *)
| NotificationTimeout.    (* Exception("Notification not received ...") *)

Definition len {A} (l : list A) : Z := Z.of_nat (length l).

(** Slice bounds: a negative bound counts from the end, and both are
    clipped to [0, len]. *)
Definition clamp (n : nat) (i : Z) : nat :=
  Z.to_nat (if i <? 0 then Z.max 0 (i + Z.of_nat n)
            else Z.min i (Z.of_nat n)).

(** [l[lo:hi]], [l[lo:]] and [l[:hi]]. *)
Definition slice {A} (l : list A) (lo hi : Z) : list A :=
  firstn (clamp (length l) hi - clamp (length l) lo)
         (skipn (clamp (length l) lo) l).

Definition slice_from {A} (l : list A) (lo : Z) : list A :=
  skipn (clamp (length l) lo) l.

Definition slice_to {A} (l : list A) (hi : Z) : list A :=
  firstn (clamp (length l) hi) l.

(** [l[i]]: [None] stands for IndexError. *)
Definition index {A} (l : list A) (i : Z) : option A :=
  let j := if i <? 0 then i + len l else i in
  if (j <? 0) || (len l <=? j) then None else nth_error l (Z.to_nat j).

Definition sum (l : list Z) : Z := fold_left Z.add l 0.

Definition is_byte (b : Z) : bool := (0 <=? b) && (b <? 256).

(** [str.isspace] on one code point, as used by [str.strip()]. *)
Definition isspace (c : Z) : bool :=
  ((9 <=? c) && (c <=? 13)) || ((28 <=? c) && (c <=? 32)) ||
  (c =? 133) || (c =? 160) || (c =? 5760) ||
  ((8192 <=? c) && (c <=? 8202)) || (c =? 8232) || (c =? 8233) ||
  (c =? 8239) || (c =? 8287) || (c =? 12288).

(** A string that does not begin with white space. *)
Definition no_lead (s : list Z) : Prop :=
  match s with
  | c :: _ => isspace c = false
  | [] => True
  end.

Fixpoint lstrip (s : list Z) : list Z :=
  match s with
  | c :: r => if isspace c then lstrip r else s
  | [] => []
  end.

Definition strip (s : list Z) : list Z := rev (lstrip (rev (lstrip s))).

(** ASCII [str.isalnum], only ever asked about code points in [32, 126]. *)
Definition isalnum (c : Z) : bool :=
  ((48 <=? c) && (c <=? 57)) || ((65 <=? c) && (c <=? 90)) ||
  ((97 <=? c) && (c <=? 122)).

(** One hexadecimal digit of [bytearray.hex()] (lower case) and of the
    ['%X'] conversion (upper case), as a code point. *)
Definition hexdigit_lower (n : Z) : Z := if n <? 10 then 48 + n else 87 + n.
Definition hexdigit_upper (n : Z) : Z := if n <? 10 then 48 + n else 55 + n.

(** [bytearray(l).hex()] as code points; the caller has checked
    [forallb is_byte l]. *)
Definition hex (l : list Z) : list Z :=
  flat_map (fun b => [hexdigit_lower (b / 16); hexdigit_lower (b mod 16)]) l.

(** ['%2.2X' % n] for [0 <= n < 256]. *)
Definition fmt_2X (n : Z) : list Z :=
  [hexdigit_upper (n / 16); hexdigit_upper (n mod 16)].

(** The code points of a string literal. *)
Definition codes (s : string) : list Z :=
  map (fun a => Z.of_N (N_of_ascii a)) (list_ascii_of_string s).

(** Printable ASCII: space to tilde. *)
Definition printable (c : Z) : bool := (32 <=? c) && (c <=? 126).

Definition is_cont (b : Z) : bool := (128 <=? b) && (b <=? 191).

(** [bytes.decode()]: strict UTF-8; [None] stands for UnicodeDecodeError.
    The fuel is the number of bytes. *)
Fixpoint utf8_decode_fuel (fuel : nat) (bs : list Z) : option (list Z) :=
  match fuel with
  | O => match bs with [] => Some [] | _ => None end
  | S fuel' =>
    match bs with
    | [] => Some []
    | b0 :: r0 =>
      if (0 <=? b0) && (b0 <? 128) then
        option_map (cons b0) (utf8_decode_fuel fuel' r0)
      else if (194 <=? b0) && (b0 <=? 223) then
        match r0 with
        | b1 :: r1 =>
          if is_cont b1 then
            option_map (cons ((b0 - 192) * 64 + (b1 - 128)))
                       (utf8_decode_fuel fuel' r1)
          else None
        | _ => None
        end
      else if (224 <=? b0) && (b0 <=? 239) then
        match r0 with
        | b1 :: b2 :: r2 =>
          let lo := if b0 =? 224 then 160 else 128 in
          let hi := if b0 =? 237 then 159 else 191 in
          if (lo <=? b1) && (b1 <=? hi) && is_cont b2 then
            option_map
              (cons ((b0 - 224) * 4096 + (b1 - 128) * 64 + (b2 - 128)))
              (utf8_decode_fuel fuel' r2)
          else None
        | _ => None
        end
      else if (240 <=? b0) && (b0 <=? 244) then
        match r0 with
        | b1 :: b2 :: b3 :: r3 =>
          let lo := if b0 =? 240 then 144 else 128 in
          let hi := if b0 =? 244 then 143 else 191 in
          if (lo <=? b1) && (b1 <=? hi) && is_cont b2 && is_cont b3 then
            option_map
              (cons ((b0 - 240) * 262144 + (b1 - 128) * 4096
                     + (b2 - 128) * 64 + (b3 - 128)))
              (utf8_decode_fuel fuel' r3)
          else None
        | _ => None
        end
      else None
    end
  end.

Definition decode (bs : list Z) : option (list Z) :=
  utf8_decode_fuel (length bs) bs.

End Py.

(** ** [bpm_bt.py]: class [Microlife_BTLE] *)
Module BTLE.
Import Py.

Definition MAX_ID_LENGTH : Z := 20.

Definition CMD_DISCONNECT : list Z := [77; 255; 0; 2; 4; 82].
Definition CMD_GET_ID : list Z := [77; 255; 0; 2; 5; 83].
Definition CMD_GET_MEASUREMENTS : list Z :=
  [77; 255; 0; 9; 0; 0; 0; 0; 0; 0; 0; 253; 82].

(** The receive side of the object.  [send_command] binds
    [self.received_value] and [self.result] to one and the same
    bytearray; [result_ref = None] records that sharing, so that an
    in-place [extend] of the one is seen through the other. *)
Record state : Type := {
  received_value : list Z;
  result_ref : option (list Z);
  result_event : bool
}.

Definition result (st : state) : list Z :=
  match result_ref st with
  | None => received_value st
  | Some r => r
  end.

(** The object as [__init__] leaves it: two distinct empty bytearrays. *)
Definition fresh : state :=
  {| received_value := []; result_ref := Some []; result_event := false |}.

(** [self.received_value = self.result = bytearray()] *)
Definition reset (st : state) : state :=
  {| received_value := []; result_ref := None;
     result_event := result_event st |}.

Definition expected_length (rv : list Z) : option Z :=
  match index rv 2, index rv 3 with
  | Some b2, Some b3 => Some (b2 * 256 + b3 + 4)
  | _, _ => None
  end.

(** The three conditions under which the callback takes a frame. *)
Definition well_framed (acc : list Z) : Prop :=
  slice acc 0 2 = [77; 58]
  /\ expected_length acc = Some (len acc)
  /\ index acc (-1) = Some (sum (slice_to acc (-1)) mod 256).

(** [characteristic_notification]: the new object state, and the
    exception the callback raised, if any.  The [extend] happens before
    the first assertion, so it survives a raise. *)
Definition characteristic_notification (st : state) (value : list Z)
  : state * option exn :=
  let rv := received_value st ++ value in
  let st1 := {| received_value := rv; result_ref := result_ref st;
                result_event := result_event st |} in
  if negb (bool_decide (slice rv 0 2 = [77; 58])) then
    (st1, Some AssertionError)
  else
    match expected_length rv with
    | None => (st1, Some IndexError)
    | Some expected =>
      if len rv >=? expected then
        if negb (len rv =? expected) then (st1, Some AssertionError)
        else
          let checksum := sum (slice_to rv (-1)) mod 256 in
          match index rv (-1) with
          | None => (st1, Some IndexError)
          | Some last =>
            if negb (checksum =? last) then (st1, Some AssertionError)
            else ({| received_value := [];
                     result_ref := Some (slice rv 4 (-1));
                     result_event := true |}, None)
          end
      else (st1, None)
    end.

(** The event loop calls the callback once per notification; what the
    callback raises does not reach the coroutine awaiting the result. *)
Definition deliver (st : state) (values : list (list Z)) : state :=
  fold_left (fun s v => fst (characteristic_notification s v)) values st.

(** [user_name]: keep the bytes in [' ', 128), then [strip()]. *)
Definition user_name (bytes : list Z) : list Z :=
  strip (List.filter (fun b => (32 <=? b) && (b <? 128)) bytes).

(** [split_write_cmd] *)
Definition split_write_cmd (cmd : list Z) : list Z * option (list Z) :=
  let MAX_WRITE_LEN := 20 in
  if len cmd >? MAX_WRITE_LEN
  then (slice_to cmd MAX_WRITE_LEN, Some (slice_from cmd MAX_WRITE_LEN))
  else (cmd, None).

(** The [while cmd:] loop of [send_command]: the chunks handed to
    [write_gatt_char], in order.  [bytearray(cmd)] raises ValueError on
    an element outside [0, 256); the chunks before it have been written.
    The fuel is the length of the command. *)
Fixpoint write_chunks (fuel : nat) (cmd : list Z)
  : list (list Z) * option exn :=
  match fuel with
  | O => ([], None)
  | S fuel' =>
    match cmd with
    | [] => ([], None)
    | _ =>
      let (chunk, next_cmd) := split_write_cmd cmd in
      if forallb is_byte chunk then
        match next_cmd with
        | Some rest =>
          let (ws, e) := write_chunks fuel' rest in (chunk :: ws, e)
        | None => ([chunk], None)
        end
      else ([], Some ValueError)
    end
  end.

(** [send_command]: [notified] are the notifications the device sends
    within the 60 seconds after the writes.  Returns the chunks written,
    the object state, and the result ([None] is Python's None).
    Nothing in the call clears the event before the wait: where it is
    still set from an earlier frame, [wait] returns at once, before any
    of [notified] has reached the callback, and the result is the
    bytearray the call has just bound, still empty. *)
Definition send_command (cmd : list Z) (wait_for_response : bool)
           (notified : list (list Z)) (st : state)
  : list (list Z) * state * (option (list Z) + exn) :=
  let st0 := reset st in
  match write_chunks (length cmd) cmd with
  | (ws, Some e) => (ws, st0, inr e)
  | (ws, None) =>
    if wait_for_response then
      if result_event st0 then
        (ws, {| received_value := received_value st0;
                result_ref := result_ref st0;
                result_event := false |}, inl (Some (result st0)))
      else
        let st1 := deliver st0 notified in
        if result_event st1 then
          (ws, {| received_value := received_value st1;
                  result_ref := result_ref st1;
                  result_event := false |}, inl (Some (result st1)))
        else (ws, st1, inr NotificationTimeout)
    else (ws, st0, inl None)
  end.

(** The [for i in range(len(id))] loop of [set_id]:
    [set_id_cmd[6+i] = ord(id[i])], with [i] counted from [pos]. *)
Fixpoint store_id (pos : nat) (id : list Z) (cmd : list Z) : list Z :=
  match id with
  | [] => cmd
  | c :: r => store_id (S pos) r (<[pos := c]> cmd)
  end.

(** The command [set_id] builds and passes to [send_command]. *)
Definition set_id_cmd (id : list Z) : list Z :=
  let cmd0 := [77; 255; 0; 24; 6; 253; 0; 0; 0; 0; 0; 0; 0; 0; 0; 0; 0;
               0; 0; 0; 0; 0; 0; 0; 0; 0; 216] in
  let id1 := if len id >? MAX_ID_LENGTH
             then slice_to id MAX_ID_LENGTH else id in
  let cmd1 := store_id 6 id1 cmd0 in
  cmd1 ++ [sum cmd1 mod 256].

(** [assert result == bytearray([129])], shared by [set_id] and
    [set_date_and_time]. *)
Definition assert_ack (res : list Z) : option exn :=
  if bool_decide (res = [129]) then None else Some AssertionError.

Definition set_id (id : list Z) (notified : list (list Z)) (st : state)
  : list (list Z) * state * option exn :=
  match send_command (set_id_cmd id) true notified st with
  | (ws, st', inl (Some res)) => (ws, st', assert_ack res)
  | (ws, st', inl None) => (ws, st', Some AssertionError)
  | (ws, st', inr e) => (ws, st', Some e)
  end.

(** [get_id], on the [result] of [CMD_GET_ID]: the selected user and
    the identifier stored for it; [None] is the IndexError of
    [result[1]]. *)
Definition get_id (res : list Z) : option (Z * list Z) :=
  match index res 1 with
  | None => None
  | Some user =>
    if user =? 1
    then Some (user, user_name (slice res 2 (MAX_ID_LENGTH + 2)))
    else Some (user, user_name (slice res 23 (MAX_ID_LENGTH + 23)))
  end.

End BTLE.

(** ** [bpm_bt.py]: class [Discovery] *)
Module Discovery.

Definition SERVICE_UUID : string := "0000fff0-0000-1000-8000-00805f9b34fb".
Definition NOTIFY_CHARACTERISTIC_UUID : string :=
  "0000fff1-0000-1000-8000-00805f9b34fb".
Definition WRTCMD_CHARACTERISTIC_UUID : string :=
  "0000fff2-0000-1000-8000-00805f9b34fb".

(** What [client.get_services()] returns, to the extent [isbpm] looks. *)
Record gatt : Type := {
  service_uuids : list string;
  characteristic_uuids : list string
}.

(** A peer returned by [discover()], with its share of the environment:
    whether [BleakClient] connects to it, what it enumerates ([None]:
    the call raises), how many commands [run_client] writes to it, and
    whether [run_client] then ends by an exception. *)
Record device : Type := {
  address : string;
  name : string;
  connects : bool;
  services : option gatt;
  session : nat;
  session_raises : bool
}.

(** [services.get_service(u)] and [services.get_characteristic(u)] as
    truth values. *)
Definition get_service (g : gatt) (u : string) : bool :=
  existsb (String.eqb u) (service_uuids g).
Definition get_characteristic (g : gatt) (u : string) : bool :=
  existsb (String.eqb u) (characteristic_uuids g).

(** The test of [isbpm]. *)
Definition is_monitor (g : gatt) : bool :=
  get_service g SERVICE_UUID
  && get_characteristic g NOTIFY_CHARACTERISTIC_UUID
  && get_characteristic g WRTCMD_CHARACTERISTIC_UUID.

(** A candidate whose probe reaches the test and passes it. *)
Definition matching (d : device) : bool :=
  connects d &&
  match services d with
  | Some g => is_monitor g
  | None => false
  end.

(** How a task of [isbpm] ended: at one of the three looks at the flag
    (before connecting, after connecting, after the test), on a failed
    test, on an exception of the probe, or after [run_client]. *)
Inductive ending : Type :=
| SawFlag (check : nat)
| NoMatch
| ProbeFailed
| SessionDone
| SessionFailed.

(** Where a task stands; it is suspended at the [await] named. *)
Inductive pc : Type :=
| Created                 (* ensure_future: not run yet *)
| Connecting              (* async with BleakClient(...) *)
| Enumerating             (* await client.get_services() *)
| Exchanging (n : nat)    (* await run_client: n commands to go *)
| Finished (e : ending).

(** What the tasks do that can be seen from outside. *)
Inductive event : Type :=
| Found (i : nat)           (* prnt('Found Bluetooth Blood Pressure ...') *)
| Command (i : nat)         (* a command written by run_client *)
| Communication_done (i : nat)
| Exception_printed (i : nat).

Record state : Type := {
  found_device : option string;
  tasks : list pc;
  log : list event
}.

(** [if self.found_device]: None and the empty string are false. *)
Definition truthy (f : option string) : bool :=
  match f with
  | Some a => negb (String.eqb a "")
  | None => false
  end.

(** [self.found_device == mac_addr] *)
Definition is_found (f : option string) (mac_addr : string) : bool :=
  match f with
  | Some a => String.eqb a mac_addr
  | None => false
  end.

Definition set_pc (i : nat) (p : pc) (evs : list event) (s : state) : state :=
  {| found_device := found_device s;
     tasks := <[i := p]> (tasks s);
     log := log s ++ evs |}.

(** The [except Exception] clause of [isbpm]. *)
Definition on_exception (i : nat) (d : device) (e : ending) (s : state)
  : state :=
  set_pc i (Finished e)
         (if is_found (found_device s) (address d)
          then [Exception_printed i] else []) s.

(** Task [i] runs from the [await] it is suspended at to its next one;
    nothing else runs in between. *)
Definition step_task (devices : list device) (i : nat) (s : state) : state :=
  match devices !! i, tasks s !! i with
  | Some d, Some p =>
    match p with
    | Created =>
      if truthy (found_device s) then set_pc i (Finished (SawFlag 1)) [] s
      else set_pc i Connecting [] s
    | Connecting =>
      if negb (connects d) then on_exception i d ProbeFailed s
      else if truthy (found_device s)
           then set_pc i (Finished (SawFlag 2)) [] s
           else set_pc i Enumerating [] s
    | Enumerating =>
      match services d with
      | None => on_exception i d ProbeFailed s
      | Some g =>
        if is_monitor g then
          if negb (truthy (found_device s)) then
            {| found_device := Some (address d);
               tasks := <[i := Exchanging (session d)]> (tasks s);
               log := log s ++ [Found i] |}
          else set_pc i (Finished (SawFlag 3)) [] s
        else set_pc i (Finished NoMatch) [] s
      end
    | Exchanging (S n) => set_pc i (Exchanging n) [Command i] s
    | Exchanging O =>
      if session_raises d then on_exception i d SessionFailed s
      else set_pc i (Finished SessionDone)
                  (if (1 <? length devices)%nat
                   then [Communication_done i] else []) s
    | Finished _ => s
    end
  | _, _ => s
  end.

(** [asyncio.gather] of the tasks under a schedule: the task to resume at
    each turn of the event loop. *)
Definition run_tasks (devices : list device) (schedule : list nat)
           (s : state) : state :=
  fold_left (fun s i => step_task devices i s) schedule s.

(** The state when [run] has created the tasks. *)
Definition init (devices : list device) : state :=
  {| found_device := None;
     tasks := map (fun _ => Created) devices;
     log := [] |}.

Definition finished (p : pc) : bool :=
  match p with
  | Finished _ => true
  | _ => false
  end.

(** [gather] has returned. *)
Definition all_done (s : state) : bool := forallb finished (tasks s).

(** [if not self.found_device] at the end of [run]. *)
Definition reports_not_found (s : state) : bool :=
  negb (truthy (found_device s)).

(** The tasks that reported a find, and those that wrote commands. *)
Definition finders (l : list event) : list nat :=
  flat_map (fun e => match e with Found i => [i] | _ => [] end) l.
Definition commanders (l : list event) : list nat :=
  flat_map (fun e => match e with Command i => [i] | _ => [] end) l.

(** A task that has entered [run_client]. *)
Definition in_session (p : pc) : bool :=
  match p with
  | Exchanging _ | Finished SessionDone | Finished SessionFailed => true
  | _ => false
  end.

(** A task that has returned on seeing the flag set. *)
Definition saw_flag (p : pc) : bool :=
  match p with
  | Finished (SawFlag _) => true
  | _ => false
  end.

(** What holds of a task while the flag is not set, and of a task
    other than the one that set it afterwards. *)
Definition waiting_ok (d : device) (p : pc) : Prop :=
  match p with
  | Created | Connecting => True
  | Enumerating => connects d = true
  | Finished NoMatch | Finished ProbeFailed => matching d = false
  | _ => False
  end.

Definition loser_ok (d : device) (p : pc) : Prop :=
  match p with
  | Created | Connecting | Finished (SawFlag _) => True
  | Enumerating => connects d = true
  | Finished NoMatch | Finished ProbeFailed => matching d = false
  | _ => False
  end.

(** The invariant of a discovery round. *)
Definition invariant (devices : list device) (s : state) : Prop :=
  length (tasks s) = length devices /\
  match found_device s with
  | None =>
    log s = [] /\
    forall i d p, devices !! i = Some d -> tasks s !! i = Some p ->
                  waiting_ok d p
  | Some a =>
    a <> ""%string /\
    exists w dw pw,
      devices !! w = Some dw /\ tasks s !! w = Some pw
      /\ a = address dw /\ matching dw = true /\ in_session pw = true
      /\ finders (log s) = [w]
      /\ Forall (eq w) (commanders (log s))
      /\ forall i d p, i <> w -> devices !! i = Some d ->
                       tasks s !! i = Some p -> loser_ok d p
  end.

(** Turns task [i] needs at most to finish. *)
Definition turns_left (d : device) (p : pc) : nat :=
  match p with
  | Created => session d + 4
  | Connecting => session d + 3
  | Enumerating => session d + 2
  | Exchanging n => n + 1
  | Finished _ => 0
  end.

(** One task after the other, each run to its end. *)
Definition turns (devices : list device) (i : nat) : list nat :=
  repeat i (default 0%nat (option_map (fun d => turns_left d Created)
                                      (devices !! i))).

Definition sequential (devices : list device) : list nat :=
  flat_map (turns devices) (seq 0 (length devices)).

(** A round for examples: two monitors and a headset in between,
    and a schedule under which both monitors connect and enumerate
    before either is tested; the second monitor is tested first. *)
Definition monitor_gatt : gatt :=
  {| service_uuids := [SERVICE_UUID];
     characteristic_uuids :=
       [NOTIFY_CHARACTERISTIC_UUID; WRTCMD_CHARACTERISTIC_UUID] |}.

Definition monitor_a : device :=
  {| address := "c8:0f:10:00:00:0a"; name := "BP3GY1-2N"; connects := true;
     services := Some monitor_gatt; session := 3; session_raises := false |}.

Definition monitor_b : device :=
  {| address := "c8:0f:10:00:00:0b"; name := "BP3GY1-2N"; connects := true;
     services := Some monitor_gatt; session := 3; session_raises := false |}.

Definition headset : device :=
  {| address := "00:1b:66:00:00:01"; name := "headset"; connects := true;
     services := Some {| service_uuids :=
                           ["0000180f-0000-1000-8000-00805f9b34fb"%string];
                         characteristic_uuids := [] |};
     session := 0; session_raises := false |}.

Definition nearby : list device := [monitor_a; headset; monitor_b].

Definition neck_and_neck : list nat :=
  [0; 1; 2; 0; 1; 2; 2; 0; 1; 2; 2; 2; 2]%nat.

End Discovery.

(** ** [bpm_usb.py]: classes [USB_IO] and [Microlife_USB] *)
Module USB.
Import Py.

(** The two primitives of [hid.Device] the module calls.
    [hid_read] is [device.read(8, 100)]: one report, empty after the
    100 ms timeout.  [hid_write] is [device.write(raw)]: the byte count
    the driver reports. *)
Class HidDevice (D : Type) : Type := {
  hid_read : D -> list Z * D;
  hid_write : D -> list Z -> Z * D
}.

(** How a call ends: normally, by an exception, or never (the polling
    loop of [USB_IO.read] has no bound of its own, so it runs on fuel).
    The device state is threaded through the first two. *)
Inductive run (D A : Type) : Type :=
| Done (a : A) (d : D)
| Raised (e : exn) (d : D)
| Starved.
Arguments Done {D A} a d.
Arguments Raised {D A} e d.
Arguments Starved {D A}.

Definition bind {D A B} (m : run D A) (k : A -> D -> run D B) : run D B :=
  match m with
  | Done a d => k a d
  | Raised e d => Raised e d
  | Starved => Starved
  end.

Definition MAX_RETRY : nat := 15.
Definition MAX_CMD_WRITE : Z := 7.
Definition ID_LENGTH : Z := 11.
Definition FIRST_RECORD : Z := 32.
Definition RECORD_LENGTH : Z := 32.
Definition CMD_CYCLES : Z := 34.
Definition CMD_SET_ID : Z := 35.
Definition CMD_GET_ID : Z := 36.
Definition CMD_GET_DATETIME : Z := 38.
Definition CMD_SET_DATETIME : Z := 39.

(** [datetime.datetime], to the fields the module reads. *)
Record datetime : Type := {
  year : Z; month : Z; day : Z; hour : Z; minute : Z; second : Z
}.

(** [(date_time, sys, dia, pulse)] *)
Definition measurement : Type := (list Z * Z * Z * Z)%type.

(** The frame [USB_IO.write] hands to the driver. *)
Definition frame (win32 : bool) (data : list Z) : list Z :=
  if win32 then 0 :: len data :: data else len data :: data.

(** The 32-bit word of a record: systolic, diastolic and pulse in ten
    bits each. *)
Definition unpack_word (word : Z) : Z * Z * Z :=
  (Z.land word 1023, Z.land (Z.shiftr word 10) 1023,
   Z.land (Z.shiftr word 20) 1023).

(** [decode_hexdigit]: [None] is Exception("not a hex digit"). *)
Definition decode_hexdigit (byte : Z) : option Z :=
  if (48 <=? byte) && (byte <=? 57) then Some (byte - 48)
  else if (65 <=? byte) && (byte <=? 70) then Some (byte - 65 + 10)
  else if (97 <=? byte) && (byte <=? 102) then Some (byte - 97 + 10)
  else None.

(** [decode_hexnum] *)
Definition decode_hexnum (bytes : list Z) : option Z :=
  fold_left (fun word b =>
               match word, decode_hexdigit b with
               | Some w, Some h => Some (w * 16 + h)
               | _, _ => None
               end) bytes (Some 0).

(** One round of the loop of [get_id] on [data[i:i+2]]: the identifier
    grown by one character, or [None] when the loop ends there (by
    [break], or by the exception that [finally: return id] discards). *)
Definition get_id_step (pair : list Z) (id : list Z) : option (list Z) :=
  match decode_hexnum pair with
  | None => None
  | Some ch =>
    if (ch <? 32) || (ch >? 126) || negb (isalnum ch) then None
    else Some (id ++ [ch])
  end.

Fixpoint get_id_loop (data : list Z) (id : list Z) : list Z :=
  match data with
  | [] => id
  | [b0] =>
    match get_id_step [b0] id with
    | None => id
    | Some id' => id'
    end
  | b0 :: b1 :: rest =>
    match get_id_step [b0; b1] id with
    | None => id
    | Some id' => get_id_loop rest id'
    end
  end.

(** [get_id] *)
Definition get_id (data : list Z) : list Z := get_id_loop data [].

(** [user_name] (defined in the class, not called by it). *)
Definition user_name (bytes : list Z) : list Z :=
  strip (List.filter (fun b => (32 <=? b) && (b <? 128)) bytes).

(** [arg[pos+i] = ord(id[i])] for every [i]. *)
Fixpoint store_id (pos : nat) (id : list Z) (arg : list Z) : list Z :=
  match id with
  | [] => arg
  | c :: r => store_id (S pos) r (<[pos := c]> arg)
  end.

(** The argument [set_id] passes to [send_command]. *)
Definition set_id_arg (id : list Z) : list Z :=
  let id1 := if len id >? ID_LENGTH then slice_to id ID_LENGTH else id in
  let arg0 := <[3%nat := 1]> (<[1%nat := 1]> (repeat 0 32)) in
  store_id 4 id1 arg0.

(** [dec_to_hex] *)
Definition dec_to_hex (i : Z) : Z := 16 * (i / 10) + i mod 10.

(** The argument [set_date_time] passes to [send_command], for the
    value [dt] of [datetime.now()]. *)
Definition set_date_time_arg (dt : datetime) : list Z :=
  [dec_to_hex (month dt); dec_to_hex (day dt);
   dec_to_hex (year dt / 100); dec_to_hex (year dt mod 100);
   dec_to_hex (hour dt); dec_to_hex (minute dt); dec_to_hex (second dt)]
  ++ repeat 0 33.

(** In [send_command]: the hex digits of the argument, followed by the
    two hex digits of the sum of those digits modulo 256. *)
Definition encode_arg (arg : list Z) : list Z :=
  let digits := hex arg in
  digits ++ hex [sum digits mod 256].

(** The [while len(arg):] loop of [send_command]: the successive values
    of [arg[:7] if len(arg) > 7 else arg].  The fuel is the length. *)
Fixpoint arg_chunks (fuel : nat) (arg : list Z) : list (list Z) :=
  match fuel with
  | O => []
  | S fuel' =>
    match arg with
    | [] => []
    | _ =>
      (if len arg >? MAX_CMD_WRITE then slice_to arg MAX_CMD_WRITE else arg)
      :: arg_chunks fuel'
           (if len arg >? MAX_CMD_WRITE
            then slice_from arg MAX_CMD_WRITE else [])
    end
  end.

(** ['%d'] and ['%2.2d'] on a non-negative integer. *)
Definition fmt_d (n : Z) : list Z :=
  codes (DecimalString.NilZero.string_of_int (Z.to_int n)).

Definition fmt_2d (n : Z) : list Z :=
  if (0 <=? n) && (n <? 10) then 48 :: fmt_d n else fmt_d n.

(** ['%d-%2.2d-%2.2d %2.2d:%2.2d' % (year, month, day, hour, minute)] *)
Definition fmt_date (dt : datetime) : list Z :=
  fmt_d (year dt) ++ [45] ++ fmt_2d (month dt) ++ [45] ++ fmt_2d (day dt)
  ++ [32] ++ fmt_2d (hour dt) ++ [58] ++ fmt_2d (minute dt).

Section Engine.
Context {D : Type} `{HidDevice D}.

(** [sys.platform == 'win32'] *)
Variable win32 : bool.
(** Whether the [prnt] callable of the object takes a [file] keyword.
    The default [lambda s : print(s)] does not. *)
Variable prnt_takes_file : bool.
(** [datetime.datetime.strptime(s, '%y%m%d%H%M')]: [None] is ValueError. *)
Variable strptime : list Z -> option datetime.
(** Rounds granted to the polling loop of [USB_IO.read]. *)
Variable fuel : nat.

(** [USB_IO.read] *)
Fixpoint read_loop (n : nat) (data : list Z) (d : D) : run D (list Z) :=
  match n with
  | O => Starved
  | S n' =>
    let (buf, d') := hid_read d in
    match buf with
    | [] => Done data d'
    | b0 :: _ => read_loop n' (data ++ slice buf 1 (Z.land b0 15 + 1)) d'
    end
  end.

Definition USB_IO_read (d : D) : run D (list Z) := read_loop fuel [] d.

(** [USB_IO.write].  Storing into the ctypes buffer raises TypeError
    on an element outside [0, 256). *)
Definition USB_IO_write (data : list Z) (d : D) : run D unit :=
  if negb (len data <=? 7) then Raised AssertionError d
  else if negb (forallb is_byte data) then Raised TypeError d
  else
    let raw := frame win32 data in
    let (count, d') := hid_write d raw in
    if win32 then
      if count =? 9 then Done tt d' else Raised AssertionError d'
    else
      if count =? len raw then Done tt d' else Raised AssertionError d'.

Fixpoint write_all (chunks : list (list Z)) (d : D) : run D unit :=
  match chunks with
  | [] => Done tt d
  | c :: r => bind (USB_IO_write c d) (fun _ d' => write_all r d')
  end.

Definition command_bytes (cmd : Z) : list Z := [18; 22; 24; cmd].

(** The set branch of [send_command], once the ACK has been read. *)
Definition send_argument (arg : list Z) (d : D) : run D (option (list Z)) :=
  if negb (forallb is_byte arg) then Raised ValueError d
  else
    let encoded := encode_arg arg in
    bind (write_all (arg_chunks (length encoded) encoded) d) (fun _ d1 =>
    bind (USB_IO_read d1) (fun r d2 => Done (Some r) d2)).

(** The get branch of [send_command], on one response. [None]: go
    round the loop again. *)
Definition check_response (response : list Z) (d : D)
  : option (run D (option (list Z))) :=
  if (len response <=? 3)
     || negb (bool_decide (index response 0 = Some 6)) then None
  else
    let cksum := sum (slice response 1 (len response - 2)) mod 256 in
    match decode (slice_from response (-2)) with
    | None => Some (Raised UnicodeDecodeError d)
    | Some trailer =>
      if bool_decide (fmt_2X cksum = trailer)
      then Some (Done (Some (slice response 1 (-2))) d)
      else if prnt_takes_file then None
      else Some (Raised TypeError d)
    end.

(** [send_command]: the [while retries < self.MAX_RETRY] loop, with
    [n] rounds left.  Leaving the loop returns None. *)
Fixpoint send_command_loop (n : nat) (cmd : Z) (arg : option (list Z))
         (d : D) : run D (option (list Z)) :=
  match n with
  | O => Done None d
  | S n' =>
    bind (USB_IO_write (command_bytes cmd) d) (fun _ d1 =>
    bind (USB_IO_read d1) (fun response d2 =>
      match arg with
      | Some a =>
        if negb (len response =? 1)
           || negb (bool_decide (index response 0 = Some 6))
        then send_command_loop n' cmd arg d2
        else send_argument a d2
      | None =>
        match check_response response d2 with
        | None => send_command_loop n' cmd arg d2
        | Some r => r
        end
      end))
  end.

Definition send_command (cmd : Z) (arg : option (list Z)) (d : D)
  : run D (option (list Z)) :=
  send_command_loop MAX_RETRY cmd arg d.

(** The device after a call, however the call ended. *)
Definition after {A} (m : run D A) (d0 : D) : D :=
  match m with
  | Done _ d => d
  | Raised _ d => d
  | Starved => d0
  end.

(** One full cycle of the loop as the device sees it: the write of
    the command bytes, then the read of the response. *)
Definition attempt (cmd : Z) (d : D) : D :=
  let d1 := after (USB_IO_write (command_bytes cmd) d) d in
  after (USB_IO_read d1) d1.

(** The two ways a response to a get command can be malformed: the
    [unexpected response] test (too short, or not led by the status
    byte 6), and a trailer that decodes to something else than the
    two hex digits of the checksum. *)
Definition unexpected (response : list Z) : bool :=
  (len response <=? 3) || negb (bool_decide (index response 0 = Some 6)).

Definition mismatched (response : list Z) : bool :=
  let cksum := sum (slice response 1 (len response - 2)) mod 256 in
  match decode (slice_from response (-2)) with
  | None => false
  | Some trailer => negb (bool_decide (fmt_2X cksum = trailer))
  end.

(** [get_patient_id]: slicing None raises TypeError. *)
Definition get_patient_id (d : D) : run D (list Z) :=
  bind (send_command CMD_GET_ID None d) (fun response d' =>
    match response with
    | None => Raised TypeError d'
    | Some r => Done (get_id (slice r 0 (2 * ID_LENGTH))) d'
    end).

(** [set_id] *)
Definition set_id (id : list Z) (d : D) : run D unit :=
  bind (send_command CMD_SET_ID (Some (set_id_arg id)) d)
       (fun _ d' => Done tt d').

(** The body of the [for offset in range(...)] loop of [get_data]:
    the list of measurements after this record, and the exception
    that ends the loop, if any. *)
Definition get_data_record (response : list Z) (offset : Z)
           (measurements : list measurement)
  : list measurement * option exn :=
  let record := slice response offset (offset + RECORD_LENGTH) in
  match mbind strptime (decode (slice record 0 10)) with
  | None => (measurements, None)
  | Some dt =>
    match decode_hexnum (slice record 16 24) with
    | None => (measurements, Some NotAHexDigit)
    | Some word =>
      let '(sys, dia, pulse) := unpack_word word in
      (measurements ++ [(fmt_date dt, sys, dia, pulse)], None)
    end
  end.

Fixpoint get_data_loop (response : list Z) (offsets : list Z)
         (measurements : list measurement)
  : list measurement * option exn :=
  match offsets with
  | [] => (measurements, None)
  | offset :: rest =>
    match get_data_record response offset measurements with
    | (ms, None) => get_data_loop response rest ms
    | (ms, Some e) => (ms, Some e)
    end
  end.

(** [range(FIRST_RECORD, FIRST_RECORD + n * RECORD_LENGTH,
    RECORD_LENGTH)] *)
Definition record_offsets (number_of_cycles : Z) : list Z :=
  map (fun k => FIRST_RECORD + Z.of_nat k * RECORD_LENGTH)
      (seq 0 (Z.to_nat number_of_cycles)).

(** [get_data] after its [send_command]. *)
Definition get_data_of (response : list Z)
           (measurements : list measurement)
  : list measurement * option exn :=
  match decode_hexnum (slice_to response 4) with
  | None => (measurements, Some NotAHexDigit)
  | Some number_of_cycles =>
    get_data_loop response (record_offsets number_of_cycles) measurements
  end.

(** [get_data]: the measurements of the object afterwards, and how
    the call ended. *)
Definition get_data (measurements : list measurement) (d : D)
  : list measurement * run D unit :=
  match send_command CMD_CYCLES None d with
  | Done None d' => (measurements, Raised TypeError d')
  | Done (Some response) d' =>
    match get_data_of response measurements with
    | (ms, None) => (ms, Done tt d')
    | (ms, Some e) => (ms, Raised e d')
    end
  | Raised e d' => (measurements, Raised e d')
  | Starved => (measurements, Starved)
  end.

End Engine.

(** A simulated device: the reports it will deliver, one per call of
    [read] (an empty one, or none left, is a timeout), and the frames it
    has been handed.  With [pads_to_report] its [write] reports nine
    bytes whatever the frame (a driver that pads every frame to the
    nine-byte report), without it the size of the frame. *)
Record sim : Type := {
  pending : list (list Z);
  written : list (list Z);
  pads_to_report : bool
}.

#[export] Instance sim_device : HidDevice sim := {
  hid_read d :=
    match pending d with
    | [] => ([], d)
    | r :: rest =>
      (r, {| pending := rest; written := written d;
             pads_to_report := pads_to_report d |})
    end;
  hid_write d raw :=
    (if pads_to_report d then 9 else len raw,
     {| pending := pending d; written := written d ++ [raw];
        pads_to_report := pads_to_report d |})
}.

(** A silent device whose driver reports the size of the frame it is
    handed. *)
Definition plain_driver : sim :=
  {| pending := []; written := []; pads_to_report := false |}.

(** A device that answers every command with status 6, the payload A
    and the trailer 00 (the checksum of A is 41), fifteen times over. *)
Definition garbled : sim :=
  {| pending := concat (repeat [[4; 6; 65; 48; 48]; []] 15);
     written := []; pads_to_report := false |}.

(** A device that answers with a trailer that is not UTF-8. *)
Definition high_bytes : sim :=
  {| pending := concat (repeat [[4; 6; 65; 255; 255]; []] 15);
     written := []; pads_to_report := false |}.

(** A device that acknowledges a set command and then answers the
    argument with one byte that is no status, no payload and has no
    checksum. *)
Definition acknowledging : sim :=
  {| pending := [[1; 6]; []; [1; 63]; []];
     written := []; pads_to_report := false |}.

(** A response to CMD_CYCLES that announces two records: an unused
    slot, then 2023-01-01 12:30 with 120/80 and pulse 65. *)
Definition two_slots : list Z :=
  codes "0002" ++ repeat 48 28
  ++ repeat 48 32
  ++ codes "2301011230" ++ codes "000000" ++ codes "04114078"
  ++ repeat 48 8.

(** A stand-in for [strptime] on ten ASCII digits, to run examples. *)
Definition two_digits (a b : Z) : option Z :=
  if (48 <=? a) && (a <=? 57) && (48 <=? b) && (b <=? 57)
  then Some ((a - 48) * 10 + (b - 48)) else None.

Definition strptime_digits (s : list Z) : option datetime :=
  match s with
  | [y1; y2; m1; m2; d1; d2; h1; h2; n1; n2] =>
    match two_digits y1 y2, two_digits m1 m2, two_digits d1 d2,
          two_digits h1 h2, two_digits n1 n2 with
    | Some y, Some m, Some dd, Some h, Some n =>
      if (1 <=? m) && (m <=? 12) && (1 <=? dd) && (dd <=? 28)
         && (h <=? 23) && (n <=? 59)
      then Some {| year := (if y <? 69 then 2000 else 1900) + y;
                   month := m; day := dd; hour := h; minute := n;
                   second := 0 |}
      else None
    | _, _, _, _, _ => None
    end
  | _ => None
  end.

End USB.

(** ** [bpm_bt.py]: the rest of [Microlife_BTLE] *)
Module Wireless.
Import Py.

(** [range(start, stop, step)] for a positive [step]. *)
Definition range (start stop step : Z) : list Z :=
  map (fun k => start + Z.of_nat k * step)
      (seq 0 (Z.to_nat ((stop - start + step - 1) / step))).

(** The command [set_date_and_time] builds, for the value [dt] of
    [datetime.now()]. *)
Definition set_time_cmd (dt : USB.datetime) : list Z :=
  let cmd := [77; 255; 0; 8; 13; USB.year dt - 2000; USB.month dt;
              USB.day dt; USB.hour dt; USB.minute dt; USB.second dt] in
  cmd ++ [sum cmd mod 256].

(** What the first two bytes, the length pair and the last byte of a
    command are, by the comment above the constants and by
    [set_id_cmd.append(sum(set_id_cmd) % 256)]. *)
Definition command_framed (cmd : list Z) : Prop :=
  slice cmd 0 2 = [77; 255]
  /\ BTLE.expected_length cmd = Some (len cmd)
  /\ index cmd (-1) = Some (sum (slice_to cmd (-1)) mod 256).

(** The measurement the first eight bytes of a record stand for. *)
Definition measurement_of (record : list Z) : option USB.measurement :=
  match record with
  | sys :: dia :: pulse :: year :: month :: day :: hour :: minute :: _ =>
    Some (USB.fmt_date {| USB.year := year + 2000; USB.month := month;
                          USB.day := day; USB.hour := hour;
                          USB.minute := minute; USB.second := 0 |},
          sys, dia, pulse)
  | _ => None
  end.

(** The body of the loop of [get_data]: unpacking [result[i:i+8]] into
    eight names raises ValueError when the slice is shorter. *)
Definition get_data_record (result : list Z) (i : Z)
           (measurements : list USB.measurement)
  : list USB.measurement * option exn :=
  match slice result i (i + 8) with
  | [sys; dia; pulse; year; month; day; hour; minute] =>
    (measurements
       ++ [(USB.fmt_date {| USB.year := year + 2000; USB.month := month;
                            USB.day := day; USB.hour := hour;
                            USB.minute := minute; USB.second := 0 |},
            sys, dia, pulse)], None)
  | _ => (measurements, Some ValueError)
  end.

Fixpoint get_data_loop (result : list Z) (offsets : list Z)
         (measurements : list USB.measurement)
  : list USB.measurement * option exn :=
  match offsets with
  | [] => (measurements, None)
  | i :: rest =>
    match get_data_record result i measurements with
    | (ms, None) => get_data_loop result rest ms
    | (ms, Some e) => (ms, Some e)
    end
  end.

(** [get_data] after its [send_command]. *)
Definition get_data_of (result : list Z) (measurements : list USB.measurement)
  : list USB.measurement * option exn :=
  get_data_loop result (range 38 (len result) 10) measurements.

End Wireless.

(** ** [bpm_db.py]: what the command-line tools of [bpm_bt.py] and
    [bpm_usb.py] call *)
Module Database.
Import Py.

(** A row of the table [measurements], without the [_id] that SQLite
    assigns and no statement of the module reads. *)
Record row : Type := {
  patient_id : list Z;
  date : list Z;
  sys : Z;
  dia : Z;
  pulse : Z
}.

(** [SELECT * FROM measurements WHERE date=? AND patient_id=?] *)
Definition select (d p : list Z) (table : list row) : list row :=
  List.filter (fun r => bool_decide (date r = d)
                        && bool_decide (patient_id r = p)) table.

(** The patient and date of every row, in the order of the rows. *)
Definition keys (table : list row) : list (list Z * list Z) :=
  map (fun r => (patient_id r, date r)) table.

(** What [cur.execute] raises while it binds a parameter. *)
Inductive bind_error : Type :=
| UnicodeEncodeError    (* a str with a surrogate has no UTF-8 encoding *)
| OverflowError.        (* an int outside SQLite's 64-bit INTEGER *)

(** A str is bound as its UTF-8 encoding, which the code points
    U+D800 to U+DFFF do not have. *)
Definition utf8_encodable (s : list Z) : bool :=
  forallb (fun c => negb ((55296 <=? c) && (c <=? 57343))) s.

(** An int is bound as a signed 64-bit integer. *)
Definition fits_integer (z : Z) : bool :=
  (- 2 ^ 63 <=? z) && (z <? 2 ^ 63).

(** One round of the loop of [insert_measurements]: the table and
    [no_inserted] afterwards, or what an [execute] raised.  The SELECT
    binds the date and the identifier; the INSERT, executed only where
    the SELECT found no row, binds them again and then the three
    numbers. *)
Definition insert_one (p : list Z) (st : list row * Z) (m : USB.measurement)
  : (list row * Z) + bind_error :=
  let '(table, no_inserted) := st in
  let '(d, s, di, pu) := m in
  if negb (utf8_encodable d && utf8_encodable p) then inr UnicodeEncodeError
  else
    match select d p table with
    | [] =>
      if fits_integer s && fits_integer di && fits_integer pu
      then inl (table ++ [{| patient_id := p; date := d; sys := s;
                             dia := di; pulse := pu |}], no_inserted + 1)
      else inr OverflowError
    | _ => inl (table, no_inserted)
    end.

(** The [for (date, sys, dia, pulse) in measurements] loop. *)
Fixpoint insert_loop (p : list Z) (measurements : list USB.measurement)
         (st : list row * Z) : (list row * Z) + bind_error :=
  match measurements with
  | [] => inl st
  | m :: rest =>
    match insert_one p st m with
    | inl st' => insert_loop p rest st'
    | inr e => inr e
    end
  end.

(** [insert_measurements]: the table afterwards, and the count it
    prints or the exception it ends in.  The [with] statement commits
    when its body ends and rolls back when the body raises: the rows
    the loop has inserted by then are gone, and nothing is printed. *)
Definition insert_measurements (p : list Z) (measurements : list USB.measurement)
           (table : list row) : list row * (Z + bind_error) :=
  match insert_loop p measurements (table, 0) with
  | inl (table', no_inserted) => (table', inl no_inserted)
  | inr e => (table, inr e)
  end.

(** [patient_id_format]: [None] is ArgumentTypeError. *)
Definition patient_id_format (arg : list Z) : option (list Z) :=
  match arg with
  | [] => None
  | _ => if bool_decide (arg = strip arg) then Some arg else None
  end.

End Database.

(** ** Notions used to state properties of the wired engine *)
Module Wired.
Import Py USB.

(** What [USB_IO.read] takes from one report: [buf[1:(buf[0]&15)+1]]. *)
Definition report_payload (buf : list Z) : list Z :=
  match buf with
  | [] => []
  | b0 :: _ => slice buf 1 (Z.land b0 15 + 1)
  end.

(** The measurement [get_data] appends for the record at [offset], if
    its date parses and its word is hexadecimal. *)
Definition record_measurement (strptime : list Z -> option datetime)
           (response : list Z) (offset : Z) : option measurement :=
  let record := slice response offset (offset + RECORD_LENGTH) in
  match mbind strptime (decode (slice record 0 10)) with
  | None => None
  | Some dt =>
    match decode_hexnum (slice record 16 24) with
    | None => None
    | Some word =>
      let '(sys, dia, pulse) := unpack_word word in
      Some (fmt_date dt, sys, dia, pulse)
    end
  end.

(** A measurement whose three values fit in ten bits. *)
Definition in_range (m : measurement) : Prop :=
  let '(_, sys, dia, pulse) := m in
  0 <= sys <= 1023 /\ 0 <= dia <= 1023 /\ 0 <= pulse <= 1023.

(** One round of the loop of [decode_hexnum]. *)
Definition hexnum_step (word : option Z) (b : Z) : option Z :=
  match word, decode_hexdigit b with
  | Some w, Some h => Some (w * 16 + h)
  | _, _ => None
  end.

(** A device that answers the first command with a lone NAK (21) and the
    second with status 6, the payload A and its checksum 41. *)
Definition retrying : sim :=
  {| pending := [[1; 21]; []; [4; 6; 65; 52; 49]; []];
     written := []; pads_to_report := false |}.

Section Rounds.
Context {D : Type} `{HidDevice D}.
Variables (win32 prnt_takes_file : bool) (fuel : nat) (cmd : Z).

(** [dropped k d d']: from [d], [k] rounds of a get command in a row
    each wrote the command, read a response and went round the loop
    again, leaving the device as [d']. *)
Inductive dropped : nat -> D -> D -> Prop :=
| dropped_none (d : D) : dropped 0 d d
| dropped_one (k : nat) (d d1 d2 d' : D) (r : list Z) :
    USB_IO_write win32 (command_bytes cmd) d = Done tt d1 ->
    USB_IO_read fuel d1 = Done r d2 ->
    check_response prnt_takes_file r d2 = None ->
    dropped k d2 d' ->
    dropped (S k) d d'.

End Rounds.

End Wired.

(** ** Notions used to state properties of a discovery round *)
Module Round.
Import Discovery.

(** The tasks that printed an exception. *)
Definition printers (l : list event) : list nat :=
  flat_map (fun e => match e with Exception_printed i => [i] | _ => [] end) l.

(** What is printed is printed by a task whose address is the flag. *)
Definition printed_by_found (devices : list device) (s : state) : Prop :=
  Forall (fun j => exists d, devices !! j = Some d
                             /\ found_device s = Some (address d))
         (printers (log s)).

(** Rounds for examples: a headset out of reach beside a monitor whose
    session ends by an exception, and two peers that are no monitors. *)
Definition unreachable : device :=
  {| address := "00:1b:66:00:00:02"; name := "headset"; connects := false;
     services := None; session := 0; session_raises := false |}.

Definition faulty_monitor : device :=
  {| address := "c8:0f:10:00:00:0c"; name := "BP3GY1-2N"; connects := true;
     services := Some monitor_gatt; session := 2; session_raises := true |}.

Definition troubled : list device := [unreachable; faulty_monitor].
Definition troubled_schedule : list nat := [0; 1; 1; 1; 0; 1; 1; 1]%nat.

Definition strangers : list device := [headset; unreachable].

End Round.

(* ================================================================== *)
(** * Properties *)

Section Python_facts.
Import Py.

Lemma clamp_nonneg (n : nat) (i : Z) :
  0 <= i -> clamp n i = Nat.min (Z.to_nat i) n.
Proof. intros H. unfold clamp. destruct (Z.ltb_spec i 0); lia. Qed.

Lemma clamp_neg (n : nat) (i : Z) :
  i < 0 -> clamp n i = (n - Z.to_nat (- i))%nat.
Proof. intros H. unfold clamp. destruct (Z.ltb_spec i 0); lia. Qed.

Lemma sum_from (l : list Z) (a : Z) : fold_left Z.add l a = a + sum l.
Proof.
  unfold sum. revert a.
  induction l as [|x l IH]; intros a; simpl; [lia|].
  rewrite (IH (a + x)), (IH (0 + x)). lia.
Qed.

Lemma sum_cons (x : Z) (l : list Z) : sum (x :: l) = x + sum l.
Proof. unfold sum at 1. simpl. apply sum_from. Qed.

Lemma sum_app (l1 l2 : list Z) : sum (l1 ++ l2) = sum l1 + sum l2.
Proof.
  induction l1 as [|x l1 IH]; simpl; [reflexivity|].
  rewrite !sum_cons, IH. lia.
Qed.

End Python_facts.

Section Wireless_reassembly.
Import Py BTLE.

Example ack_frame_completes :
  characteristic_notification fresh [77; 58; 0; 2; 129; 10]
  = ({| received_value := []; result_ref := Some [129];
        result_event := true |}, None).
Proof. vm_compute. reflexivity. Qed.

Example frame_in_two_notifications :
  deliver (reset fresh) [[77; 58; 0]; [2; 129; 10]]
  = {| received_value := []; result_ref := Some [129];
       result_event := true |}.
Proof. vm_compute. reflexivity. Qed.

(** One call either takes the accumulated bytes as a frame, or leaves
    them accumulated and touches nothing else. *)
Lemma notification_cases (st : state) (value : list Z) :
  let acc := received_value st ++ value in
  (well_framed acc
   /\ characteristic_notification st value
      = ({| received_value := []; result_ref := Some (slice acc 4 (-1));
            result_event := true |}, None))
  \/ (~ well_framed acc
      /\ fst (characteristic_notification st value)
         = {| received_value := acc; result_ref := result_ref st;
              result_event := result_event st |}).
Proof.
  intros acc. unfold characteristic_notification, well_framed. fold acc.
  case_bool_decide as Hm; simpl.
  2: { right. split; [tauto | reflexivity]. }
  destruct (expected_length acc) as [e|] eqn:He.
  2: { right. split; [intros (_ & H & _); discriminate | reflexivity]. }
  destruct (Z.geb_spec (len acc) e) as [Hge|Hlt].
  2: { right. split; [intros (_ & H & _); inversion H; lia | reflexivity]. }
  destruct (Z.eqb_spec (len acc) e) as [Heq|Hne]; simpl.
  2: { right. split; [intros (_ & H & _); inversion H; lia | reflexivity]. }
  destruct (index acc (-1)) as [l|] eqn:Hl.
  2: { right. split; [intros (_ & _ & H); discriminate | reflexivity]. }
  destruct (Z.eqb_spec (sum (slice_to acc (-1)) mod 256) l) as [Hc|Hc]; simpl.
  - left. subst. auto.
  - right. split; [intros (_ & _ & H); inversion H; lia | reflexivity].
Qed.

(** The callback never clears the event. *)
Lemma notification_keeps_event (st : state) (value : list Z) :
  result_event st = true ->
  result_event (fst (characteristic_notification st value)) = true.
Proof.
  intros Hev. destruct (notification_cases st value) as [[_ ->]|[_ ->]];
    simpl; auto.
Qed.

Lemma deliver_snoc (st : state) (values : list (list Z)) (v : list Z) :
  deliver st (values ++ [v])
  = fst (characteristic_notification (deliver st values) v).
Proof. unfold deliver. rewrite fold_left_app. reflexivity. Qed.

(** Until a frame is taken, the object holds exactly the bytes
    received since the reset. *)
Lemma deliver_accumulates (values : list (list Z)) :
  forall st, received_value st = [] ->
  result_event (deliver st values) = false ->
  received_value (deliver st values) = concat values.
Proof.
  induction values as [|v values IH] using rev_ind; intros st Hrv Hev.
  - simpl. assumption.
  - rewrite deliver_snoc in *.
    assert (Hb : result_event (deliver st values) = false).
    { destruct (result_event (deliver st values)) eqn:E; auto.
      rewrite (notification_keeps_event _ v E) in Hev. discriminate. }
    specialize (IH st Hrv Hb).
    destruct (notification_cases (deliver st values) v) as [[_ Hc]|[_ Hc]];
      rewrite Hc in *; simpl in *; [discriminate|].
    rewrite IH, concat_app. simpl. rewrite app_nil_r. reflexivity.
Qed.

Lemma index_nth {A} (l : list A) (i : Z) (x d : A) :
  0 <= i -> index l i = Some x -> nth (Z.to_nat i) l d = x.
Proof.
  intros Hi. unfold index.
  destruct (Z.ltb_spec i 0); [lia|].
  destruct ((i <? 0) || (len l <=? i)); [discriminate|].
  apply nth_error_nth.
Qed.

Lemma index_in_range {A} (l : list A) (i : Z) (x : A) :
  0 <= i -> index l i = Some x -> i < len l.
Proof.
  intros Hi. unfold index.
  destruct (Z.ltb_spec i 0); [lia|].
  destruct (Z.ltb_spec i 0); [lia|]. simpl.
  destruct (Z.leb_spec (len l) i); [discriminate|]. lia.
Qed.

Lemma index_last (l : list Z) (x d : Z) :
  index l (-1) = Some x -> List.last l d = x.
Proof.
  destruct l as [|a l'] using rev_ind; unfold index, len.
  - simpl. discriminate.
  - rewrite length_app, last_last. simpl length.
    change (-1 <? 0) with true. cbv iota.
    destruct (Z.ltb_spec (-1 + Z.of_nat (length l' + 1)) 0); [lia|].
    destruct (Z.leb_spec (Z.of_nat (length l' + 1))
                         (-1 + Z.of_nat (length l' + 1))); [lia|].
    simpl.
    replace (Z.to_nat (-1 + Z.of_nat (length l' + 1))) with (length l')
      by lia.
    rewrite nth_error_app2 by lia. rewrite Nat.sub_diag. simpl.
    congruence.
Qed.

Lemma slice_to_minus_one {A} (l : list A) : slice_to l (-1) = removelast l.
Proof.
  unfold slice_to. rewrite clamp_neg by lia.
  rewrite removelast_firstn_len. f_equal. lia.
Qed.

Lemma slice_0_2 {A} (l : list A) : slice l 0 2 = firstn 2 l.
Proof.
  unfold slice. rewrite !clamp_nonneg by lia.
  destruct l as [|a [|b l]]; reflexivity.
Qed.

Lemma slice_4_minus_one {A} (l : list A) :
  4 <= len l -> slice l 4 (-1) = firstn (length l - 5) (skipn 4 l).
Proof.
  unfold len. intros H. unfold slice.
  rewrite (clamp_nonneg _ 4), (clamp_neg _ (-1)) by lia.
  replace (Z.to_nat 4 `min` length l)%nat with 4%nat by lia.
  f_equal. lia.
Qed.

(** C3.  For every sequence of notifications after a reset: the
    notification on which the result event becomes set is exactly the one
    at which the accumulated bytes begin with the tag M:, are as many as
    their third and fourth byte declare ([b2 * 256 + b3 + 4], not more)
    and end in the sum of the bytes before modulo 256; the result handed
    over is then bytes 4 to len-2 of them, and the accumulator is empty
    again. *)
Theorem reassembly_halts_exactly_at_declared_length
        (st0 : state) (values : list (list Z)) (value : list Z) :
  received_value st0 = [] ->
  result_event (deliver st0 values) = false ->
  let st' := deliver st0 (values ++ [value]) in
  let acc := concat (values ++ [value]) in
  (result_event st' = true <-> well_framed acc)
  /\ (result_event st' = true ->
      len acc = nth 2 acc 0 * 256 + nth 3 acc 0 + 4
      /\ firstn 2 acc = [77; 58]
      /\ List.last acc 0 = sum (removelast acc) mod 256
      /\ result st' = slice acc 4 (-1)
      /\ result st' = firstn (length acc - 5) (skipn 4 acc)
      /\ received_value st' = []).
Proof.
  intros Hrv Hev st' acc.
  assert (Hacc : received_value (deliver st0 values) ++ value = acc).
  { rewrite (deliver_accumulates values st0 Hrv Hev). unfold acc.
    rewrite concat_app. simpl. rewrite app_nil_r. reflexivity. }
  unfold st'. rewrite deliver_snoc.
  destruct (notification_cases (deliver st0 values) value) as [[Hw Hc]|[Hw Hc]];
    rewrite Hacc in *; rewrite Hc; simpl.
  - split; [tauto|]. intros _.
    destruct Hw as (Hm & He & Hl).
    unfold expected_length in He.
    destruct (index acc 2) as [b2|] eqn:H2; [|discriminate].
    destruct (index acc 3) as [b3|] eqn:H3; [|discriminate].
    assert (H4 : 4 <= len acc)
      by (apply index_in_range in H3; lia).
    apply (index_nth _ _ _ 0) in H2; [|lia].
    apply (index_nth _ _ _ 0) in H3; [|lia].
    change (Z.to_nat 2) with 2%nat in H2.
    change (Z.to_nat 3) with 3%nat in H3.
    rewrite H2, H3.
    repeat split.
    + inversion He. lia.
    + rewrite <- slice_0_2. assumption.
    + rewrite <- slice_to_minus_one. apply index_last. assumption.
    + unfold result. simpl. apply slice_4_minus_one. assumption.
  - rewrite Hev. split; [|discriminate].
    split; [discriminate | tauto].
Qed.

Lemma reassembly_halts_exactly_at_declared_length_witness :
  received_value (reset fresh) = []
  /\ result_event (deliver (reset fresh) [[77; 58; 0]]) = false
  /\ let st' := deliver (reset fresh) ([[77; 58; 0]] ++ [[2; 129; 10]]) in
     let acc := concat ([[77; 58; 0]] ++ [[2; 129; 10]]) in
     (result_event st' = true <-> well_framed acc)
     /\ (result_event st' = true ->
         len acc = nth 2 acc 0 * 256 + nth 3 acc 0 + 4
         /\ firstn 2 acc = [77; 58]
         /\ List.last acc 0 = sum (removelast acc) mod 256
         /\ result st' = slice acc 4 (-1)
         /\ result st' = firstn (length acc - 5) (skipn 4 acc)
         /\ received_value st' = []).
Proof.
  split; [reflexivity|]. split; [reflexivity|].
  exact (reassembly_halts_exactly_at_declared_length
           (reset fresh) [[77; 58; 0]] [2; 129; 10] eq_refl eq_refl).
Defined.

(** The response of scenario A as the specification writes it: six
    bytes that declare a total of nine and whose last byte is not the
    sum of the others.  The callback keeps waiting. *)
Lemma scenario_A_as_written_is_not_taken :
  let response := [77; 58; 0; 5; 129; 134] in
  let st' := fst (characteristic_notification (reset fresh) response) in
  ~ (result_event st' = true /\ result st' = [129])
  /\ result_event st' = false
  /\ received_value st' = response
  /\ expected_length response = Some 9
  /\ sum (slice_to response (-1)) mod 256 = 13.
Proof.
  vm_compute. repeat split; try reflexivity.
  intros [H _]. discriminate.
Qed.

(** C4 (as amended).  The six bytes M: 0 2 0x81 0x0A, in one notification
    or in several, complete reassembly with the payload [0x81], the value
    [set_id] and [set_date_and_time] assert the result to be. *)
Theorem ack_response_decodes_to_sentinel :
  let response := [77; 58; 0; 2; 129; 10] in
  characteristic_notification (reset fresh) response
  = ({| received_value := []; result_ref := Some [129];
        result_event := true |}, None)
  /\ result (deliver (reset fresh) [[77; 58]; [0; 2; 129]; [10]]) = [129]
  /\ assert_ack [129] = None
  /\ snd (set_id [65; 66] [response] fresh) = None
  /\ snd (set_id [65; 66] [[77; 58; 0; 5; 129; 134]] fresh)
     = Some NotificationTimeout.
Proof. vm_compute. repeat split; reflexivity. Qed.

End Wireless_reassembly.

Section Measurement_word.
Import Py USB.

Example unpack_120_80_65 : unpack_word 68239480 = (120, 80, 65).
Proof. reflexivity. Qed.

Lemma ten_bit_high (x n : Z) :
  0 <= x <= 1023 -> 10 <= n -> Z.testbit x n = false.
Proof.
  intros Hx Hn.
  destruct (Z.eq_dec x 0) as [->|Hnz]; [apply Z.bits_0|].
  apply Z.bits_above_log2; [lia|].
  assert (Z.log2 x < 10); [|lia].
  apply Z.log2_lt_pow2; [lia|]. change (2 ^ 10) with 1024. lia.
Qed.

Lemma mask_1023 (n : Z) : 0 <= n -> Z.testbit 1023 n = (n <? 10).
Proof.
  intros Hn. change 1023 with (Z.ones 10).
  apply Z.testbit_ones_nonneg; lia.
Qed.

(** C7.  For sys, dia and pulse in [0, 1023], the decoder of [get_data]
    applied to [sys | (dia << 10) | (pulse << 20)] gives back
    (sys, dia, pulse). *)
Theorem unpack_word_round_trip (sys dia pulse : Z) :
  0 <= sys <= 1023 -> 0 <= dia <= 1023 -> 0 <= pulse <= 1023 ->
  unpack_word (Z.lor (Z.lor sys (Z.shiftl dia 10)) (Z.shiftl pulse 20))
  = (sys, dia, pulse).
Proof.
  intros Hs Hd Hp. unfold unpack_word.
  assert (Hlow : forall x n, 0 <= x <= 1023 -> n < 0 ->
                             Z.testbit x n = false)
    by (intros; apply Z.testbit_neg_r; lia).
  f_equal; [f_equal|]; apply Z.bits_inj'; intros n Hn;
    rewrite Z.land_spec, mask_1023 by lia;
    rewrite ?Z.shiftr_spec by lia;
    rewrite !Z.lor_spec, !Z.shiftl_spec by lia;
    destruct (Z.ltb_spec n 10);
    rewrite ?andb_true_r, ?andb_false_r.
  - rewrite (Z.testbit_neg_r dia (n - 10)), (Z.testbit_neg_r pulse (n - 20))
      by lia.
    rewrite !orb_false_r. reflexivity.
  - symmetry. apply ten_bit_high; lia.
  - rewrite (ten_bit_high sys (n + 10)) by lia.
    rewrite (Z.testbit_neg_r pulse (n + 10 - 20)) by lia.
    rewrite orb_false_r. simpl. f_equal. lia.
  - symmetry. apply ten_bit_high; lia.
  - rewrite (ten_bit_high sys (n + 20)), (ten_bit_high dia (n + 20 - 10))
      by lia.
    simpl. f_equal. lia.
  - symmetry. apply ten_bit_high; lia.
Qed.

Lemma unpack_word_round_trip_witness :
  0 <= 120 <= 1023 /\ 0 <= 80 <= 1023 /\ 0 <= 65 <= 1023
  /\ unpack_word (Z.lor (Z.lor 120 (Z.shiftl 80 10)) (Z.shiftl 65 20))
     = (120, 80, 65).
Proof.
  assert (H1 : 0 <= 120 <= 1023) by lia.
  assert (H2 : 0 <= 80 <= 1023) by lia.
  assert (H3 : 0 <= 65 <= 1023) by lia.
  split; [exact H1|]. split; [exact H2|]. split; [exact H3|].
  exact (unpack_word_round_trip 120 80 65 H1 H2 H3).
Defined.

End Measurement_word.

Section USB_frames.
Import Py USB.
Context {D : Type} `{HidDevice D}.

Lemma arg_chunks_nil (fuel : nat) : arg_chunks fuel [] = [].
Proof. destruct fuel; reflexivity. Qed.

Lemma slice_to_firstn {A} (l : list A) (k : Z) :
  0 <= k <= len l -> slice_to l k = firstn (Z.to_nat k) l.
Proof.
  unfold len. intros Hk. unfold slice_to. rewrite clamp_nonneg by lia.
  f_equal. lia.
Qed.

Lemma slice_from_skipn {A} (l : list A) (k : Z) :
  0 <= k <= len l -> slice_from l k = skipn (Z.to_nat k) l.
Proof.
  unfold len. intros Hk. unfold slice_from. rewrite clamp_nonneg by lia.
  f_equal. lia.
Qed.

Lemma arg_chunks_step (fuel : nat) (arg : list Z) :
  arg <> [] ->
  arg_chunks (S fuel) arg
  = (if len arg >? 7 then slice_to arg 7 else arg)
    :: arg_chunks fuel (if len arg >? 7 then slice_from arg 7 else []).
Proof. destruct arg; [congruence|reflexivity]. Qed.

(** The chunks are the argument cut into sevens: nothing is lost, none is
    empty, none is longer than seven. *)
Lemma arg_chunks_spec (fuel : nat) :
  forall arg, (length arg <= fuel)%nat ->
  concat (arg_chunks fuel arg) = arg
  /\ Forall (fun c => 1 <= len c <= 7) (arg_chunks fuel arg).
Proof.
  induction fuel as [|fuel IH]; intros arg Hlen.
  - destruct arg; [|simpl in Hlen; lia]. simpl. auto.
  - destruct arg as [|a arg']; [simpl; auto|].
    remember (a :: arg') as arg eqn:Earg.
    assert (Hpos : 1 <= len arg) by (subst; unfold len; simpl; lia).
    rewrite arg_chunks_step by (subst; discriminate).
    destruct (Z.gtb_spec (len arg) 7) as [Hgt|Hle].
    + rewrite slice_to_firstn, slice_from_skipn by lia.
      destruct (IH (skipn (Z.to_nat 7) arg)) as [Hc Hf].
      { rewrite length_skipn. unfold len in Hgt. lia. }
      split.
      * simpl. rewrite Hc. apply firstn_skipn.
      * constructor; [|exact Hf].
        unfold len. rewrite length_firstn. unfold len in Hgt. lia.
    + rewrite arg_chunks_nil. simpl. rewrite app_nil_r.
      split; [reflexivity|]. constructor; [lia|constructor].
Qed.

Lemma hexdigit_lower_byte (n : Z) :
  0 <= n < 16 -> is_byte (hexdigit_lower n) = true.
Proof.
  intros Hn. unfold is_byte, hexdigit_lower.
  destruct (Z.ltb_spec n 10); apply andb_true_intro;
    split; [apply Z.leb_le|apply Z.ltb_lt|apply Z.leb_le|apply Z.ltb_lt];
    lia.
Qed.

Lemma hex_bytes (l : list Z) :
  forallb is_byte l = true -> forallb is_byte (hex l) = true.
Proof.
  induction l as [|b l IH]; simpl; [reflexivity|].
  intros Hb. apply andb_true_iff in Hb as [Hb Hl].
  unfold is_byte in Hb. apply andb_true_iff in Hb as [H0 H1].
  apply Z.leb_le in H0. apply Z.ltb_lt in H1.
  rewrite !hexdigit_lower_byte.
  - simpl. apply IH, Hl.
  - apply Z.mod_pos_bound. lia.
  - split; [apply Z.div_pos; lia | apply Z.div_lt_upper_bound; lia].
Qed.

Lemma encode_arg_bytes (arg : list Z) :
  forallb is_byte arg = true -> forallb is_byte (encode_arg arg) = true.
Proof.
  intros Hb. unfold encode_arg. rewrite forallb_app.
  rewrite (hex_bytes arg Hb). rewrite andb_true_l.
  apply hex_bytes. simpl. rewrite andb_true_r.
  pose proof (Z.mod_pos_bound (sum (hex arg)) 256 ltac:(lia)).
  unfold is_byte. apply andb_true_intro.
  split; [apply Z.leb_le|apply Z.ltb_lt]; lia.
Qed.

Lemma forallb_concat_part {A} (f : A -> bool) (ls : list (list A)) :
  forallb f (concat ls) = true -> Forall (fun l => forallb f l = true) ls.
Proof.
  induction ls as [|l ls IH]; simpl; intros Hf; constructor.
  - rewrite forallb_app in Hf. apply andb_true_iff in Hf. tauto.
  - apply IH. rewrite forallb_app in Hf. apply andb_true_iff in Hf. tauto.
Qed.

(** C6 (as amended).  A write of at most seven bytes hands the driver
    the data behind its length (behind a zero and its length on
    Windows) and asserts the count the driver returns: elsewhere to be
    the size of that frame, on Windows to be 9 whatever the size of the
    frame, which is 9 only for seven bytes of data.  Every chunk the
    engine writes is within [USB_IO.write]'s own bound of seven bytes. *)
Theorem write_asserts_driver_count
        (win32 : bool) (data : list Z) (d : D) :
  len data <= 7 -> forallb is_byte data = true ->
  frame win32 data = (if win32 then [0] else []) ++ [len data] ++ data
  /\ len (frame win32 data) = len data + (if win32 then 2 else 1)
  /\ USB_IO_write win32 data d
     = (let (count, d') := hid_write d (frame win32 data) in
        if count =? (if win32 then 9 else len data + 1)
        then Done tt d' else Raised AssertionError d')
  /\ (win32 = true -> (len (frame win32 data) = 9 <-> len data = 7))
  /\ (forall cmd, len (command_bytes cmd) = 4)
  /\ (forall arg, forallb is_byte arg = true ->
        Forall (fun c => 1 <= len c <= 7 /\ forallb is_byte c = true)
               (arg_chunks (length (encode_arg arg)) (encode_arg arg))).
Proof.
  intros Hlen Hbytes.
  assert (Hfl : len (frame win32 data) = len data + (if win32 then 2 else 1)).
  { unfold frame, len. destruct win32; simpl length; lia. }
  split; [destruct win32; reflexivity|].
  split; [exact Hfl|].
  split.
  { unfold USB_IO_write.
    destruct (Z.leb_spec (len data) 7); [|lia]. simpl.
    rewrite Hbytes. simpl.
    destruct (hid_write d (frame win32 data)) as [count d'].
    destruct win32; [reflexivity|].
    rewrite Hfl. reflexivity. }
  split; [intros ->; rewrite Hfl; lia|].
  split; [reflexivity|].
  intros arg Harg.
  destruct (arg_chunks_spec (length (encode_arg arg)) (encode_arg arg)
                            (le_n _)) as [Hc Hf].
  pose proof (encode_arg_bytes arg Harg) as Hb.
  rewrite <- Hc in Hb at 1. apply forallb_concat_part in Hb.
  rewrite Forall_forall in *. intros c Hin. split; auto.
Qed.

End USB_frames.

Section USB_frames_on_the_simulated_device.
Import Py USB.

(** The claim of the specification, on the Windows branch: the driver
    reports 6, the size of the frame (report id, length, four command
    bytes), and the assertion fails all the same. *)
Lemma windows_write_of_command_fails_on_frame_size :
  let data := command_bytes CMD_GET_ID in
  len data <= 7
  /\ fst (hid_write plain_driver (frame true data)) = len data + 2
  /\ (exists d', USB_IO_write true data plain_driver
                 = Raised AssertionError d')
  /\ ~ (exists d', USB_IO_write true data plain_driver = Done tt d').
Proof.
  vm_compute. repeat split; try (intros; discriminate).
  - eexists. reflexivity.
  - intros [d' Hd]. discriminate.
Qed.

Lemma write_asserts_driver_count_witness :
  len (command_bytes CMD_GET_ID) <= 7
  /\ forallb is_byte (command_bytes CMD_GET_ID) = true
  /\ USB_IO_write true (command_bytes CMD_GET_ID) plain_driver
     = (let (count, d') :=
            hid_write plain_driver (frame true (command_bytes CMD_GET_ID)) in
        if count =? 9 then Done tt d' else Raised AssertionError d').
Proof.
  assert (H1 : len (command_bytes CMD_GET_ID) <= 7) by (vm_compute; discriminate).
  assert (H2 : forallb is_byte (command_bytes CMD_GET_ID) = true) by reflexivity.
  split; [exact H1|]. split; [exact H2|].
  exact (proj1 (proj2 (proj2
           (write_asserts_driver_count true (command_bytes CMD_GET_ID)
                                       plain_driver H1 H2)))).
Defined.

End USB_frames_on_the_simulated_device.

Section USB_commands.
Import Py USB.
Context {D : Type} `{HidDevice D}.
Variables (win32 prnt_takes_file : bool) (fuel : nat).

Lemma unexpected_dropped (response : list Z) (d : D) :
  unexpected response = true ->
  check_response prnt_takes_file response d = None.
Proof.
  unfold unexpected, check_response. intros ->. reflexivity.
Qed.

Lemma mismatched_dropped (response : list Z) (d : D) :
  prnt_takes_file = true -> mismatched response = true ->
  check_response prnt_takes_file response d = None.
Proof.
  unfold mismatched, check_response. intros -> Hm.
  destruct (_ || _); [reflexivity|].
  destruct (decode _); [|discriminate].
  destruct (bool_decide _); [discriminate|reflexivity].
Qed.

(** A response is returned, stripped of its status byte and trailer,
    exactly when it passes the [unexpected response] test and its trailer
    decodes to the two upper-case hex digits of the checksum. *)
Lemma check_response_accepts (response : list Z) (d : D) :
  check_response prnt_takes_file response d
  = Some (Done (Some (slice response 1 (-2))) d)
  <-> unexpected response = false
      /\ decode (slice_from response (-2))
         = Some (fmt_2X (sum (slice response 1 (len response - 2)) mod 256)).
Proof.
  unfold check_response, unexpected.
  destruct (_ || _).
  - split; [discriminate | intros [? _]; discriminate].
  - destruct (decode (slice_from response (-2))) as [t|].
    + case_bool_decide as Ht.
      * subst t. tauto.
      * split; [destruct prnt_takes_file; discriminate|].
        intros [_ E]. congruence.
    + split; [discriminate | intros [_ E]; discriminate].
Qed.

(** Two bytes decode to two characters below 128 only if they are those
    characters. *)
Lemma decode_two_ascii (b1 b2 x y : Z) :
  x < 128 -> y < 128 -> decode [b1; b2] = Some [x; y] -> b1 = x /\ b2 = y.
Proof.
  intros Hx Hy. unfold decode. simpl.
  destruct ((0 <=? b1) && (b1 <? 128)) eqn:E1.
  - destruct ((0 <=? b2) && (b2 <? 128)) eqn:E2.
    + simpl. intros E. injection E as <- <-. auto.
    + repeat (match goal with
              | |- context [if ?c then _ else _] => destruct c
              end; simpl; try discriminate).
  - destruct ((194 <=? b1) && (b1 <=? 223)) eqn:E3.
    + destruct (is_cont b2); simpl; discriminate.
    + repeat (match goal with
              | |- context [if ?c then _ else _] => destruct c
              end; simpl; try discriminate).
Qed.

(** A round whose response is dropped leaves the rest of the loop to run
    on the device as that round left it. *)
Lemma dropped_round (n : nat) (cmd : Z) (d d1 d2 : D) (r : list Z) :
  USB_IO_write win32 (command_bytes cmd) d = Done tt d1 ->
  USB_IO_read fuel d1 = Done r d2 ->
  check_response prnt_takes_file r d2 = None ->
  send_command_loop win32 prnt_takes_file fuel (S n) cmd None d
  = send_command_loop win32 prnt_takes_file fuel n cmd None d2
  /\ attempt win32 fuel cmd d = d2.
Proof.
  intros Hw Hr Hc. split.
  - simpl. rewrite Hw. simpl. rewrite Hr. simpl. rewrite Hc. reflexivity.
  - unfold attempt. rewrite Hw. simpl. rewrite Hr. reflexivity.
Qed.

(** C2 (as amended).  On a transport that takes every write of the
    command and answers every one with a response that is too short,
    not led by the status byte 6 or, where the [prnt] of the object
    takes a [file] keyword, closed by a trailer that decodes to other
    than the checksum, [send_command] goes through exactly 15 cycles of
    write and read and then returns None; it raises nothing. *)
Theorem exhausted_retries_return_none
        (Inv : D -> Prop) (cmd : Z) (d : D) :
  Inv d ->
  (forall d0, Inv d0 ->
     exists d1 r d2,
       USB_IO_write win32 (command_bytes cmd) d0 = Done tt d1
       /\ USB_IO_read fuel d1 = Done r d2
       /\ unexpected r || (prnt_takes_file && mismatched r) = true
       /\ Inv d2) ->
  send_command win32 prnt_takes_file fuel cmd None d
  = Done None (Nat.iter 15 (attempt win32 fuel cmd) d).
Proof.
  intros Hd Hstep. unfold send_command, MAX_RETRY.
  generalize 15%nat as n. intros n. revert d Hd.
  induction n as [|n IH]; intros d Hd; [reflexivity|].
  destruct (Hstep d Hd) as (d1 & r & d2 & Hw & Hr & Hbad & Hd2).
  assert (Hc : check_response prnt_takes_file r d2 = None).
  { apply orb_true_iff in Hbad as [Hu|Hm].
    - apply unexpected_dropped, Hu.
    - apply andb_true_iff in Hm as [Hp Hm].
      apply mismatched_dropped; assumption. }
  destruct (dropped_round n cmd d d1 d2 r Hw Hr Hc) as [-> Ha].
  rewrite Nat.iter_succ_r, Ha. apply IH, Hd2.
Qed.

(** C10.  In any round of [send_command] with an argument in which the
    response to the command bytes is the single byte 6: the hex digits
    of the argument and of their checksum are written in chunks of one
    to seven bytes, in order, and whatever the next read returns is the
    result as it is; there is no further round.  A byte count the
    driver reports wrong ends the call in [USB_IO.write]'s assertion.
    This is so for an argument of bytes.  An argument with an element
    outside 0..255 is refused by [bytearray(arg)] once the ACK has been
    read: the call ends in ValueError there, with nothing of the
    argument written and nothing more read. *)
Theorem set_command_returns_final_read_unchecked
        (n : nat) (cmd : Z) (arg : list Z) (d d1 d2 : D) :
  USB_IO_write win32 (command_bytes cmd) d = Done tt d1 ->
  USB_IO_read fuel d1 = Done [6] d2 ->
  let chunks := arg_chunks (length (encode_arg arg)) (encode_arg arg) in
  concat chunks = hex arg ++ hex [sum (hex arg) mod 256]
  /\ Forall (fun c => 1 <= len c <= 7) chunks
  /\ send_command_loop win32 prnt_takes_file fuel (S n) cmd (Some arg) d
     = (if forallb is_byte arg
        then bind (write_all win32 chunks d2) (fun _ d3 =>
             bind (USB_IO_read fuel d3) (fun r d4 => Done (Some r) d4))
        else Raised ValueError d2)
  /\ (forallb is_byte arg = true ->
      forall d3 r d4,
        write_all win32 chunks d2 = Done tt d3 ->
        USB_IO_read fuel d3 = Done r d4 ->
        send_command_loop win32 prnt_takes_file fuel (S n) cmd (Some arg) d
        = Done (Some r) d4).
Proof.
  intros Hw Hr chunks.
  destruct (arg_chunks_spec (length (encode_arg arg)) (encode_arg arg)
                            (le_n _)) as [Hc Hf].
  assert (Heq : send_command_loop win32 prnt_takes_file fuel (S n) cmd
                                  (Some arg) d
                = (if forallb is_byte arg
                   then bind (write_all win32 chunks d2) (fun _ d3 =>
                        bind (USB_IO_read fuel d3)
                             (fun r d4 => Done (Some r) d4))
                   else Raised ValueError d2)).
  { simpl. rewrite Hw. simpl. rewrite Hr. simpl.
    unfold send_argument. destruct (forallb is_byte arg); reflexivity. }
  split; [exact Hc|]. split; [exact Hf|]. split; [exact Heq|].
  intros Hb d3 r d4 Hwa Hrd. rewrite Heq, Hb, Hwa. simpl. rewrite Hrd.
  reflexivity.
Qed.

End USB_commands.

Section USB_commands_on_the_simulated_device.
Import Py USB.

Lemma silent_round (d : sim) :
  pending d = [] -> pads_to_report d = false ->
  exists d1 r d2,
    USB_IO_write false (command_bytes CMD_GET_ID) d = Done tt d1
    /\ USB_IO_read 1 d1 = Done r d2
    /\ unexpected r || (false && mismatched r) = true
    /\ (pending d2 = [] /\ pads_to_report d2 = false).
Proof.
  destruct d as [p w b]. simpl. intros -> ->.
  eexists _, _, _. repeat split.
Qed.

Lemma exhausted_retries_return_none_witness :
  send_command false false 1 CMD_GET_ID None plain_driver
  = Done None (Nat.iter 15 (attempt false 1 CMD_GET_ID) plain_driver).
Proof.
  apply (exhausted_retries_return_none false false 1
           (fun d => pending d = [] /\ pads_to_report d = false)).
  - split; reflexivity.
  - intros d0 [Hp Hb]. apply silent_round; assumption.
Defined.

(** What the specification says of the retry bound fails twice.  A
    silent device is asked 15 times and the call then returns None: no
    error is raised.  A device that always answers with a checksum that
    does not match is asked once: with the [prnt] the object has by
    default the call ends in TypeError on the first response. *)
Lemma retry_bound_as_written_fails :
  (exists d',
      send_command false false 1 CMD_GET_ID None plain_driver = Done None d'
      /\ length (written d') = 15%nat)
  /\ ~ (exists e d',
          send_command false false 1 CMD_GET_ID None plain_driver
          = Raised e d')
  /\ (exists d',
        send_command false false 2 CMD_GET_ID None garbled
        = Raised TypeError d'
        /\ length (written d') = 1%nat).
Proof.
  split; [|split].
  - eexists. split; vm_compute; reflexivity.
  - intros (e & d' & He). vm_compute in He. discriminate.
  - eexists. split; vm_compute; reflexivity.
Qed.

(** C5, at the failing input.  The response 06 41 30 30 is longer than
    three bytes and led by 6; the checksum of its payload is 0x41, its
    trailer reads 00.  It is not dropped for another round: the call
    ends in TypeError, after one write, with the other fourteen answers
    of the device unread.  A trailer that is not UTF-8 ends the call in
    UnicodeDecodeError, whatever [prnt] is. *)
Theorem checksum_mismatch_raises_instead_of_retrying :
  USB_IO_read 2 garbled
  = Done [6; 65; 48; 48]
         {| pending := concat (repeat [[4; 6; 65; 48; 48]; []] 14);
            written := []; pads_to_report := false |}
  /\ unexpected [6; 65; 48; 48] = false
  /\ mismatched [6; 65; 48; 48] = true
  /\ send_command false false 2 CMD_GET_ID None garbled
     = Raised TypeError
              {| pending := concat (repeat [[4; 6; 65; 48; 48]; []] 14);
                 written := [[4; 18; 22; 24; 36]];
                 pads_to_report := false |}
  /\ (forall prnt_takes_file,
        send_command false prnt_takes_file 2 CMD_GET_ID None high_bytes
        = Raised UnicodeDecodeError
                 {| pending := concat (repeat [[4; 6; 65; 255; 255]; []] 14);
                    written := [[4; 18; 22; 24; 36]];
                    pads_to_report := false |}).
Proof.
  repeat (apply conj; [vm_compute; reflexivity|]).
  intros p. vm_compute. reflexivity.
Qed.

Lemma set_command_returns_final_read_unchecked_witness :
  let arg := set_id_arg [65; 66] in
  send_command_loop false false 2 1 CMD_SET_ID (Some arg) acknowledging
  = Done (Some [63])
         {| pending := [];
            written := [4; 18; 22; 24; 35]
                       :: map (frame false)
                              (arg_chunks (length (encode_arg arg))
                                          (encode_arg arg));
            pads_to_report := false |}.
Proof.
  intros arg.
  refine (proj2 (proj2 (proj2
    (set_command_returns_final_read_unchecked
       false false 2 0 CMD_SET_ID arg acknowledging _ _ _ _)))
    _ _ _ _ _ _);
    vm_compute; reflexivity.
Defined.

(** C10, at an argument that is no bytes.  [set_id] stores [ord(id[i])]
    as it is; for the identifier A followed by U+0100 the monitor
    acknowledges the command, and then [bytearray(arg)] raises
    ValueError: only the command bytes have been written, no chunk of
    the argument, and the answer the monitor holds ready is not read,
    let alone returned. *)
Lemma set_command_of_a_wide_character_raises_after_the_ack :
  nth_error (set_id_arg [65; 256]) 5 = Some 256
  /\ send_command false false 2 CMD_SET_ID (Some (set_id_arg [65; 256]))
                  acknowledging
     = Raised ValueError
              {| pending := [[1; 63]; []];
                 written := [[4; 18; 22; 24; 35]];
                 pads_to_report := false |}
  /\ set_id false false 2 [65; 256] acknowledging
     = Raised ValueError
              {| pending := [[1; 63]; []];
                 written := [[4; 18; 22; 24; 35]];
                 pads_to_report := false |}
  /\ ~ (exists r d',
          send_command false false 2 CMD_SET_ID (Some (set_id_arg [65; 256]))
                       acknowledging
          = Done r d').
Proof.
  split; [reflexivity|].
  split; [vm_compute; reflexivity|].
  split; [vm_compute; reflexivity|].
  intros (r & d' & E). vm_compute in E. discriminate.
Qed.

End USB_commands_on_the_simulated_device.

Section USB_records.
Import Py USB.
Variable strptime : list Z -> option datetime.

Example two_slots_one_measurement :
  get_data_of strptime_digits two_slots []
  = ([(codes "2023-01-01 12:30", 120, 80, 65)], None).
Proof. vm_compute. reflexivity. Qed.

Lemma get_data_loop_app (response : list Z) (before rest : list Z) :
  forall ms,
    get_data_loop strptime response (before ++ rest) ms
    = match get_data_loop strptime response before ms with
      | (ms', None) => get_data_loop strptime response rest ms'
      | (ms', Some e) => (ms', Some e)
      end.
Proof.
  induction before as [|o before IH]; intros ms; simpl; [reflexivity|].
  destruct (get_data_record strptime response o ms) as [ms' [e|]];
    [reflexivity | apply IH].
Qed.

Lemma list_split_at {A} (l : list A) (k : nat) (x : A) :
  nth_error l k = Some x -> l = firstn k l ++ x :: skipn (S k) l.
Proof.
  revert k. induction l as [|a l IH]; intros [|k] Hk;
    try discriminate Hk.
  - injection Hk as ->. reflexivity.
  - change (a :: l = a :: (firstn k l ++ x :: skipn (S k) l)).
    f_equal. apply IH, Hk.
Qed.

(** C8.  A record whose first ten bytes do not decode, or decode to a
    string [strptime] rejects, is passed over: its round of the loop
    raises nothing and appends nothing, and the loop goes on with the
    next record, so that [get_data] ends as it would have, had the
    record not been among those announced. *)
Theorem unparsable_date_record_is_skipped
        (response : list Z) (offset : Z) (ms : list measurement) :
  mbind strptime
        (decode (slice (slice response offset (offset + RECORD_LENGTH)) 0 10))
  = None ->
  get_data_record strptime response offset ms = (ms, None)
  /\ (forall before rest ms0,
        get_data_loop strptime response (before ++ offset :: rest) ms0
        = get_data_loop strptime response (before ++ rest) ms0)
  /\ (forall n k,
        decode_hexnum (slice_to response 4) = Some n ->
        nth_error (record_offsets n) k = Some offset ->
        get_data_of strptime response ms
        = get_data_loop strptime response
            (firstn k (record_offsets n) ++ skipn (S k) (record_offsets n))
            ms).
Proof.
  intros Hdate.
  assert (Hrec : forall ms1,
             get_data_record strptime response offset ms1 = (ms1, None)).
  { intros ms1. unfold get_data_record. rewrite Hdate. reflexivity. }
  assert (Hloop : forall before rest ms0,
             get_data_loop strptime response (before ++ offset :: rest) ms0
             = get_data_loop strptime response (before ++ rest) ms0).
  { intros before rest ms0. rewrite !get_data_loop_app.
    destruct (get_data_loop strptime response before ms0) as [ms' [e|]];
      [reflexivity|].
    simpl. rewrite Hrec. reflexivity. }
  split; [apply Hrec|]. split; [exact Hloop|].
  intros n k Hn Hk. unfold get_data_of. rewrite Hn.
  rewrite (list_split_at _ _ _ Hk) at 1. apply Hloop.
Qed.

End USB_records.

Section USB_records_on_an_example.
Import Py USB.

Lemma unparsable_date_record_is_skipped_witness :
  mbind strptime_digits
        (decode (slice (slice two_slots 32 (32 + RECORD_LENGTH)) 0 10))
  = None
  /\ get_data_record strptime_digits two_slots 32 [] = ([], None)
  /\ get_data_of strptime_digits two_slots []
     = get_data_loop strptime_digits two_slots [64] [].
Proof.
  assert (Hd : mbind strptime_digits
                 (decode (slice (slice two_slots 32 (32 + RECORD_LENGTH))
                                0 10)) = None)
    by (vm_compute; reflexivity).
  pose proof (unparsable_date_record_is_skipped
                strptime_digits two_slots 32 [] Hd) as (Hr & _ & Hg).
  split; [exact Hd|]. split; [exact Hr|].
  exact (Hg 2 0%nat eq_refl eq_refl).
Defined.

End USB_records_on_an_example.

Section Patient_identifiers.
Import Py.

Example wireless_name : BTLE.user_name (codes "  Ann 7 " ++ [0; 200]) = codes "Ann 7".
Proof. vm_compute. reflexivity. Qed.

Example usb_id : USB.get_id (codes "416e6e3720ff") = codes "Ann7".
Proof. vm_compute. reflexivity. Qed.

(** *** Stores into a list at successive positions *)

Lemma bt_store_shift (id : list Z) :
  forall pos x cmd,
    BTLE.store_id (S pos) id (x :: cmd) = x :: BTLE.store_id pos id cmd.
Proof.
  induction id as [|c r IH]; intros pos x cmd; simpl; [reflexivity|].
  apply IH.
Qed.

Lemma bt_store_0 (id : list Z) :
  forall cmd, (length id <= length cmd)%nat ->
    BTLE.store_id 0 id cmd = id ++ skipn (length id) cmd.
Proof.
  induction id as [|c r IH]; intros cmd Hl; simpl; [reflexivity|].
  destruct cmd as [|x cmd]; simpl in Hl; [lia|]. simpl.
  rewrite bt_store_shift, IH by lia. reflexivity.
Qed.

Lemma usb_store_shift (id : list Z) :
  forall pos x arg,
    USB.store_id (S pos) id (x :: arg) = x :: USB.store_id pos id arg.
Proof.
  induction id as [|c r IH]; intros pos x arg; simpl; [reflexivity|].
  apply IH.
Qed.

Lemma usb_store_0 (id : list Z) :
  forall arg, (length id <= length arg)%nat ->
    USB.store_id 0 id arg = id ++ skipn (length id) arg.
Proof.
  induction id as [|c r IH]; intros arg Hl; simpl; [reflexivity|].
  destruct arg as [|x arg]; simpl in Hl; [lia|]. simpl.
  rewrite usb_store_shift, IH by lia. reflexivity.
Qed.

Lemma skipn_repeat {A} (x : A) (k n : nat) :
  skipn k (repeat x n) = repeat x (n - k).
Proof.
  revert n. induction k as [|k IH]; intros [|n]; simpl; auto.
Qed.

(** [id[:limit] if len(id) > limit else id] is the first [limit]
    characters. *)
Lemma truncated (id : list Z) (limit : Z) :
  0 <= limit ->
  (if len id >? limit then slice_to id limit else id)
  = firstn (Z.to_nat limit) id.
Proof.
  intros Hl. unfold len.
  destruct (Z.gtb_spec (Z.of_nat (length id)) limit).
  - unfold slice_to. rewrite clamp_nonneg by lia. f_equal. lia.
  - symmetry. apply firstn_all2. lia.
Qed.

(** *** [strip] *)

Lemma lstrip_no_lead (s : list Z) : no_lead (lstrip s).
Proof.
  induction s as [|c s IH]; simpl; [exact I|].
  destruct (isspace c) eqn:E; [exact IH | exact E].
Qed.

Lemma lstrip_suffix (s : list Z) : exists w, s = w ++ lstrip s.
Proof.
  induction s as [|c s [w IH]]; simpl.
  - exists []. reflexivity.
  - destruct (isspace c).
    + exists (c :: w). simpl. f_equal. exact IH.
    + exists []. reflexivity.
Qed.

Lemma lstrip_fixed (s : list Z) : no_lead s -> lstrip s = s.
Proof.
  destruct s as [|c s]; simpl; [reflexivity|]. intros ->. reflexivity.
Qed.

Lemma no_lead_prefix (a b : list Z) :
  no_lead (a ++ b) -> a <> [] -> no_lead a.
Proof. destruct a; simpl; [congruence | auto]. Qed.

Lemma strip_trimmed (s : list Z) :
  no_lead (strip s) /\ no_lead (rev (strip s)).
Proof.
  unfold strip. rewrite rev_involutive. split; [|apply lstrip_no_lead].
  destruct (lstrip_suffix (rev (lstrip s))) as [w Hw].
  destruct (lstrip (rev (lstrip s))) as [|c u] eqn:Eu; [exact I|].
  apply (no_lead_prefix _ (rev w)); [|destruct u; simpl; intros E;
    [discriminate | apply app_eq_nil in E as [_ E]; discriminate]].
  rewrite <- rev_app_distr, <- Hw, rev_involutive.
  apply lstrip_no_lead.
Qed.

Lemma strip_sub (P : Z -> Prop) (s : list Z) :
  Forall P s -> Forall P (strip s) /\ (length (strip s) <= length s)%nat.
Proof.
  assert (Hl : forall t, Forall P t ->
                 Forall P (lstrip t) /\ (length (lstrip t) <= length t)%nat).
  { intros t Ht. destruct (lstrip_suffix t) as [w Hw].
    split.
    - rewrite Hw in Ht. apply Forall_app in Ht. tauto.
    - rewrite Hw at 2. rewrite length_app. lia. }
  intros Hs. unfold strip.
  destruct (Hl s Hs) as [H1 L1].
  assert (H2 : Forall P (rev (lstrip s))) by (apply Forall_rev, H1).
  destruct (Hl _ H2) as [H3 L3].
  split; [apply Forall_rev, H3|].
  rewrite length_rev in *. lia.
Qed.

Lemma user_name_spec (bytes : list Z) :
  Forall (fun c => 32 <= c < 128) (BTLE.user_name bytes)
  /\ (length (BTLE.user_name bytes) <= length bytes)%nat
  /\ no_lead (BTLE.user_name bytes)
  /\ no_lead (rev (BTLE.user_name bytes)).
Proof.
  unfold BTLE.user_name.
  set (kept := List.filter _ bytes).
  assert (Hk : Forall (fun c => 32 <= c < 128) kept).
  { apply List.Forall_forall. intros c Hin.
    apply filter_In in Hin as [_ Hc].
    apply andb_true_iff in Hc as [H1 H2].
    apply Z.leb_le in H1. apply Z.ltb_lt in H2. lia. }
  destruct (strip_sub _ kept Hk) as [Hf Hlen].
  pose proof (List.filter_length_le
                (fun b => (32 <=? b) && (b <? 128)) bytes) as Hfl.
  fold kept in Hfl.
  destruct (strip_trimmed kept) as [Ha Hb].
  repeat split; try assumption; lia.
Qed.

(** *** The loop of the USB [get_id] *)

Lemma get_id_step_spec (pair id id' : list Z) :
  USB.get_id_step pair id = Some id' ->
  exists ch, id' = id ++ [ch] /\ isalnum ch = true /\ printable ch = true.
Proof.
  unfold USB.get_id_step.
  destruct (USB.decode_hexnum pair) as [ch|]; [|discriminate].
  destruct (Z.ltb_spec ch 32); simpl; [discriminate|].
  destruct (Z.gtb_spec ch 126); simpl; [discriminate|].
  destruct (isalnum ch) eqn:Ea; simpl; [|discriminate].
  intros E. injection E as <-. exists ch.
  split; [reflexivity|]. split; [exact Ea|].
  unfold printable. apply andb_true_intro.
  split; [apply Z.leb_le | apply Z.leb_le]; lia.
Qed.

Lemma get_id_loop_spec (n : nat) :
  forall data id, (length data <= n)%nat ->
  exists added,
    USB.get_id_loop data id = id ++ added
    /\ Forall (fun c => isalnum c = true /\ printable c = true) added
    /\ (2 * length added <= length data + 1)%nat.
Proof.
  induction n as [|n IH]; intros data id Hlen.
  - destruct data; [|simpl in Hlen; lia].
    exists []. simpl. rewrite app_nil_r. auto.
  - destruct data as [|b0 [|b1 rest]].
    + exists []. simpl. rewrite app_nil_r. auto.
    + simpl. destruct (USB.get_id_step [b0] id) as [id'|] eqn:E.
      * apply get_id_step_spec in E as (ch & -> & Ha & Hp).
        exists [ch]. simpl. repeat split; auto.
      * exists []. rewrite app_nil_r. simpl. auto.
    + simpl. destruct (USB.get_id_step [b0; b1] id) as [id'|] eqn:E.
      * apply get_id_step_spec in E as (ch & -> & Ha & Hp).
        destruct (IH rest (id ++ [ch])) as (added & -> & Hf & Hl).
        { simpl in Hlen. lia. }
        exists (ch :: added). rewrite <- app_assoc. simpl.
        repeat split; auto. simpl. lia.
      * exists []. rewrite app_nil_r. simpl. split; auto. split; auto. lia.
Qed.

Lemma slice_length_le {A} (l : list A) (lo hi : Z) :
  0 <= lo <= hi -> (length (slice l lo hi) <= Z.to_nat (hi - lo))%nat.
Proof.
  intros Hb. unfold slice. rewrite !clamp_nonneg by lia.
  rewrite length_firstn. lia.
Qed.

(** C9 (as amended).  The identifier [set_id] puts into its command is
    the first 20 characters of the one supplied (wireless) or the first
    11 (USB), as they are, followed by zeros.  The identifier the
    wireless [get_id] returns has at most 20 characters, all with codes
    from 32 up and below 128, and neither begins nor ends with white
    space.  The identifier the USB [get_patient_id] decodes has at most
    11 characters, all ASCII letters or digits. *)
Theorem identifiers_are_bounded (id res response : list Z) :
  (let sent := firstn 20 id in
   let body := [77; 255; 0; 24; 6; 253] ++ sent
               ++ repeat 0 (20 - length sent) ++ [216] in
   BTLE.set_id_cmd id = body ++ [sum body mod 256]
   /\ (length sent <= 20)%nat)
  /\ (let sent := firstn 11 id in
      USB.set_id_arg id = [0; 1; 0; 1] ++ sent ++ repeat 0 (28 - length sent)
      /\ (length sent <= 11)%nat)
  /\ (forall user name,
        BTLE.get_id res = Some (user, name) ->
        (length name <= 20)%nat
        /\ Forall (fun c => 32 <= c < 128) name
        /\ no_lead name /\ no_lead (rev name))
  /\ (let name := USB.get_id (slice response 0 (2 * USB.ID_LENGTH)) in
      (length name <= 11)%nat
      /\ Forall (fun c => isalnum c = true /\ printable c = true) name).
Proof.
  split; [|split; [|split]].
  - intros sent body.
    assert (Hs : (length sent <= 20)%nat)
      by (unfold sent; rewrite length_firstn; lia).
    split; [|exact Hs].
    unfold BTLE.set_id_cmd, BTLE.MAX_ID_LENGTH.
    rewrite truncated by lia. change (Z.to_nat 20) with 20%nat. fold sent.
    assert (Hst : BTLE.store_id 6 sent
                    [77; 255; 0; 24; 6; 253; 0; 0; 0; 0; 0; 0; 0; 0; 0; 0;
                     0; 0; 0; 0; 0; 0; 0; 0; 0; 0; 216] = body).
    { rewrite !bt_store_shift.
      change [0; 0; 0; 0; 0; 0; 0; 0; 0; 0; 0; 0; 0; 0; 0; 0; 0; 0; 0; 0; 216]
        with (repeat 0 20 ++ [216]).
      rewrite bt_store_0 by (rewrite length_app, repeat_length; simpl; lia).
      rewrite skipn_app, skipn_repeat, repeat_length.
      replace (length sent - 20)%nat with 0%nat by lia.
      reflexivity. }
    rewrite Hst. reflexivity.
  - intros sent.
    assert (Hs : (length sent <= 11)%nat)
      by (unfold sent; rewrite length_firstn; lia).
    split; [|exact Hs].
    unfold USB.set_id_arg, USB.ID_LENGTH.
    rewrite truncated by lia. change (Z.to_nat 11) with 11%nat. fold sent.
    change (<[3%nat:=1]> (<[1%nat:=1]> (repeat 0 32)))
      with ([0; 1; 0; 1] ++ repeat 0 28).
    cbn [app]. rewrite !usb_store_shift.
    rewrite usb_store_0 by (rewrite repeat_length; lia).
    rewrite skipn_repeat. reflexivity.
  - intros user name Hg. unfold BTLE.get_id, BTLE.MAX_ID_LENGTH in Hg.
    destruct (index res 1) as [u|]; [|discriminate].
    destruct (u =? 1); injection Hg as <- <-.
    + destruct (user_name_spec (slice res 2 (20 + 2))) as (Hf & Hl & Ha & Hb).
      pose proof (slice_length_le res 2 (20 + 2) ltac:(lia)).
      repeat split; try assumption. simpl in *. lia.
    + destruct (user_name_spec (slice res 23 (20 + 23))) as (Hf & Hl & Ha & Hb).
      pose proof (slice_length_le res 23 (20 + 23) ltac:(lia)).
      repeat split; try assumption. simpl in *. lia.
  - intros name. unfold name, USB.get_id, USB.ID_LENGTH.
    destruct (get_id_loop_spec _ (slice response 0 (2 * 11)) [] (le_n _))
      as (added & -> & Hf & Hl).
    pose proof (slice_length_le response 0 (2 * 11) ltac:(lia)).
    simpl in *. split; [lia | exact Hf].
Qed.

(** The identifier is not always printable, neither on its way to the
    device (a caller-supplied BEL goes out as it is, on both links) nor
    on its way back (the wireless decoder keeps DEL). *)
Lemma identifiers_are_not_all_printable :
  (slice (BTLE.set_id_cmd [65; 7]) 6 8 = [65; 7]
   /\ slice (USB.set_id_arg [65; 7]) 4 6 = [65; 7]
   /\ printable 7 = false)
  /\ (BTLE.get_id [0; 1; 65; 127; 66] = Some (1, [65; 127; 66])
      /\ printable 127 = false
      /\ ~ Forall (fun c => printable c = true)
                  (BTLE.user_name [65; 127; 66])).
Proof.
  split; [vm_compute; auto|].
  split; [vm_compute; reflexivity|]. split; [reflexivity|].
  intros Hf. change (BTLE.user_name [65; 127; 66]) with [65; 127; 66] in Hf.
  inversion Hf as [|? ? _ Hr]; subst.
  inversion Hr as [|? ? Hd _]; subst. discriminate Hd.
Qed.

End Patient_identifiers.

Section Discovery_round.
Import Discovery.
Local Open Scope nat_scope.

Variable devices : list device.
Hypothesis addresses : Forall (fun d => address d <> ""%string) devices.

Lemma truthy_some (a : string) : a <> ""%string -> truthy (Some a) = true.
Proof.
  intros Ha. simpl. apply negb_true_iff. apply String.eqb_neq. exact Ha.
Qed.

Lemma lookup_set (ts : list pc) (i j : nat) (p q : pc) :
  <[i := p]> ts !! j = Some q ->
  (i = j /\ q = p) \/ (i <> j /\ ts !! j = Some q).
Proof.
  intros Hq. apply list_lookup_insert_Some in Hq.
  destruct Hq as [(-> & -> & _)|[Hne Hq]]; auto.
Qed.

Lemma finders_app (l1 l2 : list event) :
  finders (l1 ++ l2) = finders l1 ++ finders l2.
Proof. apply flat_map_app. Qed.

Lemma commanders_app (l1 l2 : list event) :
  commanders (l1 ++ l2) = commanders l1 ++ commanders l2.
Proof. apply flat_map_app. Qed.


Lemma invariant_init : invariant devices (init devices).
Proof.
  split; [apply length_map|]. simpl. split; [reflexivity|].
  intros i d p _ Hp.
  assert (Hc : forall (l : list device) k,
             map (fun _ => Created) l !! k = Some p -> p = Created).
  { induction l as [|x l IH]; intros [|k] Hk; simpl in Hk;
      try discriminate; [congruence | eapply IH; exact Hk]. }
  rewrite (Hc _ _ Hp). exact I.
Qed.

(** A move of one task while the flag is not set. *)
Lemma invariant_waiting (s : state) (i : nat) (d : device) (p' : pc) :
  invariant devices s -> found_device s = None ->
  devices !! i = Some d -> waiting_ok d p' ->
  invariant devices (set_pc i p' [] s).
Proof.
  intros [Hlen Hinv] Hf Hd Hp'. rewrite Hf in Hinv.
  destruct Hinv as [Hlog Hall].
  split; [simpl; rewrite length_insert; exact Hlen|].
  simpl. rewrite Hf. split; [rewrite Hlog; reflexivity|].
  intros j dj pj Hdj Hpj.
  apply lookup_set in Hpj as [[-> ->]|[_ Hpj]].
  - rewrite Hd in Hdj. injection Hdj as <-. exact Hp'.
  - eapply Hall; eassumption.
Qed.

(** A move of one task once the flag is set: the task in its session
    stays in it, any other stays out and writes no command. *)
Lemma invariant_decided (s : state) (i : nat) (d : device) (p p' : pc)
      (evs : list event) (a : string) :
  invariant devices s -> found_device s = Some a ->
  devices !! i = Some d -> tasks s !! i = Some p ->
  finders evs = [] ->
  (in_session p = true ->
   in_session p' = true /\ Forall (eq i) (commanders evs)) ->
  (loser_ok d p -> loser_ok d p' /\ commanders evs = []) ->
  invariant devices (set_pc i p' evs s).
Proof.
  intros [Hlen Hinv] Hf Hd Hp Hfind Hwin Hlose. rewrite Hf in Hinv.
  destruct Hinv as (Ha & w & dw & pw & Hdw & Hpw & Haddr & Hm & Hs
                    & Hfw & Hcw & Hall).
  split; [simpl; rewrite length_insert; exact Hlen|].
  simpl. rewrite Hf. split; [exact Ha|].
  rewrite finders_app, commanders_app, Hfind, app_nil_r.
  destruct (decide (i = w)) as [->|Hne].
  - rewrite Hpw in Hp. injection Hp as <-.
    destruct (Hwin Hs) as [Hs' Hc'].
    exists w, dw, p'. repeat split; try assumption.
    + apply list_lookup_insert_eq. eapply lookup_lt_Some. exact Hpw.
    + apply Forall_app. split; assumption.
    + intros j dj pj Hj Hdj Hpj.
      rewrite list_lookup_insert_ne in Hpj by congruence.
      eapply Hall; eassumption.
  - destruct (Hlose (Hall i d p Hne Hd Hp)) as [Hl' Hc'].
    exists w, dw, pw. repeat split; try assumption.
    + rewrite list_lookup_insert_ne by exact Hne. exact Hpw.
    + rewrite Hc', app_nil_r. exact Hcw.
    + intros j dj pj Hj Hdj Hpj.
      apply lookup_set in Hpj as [[-> ->]|[_ Hpj]].
      * rewrite Hd in Hdj. injection Hdj as <-. exact Hl'.
      * eapply Hall; eassumption.
Qed.

(** The move that sets the flag. *)
Lemma invariant_win (s : state) (i : nat) (d : device) (g : gatt) :
  invariant devices s -> found_device s = None ->
  devices !! i = Some d -> tasks s !! i = Some Enumerating ->
  services d = Some g -> is_monitor g = true ->
  invariant devices
            {| found_device := Some (address d);
               tasks := <[i := Exchanging (session d)]> (tasks s);
               log := log s ++ [Found i] |}.
Proof.
  intros [Hlen Hinv] Hf Hd Hp Hg Hmon. rewrite Hf in Hinv.
  destruct Hinv as [Hlog Hall].
  split; [simpl; rewrite length_insert; exact Hlen|].
  simpl. split.
  { rewrite Forall_forall in addresses. apply addresses.
    eapply list_elem_of_lookup_2. exact Hd. }
  exists i, d, (Exchanging (session d)).
  pose proof (Hall i d Enumerating Hd Hp) as Hc. simpl in Hc.
  rewrite Hlog. simpl.
  repeat split; try assumption; try reflexivity.
  - apply list_lookup_insert_eq. eapply lookup_lt_Some. exact Hp.
  - unfold matching. rewrite Hc, Hg. exact Hmon.
  - constructor.
  - intros j dj pj Hj Hdj Hpj.
    rewrite list_lookup_insert_ne in Hpj by congruence.
    pose proof (Hall j dj pj Hdj Hpj) as Hw.
    destruct pj as [| | | |[]]; simpl in *; tauto.
Qed.

Lemma invariant_step (s : state) (i : nat) :
  invariant devices s -> invariant devices (step_task devices i s).
Proof.
  intros Hinv. unfold step_task.
  destruct (devices !! i) as [d|] eqn:Hd; [|exact Hinv].
  destruct (tasks s !! i) as [p|] eqn:Hp; [|exact Hinv].
  destruct (found_device s) as [a|] eqn:Hf.
  - (* the flag is set *)
    assert (Ha : a <> ""%string)
      by (destruct Hinv as [_ Hi]; rewrite Hf in Hi; tauto).
    rewrite (truthy_some a Ha). unfold on_exception.
    destruct p as [| | |[|n]|e]; simpl; try exact Hinv.
    + eapply invariant_decided; eauto; simpl; intros; try discriminate; auto.
    + destruct (connects d) eqn:Hc; simpl.
      * eapply invariant_decided; eauto; simpl; intros;
          try discriminate; auto.
      * destruct (is_found _ _);
          (eapply invariant_decided; eauto; simpl; intros;
           try discriminate; split; auto;
           unfold matching; rewrite Hc; reflexivity).
    + destruct (services d) as [g|] eqn:Hg.
      * destruct (is_monitor g) eqn:Hm; simpl;
          (eapply invariant_decided; eauto; simpl; intros;
           try discriminate; split; auto;
           unfold matching; rewrite Hg, Hm; apply andb_false_r).
      * destruct (is_found _ _);
          (eapply invariant_decided; eauto; simpl; intros;
           try discriminate; split; auto;
           unfold matching; rewrite Hg; apply andb_false_r).
    + destruct (session_raises d); [destruct (is_found _ _)|
                                    destruct (1 <? length devices)];
        (eapply invariant_decided; eauto; simpl; intros; try tauto;
         split; auto).
    + eapply invariant_decided; eauto; simpl; intros; try tauto.
      split; auto.
  - (* the flag is not set *)
    assert (Hw : waiting_ok d p).
    { destruct Hinv as [_ Hi]. rewrite Hf in Hi. destruct Hi as [_ Hall].
      eapply Hall; eassumption. }
    unfold on_exception. rewrite Hf. simpl.
    destruct p as [| | |n|e]; simpl in Hw; try tauto; try exact Hinv.
    + apply invariant_waiting with d; simpl; auto.
    + destruct (connects d) eqn:Hc; simpl.
      * apply invariant_waiting with d; simpl; auto.
      * apply invariant_waiting with d; auto. simpl.
        unfold matching. rewrite Hc. reflexivity.
    + destruct (services d) as [g|] eqn:Hg.
      * destruct (is_monitor g) eqn:Hm; simpl.
        -- eapply invariant_win; eauto.
        -- apply invariant_waiting with d; auto. simpl.
           unfold matching. rewrite Hg, Hm. apply andb_false_r.
      * apply invariant_waiting with d; auto. simpl.
        unfold matching. rewrite Hg. apply andb_false_r.
Qed.

Lemma invariant_run (schedule : list nat) :
  forall s, invariant devices s ->
            invariant devices (run_tasks devices schedule s).
Proof.
  induction schedule as [|i schedule IH]; intros s Hs; [exact Hs|].
  simpl. apply IH, invariant_step, Hs.
Qed.

(** *** Every task comes to its end *)

Lemma step_length (s : state) (i : nat) :
  length (tasks (step_task devices i s)) = length (tasks s).
Proof.
  unfold step_task, on_exception, set_pc.
  repeat case_match; simpl; rewrite ?length_insert; reflexivity.
Qed.

Lemma step_other (s : state) (i j : nat) :
  i <> j -> tasks (step_task devices i s) !! j = tasks s !! j.
Proof.
  intros Hne. unfold step_task, on_exception, set_pc.
  repeat case_match; simpl; rewrite ?list_lookup_insert_ne by exact Hne;
    reflexivity.
Qed.

Lemma step_self (s : state) (i : nat) (d : device) (p : pc) :
  devices !! i = Some d -> tasks s !! i = Some p ->
  exists p', tasks (step_task devices i s) !! i = Some p'
             /\ turns_left d p' <= turns_left d p - 1.
Proof.
  intros Hd Hp. pose proof (lookup_lt_Some _ _ _ Hp) as Hlt.
  unfold step_task, on_exception, set_pc. rewrite Hd, Hp.
  repeat case_match; simpl; rewrite ?list_lookup_insert_eq by exact Hlt;
    try (eexists; split; [reflexivity|]; simpl; lia).
  exists p. subst. split; [assumption | simpl; lia].
Qed.

Lemma run_to_its_end (k : nat) :
  forall s i d p,
    devices !! i = Some d -> tasks s !! i = Some p ->
    turns_left d p <= k ->
    let s' := run_tasks devices (repeat i k) s in
    (exists e, tasks s' !! i = Some (Finished e))
    /\ (forall j, j <> i -> tasks s' !! j = tasks s !! j)
    /\ length (tasks s') = length (tasks s).
Proof.
  induction k as [|k IH]; intros s i d p Hd Hp Hk.
  - simpl. split; [|split; reflexivity].
    destruct p; simpl in Hk; try lia. eauto.
  - simpl. destruct (step_self s i d p Hd Hp) as (p' & Hp' & Hk').
    destruct (IH (step_task devices i s) i d p' Hd Hp' ltac:(lia))
      as (He & Ho & Hl).
    split; [exact He|]. split.
    + intros j Hj. rewrite Ho by exact Hj. apply step_other. congruence.
    + rewrite Hl. apply step_length.
Qed.

Lemma run_tasks_app (s : state) (l1 l2 : list nat) :
  run_tasks devices (l1 ++ l2) s
  = run_tasks devices l2 (run_tasks devices l1 s).
Proof. apply fold_left_app. Qed.

Lemma turns_eq (i : nat) (d : device) :
  devices !! i = Some d ->
  turns devices i = repeat i (turns_left d Created).
Proof. intros Hd. unfold turns. rewrite Hd. reflexivity. Qed.

Lemma created_at (l : list device) (k : nat) :
  k < length l -> map (fun _ => Created) l !! k = Some Created.
Proof.
  revert k. induction l as [|x l IHl]; intros [|k] Hk; simpl in *;
    try lia; [reflexivity | apply IHl; lia].
Qed.

Lemma sequential_prefix (m : nat) :
  m <= length devices ->
  length (tasks (run_tasks devices (flat_map (turns devices) (seq 0 m))
                           (init devices))) = length devices
  /\ (forall j, j < m ->
        exists e,
          tasks (run_tasks devices (flat_map (turns devices) (seq 0 m))
                           (init devices)) !! j = Some (Finished e))
  /\ (forall j, m <= j -> j < length devices ->
        tasks (run_tasks devices (flat_map (turns devices) (seq 0 m))
                         (init devices)) !! j = Some Created).
Proof.
  induction m as [|m IH]; intros Hm.
  - simpl. split; [apply length_map|]. split; [lia|].
    intros j _ Hj. apply created_at, Hj.
  - destruct (IH ltac:(lia)) as (Hl & Hdone & Hrest).
    rewrite seq_S, flat_map_app, run_tasks_app.
    set (s := run_tasks devices (flat_map (turns devices) (seq 0 m))
                        (init devices)) in *.
    destruct (lookup_lt_is_Some_2 devices m ltac:(lia)) as [d Hd].
    change (flat_map (turns devices) [0 + m]) with (turns devices m ++ []).
    rewrite app_nil_r, (turns_eq m d Hd).
    destruct (run_to_its_end (turns_left d Created) s m d Created Hd
                (Hrest m (le_n _) ltac:(lia)) (le_n _)) as (He & Ho & Hl').
    split; [rewrite Hl'; exact Hl|]. split.
    + intros j Hj. destruct (decide (j = m)) as [->|Hne]; [exact He|].
      rewrite Ho by exact Hne. apply Hdone. lia.
    + intros j Hj Hn. rewrite Ho by lia. apply Hrest; lia.
Qed.

Lemma sequential_completes :
  all_done (run_tasks devices (sequential devices) (init devices)) = true.
Proof.
  destruct (sequential_prefix (length devices) (le_n _)) as (Hl & Hdone & _).
  unfold all_done. apply forallb_forall. intros p Hin.
  apply list_elem_of_In, list_elem_of_lookup_1 in Hin as [j Hj].
  destruct (Hdone j) as [e He].
  - rewrite <- Hl. eapply lookup_lt_Some. exact Hj.
  - unfold sequential in Hj. rewrite Hj in He. injection He as ->.
    reflexivity.
Qed.

Lemma waiting_not_in_session (d : device) (p : pc) :
  waiting_ok d p -> in_session p = false.
Proof. destruct p as [| | | |[]]; simpl; tauto. Qed.



End Discovery_round.

Section Discovery_round_on_an_example.
Import Discovery.
Local Open Scope nat_scope.

Example neck_and_neck_ends :
  run_tasks nearby neck_and_neck (init nearby)
  = {| found_device := Some "c8:0f:10:00:00:0b"%string;
       tasks := [Finished (SawFlag 3); Finished NoMatch;
                 Finished SessionDone];
       log := [Found 2; Command 2; Command 2; Command 2;
               Communication_done 2] |}.
Proof. vm_compute. reflexivity. Qed.


End Discovery_round_on_an_example.

(* ================================================================== *)
(** * Further properties of the wireless engine *)

Section Wireless_frames.
Import Py BTLE.

Lemma index_app_l {A} (l r : list A) (i : Z) (x : A) :
  0 <= i -> index l i = Some x -> index (l ++ r) i = Some x.
Proof.
  intros Hi Hx. pose proof (index_in_range l i x Hi Hx) as Hlt.
  unfold index, len in *. rewrite length_app.
  destruct (Z.ltb_spec i 0); [lia|].
  destruct (Z.ltb_spec i 0); [lia|]. simpl in *.
  destruct (Z.leb_spec (Z.of_nat (length l)) i); [lia|].
  destruct (Z.leb_spec (Z.of_nat (length l + length r)) i); [lia|].
  rewrite nth_error_app1 by lia. exact Hx.
Qed.





(** The chunks [send_command] writes: the command cut in twenties. *)
Lemma write_chunks_spec (fuel : nat) :
  forall cmd, (length cmd <= fuel)%nat ->
  exists rest,
    cmd = concat (fst (write_chunks fuel cmd)) ++ rest
    /\ Forall (fun c => 1 <= len c <= 20 /\ forallb is_byte c = true)
              (fst (write_chunks fuel cmd))
    /\ Forall (fun c => len c = 20) (removelast (fst (write_chunks fuel cmd)))
    /\ match snd (write_chunks fuel cmd) with
       | None => rest = []
       | Some e =>
         e = ValueError
         /\ Forall (fun c => len c = 20) (fst (write_chunks fuel cmd))
         /\ forallb is_byte (firstn 20 rest) = false
       end.
Proof.
  induction fuel as [|fuel IH]; intros cmd Hlen.
  - destruct cmd; [|simpl in Hlen; lia]. exists []. simpl. auto.
  - destruct cmd as [|a cmd']; [exists []; simpl; auto|].
    remember (a :: cmd') as cmd eqn:Ecmd.
    assert (Hpos : 1 <= len cmd) by (subst; unfold len; simpl; lia).
    assert (Hstep : write_chunks (S fuel) cmd
                    = let (chunk, next_cmd) := split_write_cmd cmd in
                      if forallb is_byte chunk then
                        match next_cmd with
                        | Some rest =>
                          let (ws, e) := write_chunks fuel rest in
                          (chunk :: ws, e)
                        | None => ([chunk], None)
                        end
                      else ([], Some ValueError))
      by (subst; reflexivity).
    rewrite Hstep. clear Hstep. unfold split_write_cmd.
    destruct (Z.gtb_spec (len cmd) 20) as [Hgt|Hle].
    + rewrite slice_to_firstn, slice_from_skipn by lia.
      change (Z.to_nat 20) with 20%nat.
      destruct (forallb is_byte (firstn 20 cmd)) eqn:Hb.
      * destruct (IH (skipn 20 cmd)) as (rest & Hc & Hf & Hr & He).
        { rewrite length_skipn. unfold len in Hgt. lia. }
        destruct (write_chunks fuel (skipn 20 cmd)) as [ws e]. simpl in *.
        assert (H20 : len (firstn 20 cmd) = 20).
        { unfold len. rewrite length_firstn. unfold len in Hgt. lia. }
        exists rest. split; [|split; [|split]].
        -- rewrite <- app_assoc, <- Hc. symmetry. apply firstn_skipn.
        -- constructor; [split; [lia | exact Hb] | exact Hf].
        -- destruct ws as [|w ws]; [constructor|].
           constructor; [exact H20 | exact Hr].
        -- destruct e as [e|]; [|exact He].
           destruct He as (He1 & He2 & He3).
           split; [exact He1|]. split; [|exact He3].
           constructor; [exact H20 | exact He2].
      * exists cmd. simpl. split; [reflexivity|]. split; [constructor|].
        split; [constructor|]. split; [reflexivity|]. split; [constructor|].
        exact Hb.
    + destruct (forallb is_byte cmd) eqn:Hb.
      * exists []. simpl. rewrite !app_nil_r. split; [reflexivity|].
        split; [constructor; [split; [lia | exact Hb] | constructor]|].
        split; [constructor | reflexivity].
      * exists cmd. simpl. split; [reflexivity|]. split; [constructor|].
        split; [constructor|]. split; [reflexivity|]. split; [constructor|].
        rewrite firstn_all2 by (unfold len in Hle; lia). exact Hb.
Qed.





(** X2.  The chunks [send_command] hands to [write_gatt_char] are the
    command cut in twenties: none is empty, all but the last have exactly
    20 bytes, together they are the command.  A chunk with an element
    that is no byte is not written, nor any after it: the call ends in
    ValueError with the chunks before it written. *)
Theorem command_is_written_in_twenties (cmd : list Z) :
  exists rest,
    cmd = concat (fst (write_chunks (length cmd) cmd)) ++ rest
    /\ Forall (fun c => 1 <= len c <= 20 /\ forallb is_byte c = true)
              (fst (write_chunks (length cmd) cmd))
    /\ Forall (fun c => len c = 20)
              (removelast (fst (write_chunks (length cmd) cmd)))
    /\ match snd (write_chunks (length cmd) cmd) with
       | None => rest = []
       | Some e =>
         e = ValueError
         /\ Forall (fun c => len c = 20) (fst (write_chunks (length cmd) cmd))
         /\ forallb is_byte (firstn 20 rest) = false
       end.
Proof. exact (write_chunks_spec (length cmd) cmd (le_n _)). Qed.

Lemma index_snoc (l : list Z) (x : Z) : index (l ++ [x]) (-1) = Some x.
Proof.
  unfold index, len. rewrite length_app. simpl length.
  change (-1 <? 0) with true. cbv iota.
  destruct (Z.ltb_spec (-1 + Z.of_nat (length l + 1)) 0); [lia|].
  destruct (Z.leb_spec (Z.of_nat (length l + 1))
                       (-1 + Z.of_nat (length l + 1))); [lia|].
  simpl. replace (Z.to_nat (-1 + Z.of_nat (length l + 1))) with (length l)
    by lia.
  rewrite nth_error_app2 by lia. rewrite Nat.sub_diag. reflexivity.
Qed.

Lemma checksummed (body : list Z) :
  index (body ++ [sum body mod 256]) (-1)
  = Some (sum (slice_to (body ++ [sum body mod 256]) (-1)) mod 256).
Proof.
  rewrite index_snoc, slice_to_minus_one, removelast_last. reflexivity.
Qed.

Lemma bt_store_length (id : list Z) :
  forall pos cmd, length (store_id pos id cmd) = length cmd.
Proof.
  induction id as [|c r IH]; intros pos cmd; simpl; [reflexivity|].
  rewrite IH. apply length_insert.
Qed.

(** X3.  Every command of the wireless engine (the three constants, the
    one [set_id] builds for any identifier, the one [set_date_and_time]
    builds for any time) begins with 77 255, declares in its third and
    fourth byte its own length less four, and ends with the sum of the
    bytes before modulo 256. *)
Theorem commands_are_framed (id : list Z) (dt : USB.datetime) :
  Wireless.command_framed CMD_DISCONNECT
  /\ Wireless.command_framed CMD_GET_ID
  /\ Wireless.command_framed CMD_GET_MEASUREMENTS
  /\ Wireless.command_framed (set_id_cmd id)
  /\ Wireless.command_framed (Wireless.set_time_cmd dt)
  /\ len (set_id_cmd id) = 28.
Proof.
  split; [repeat split|]. split; [repeat split|]. split; [repeat split|].
  assert (Hshape : exists body,
             set_id_cmd id = ([77; 255; 0; 24] ++ body) ++
                             [sum ([77; 255; 0; 24] ++ body) mod 256]
             /\ length body = 23%nat).
  { unfold set_id_cmd. rewrite !bt_store_shift.
    eexists. split; [reflexivity|]. simpl. rewrite bt_store_length.
    reflexivity. }
  destruct Hshape as (body & Hs & Hl).
  assert (H28 : len (set_id_cmd id) = 28).
  { rewrite Hs. unfold len. rewrite !length_app, Hl. reflexivity. }
  split; [|split; [|exact H28]].
  - split; [rewrite Hs, slice_0_2; reflexivity|]. split.
    + rewrite H28, Hs. unfold expected_length.
      rewrite <- app_assoc.
      rewrite (index_app_l [77; 255; 0; 24] _ 2 0),
              (index_app_l [77; 255; 0; 24] _ 3 24) by (reflexivity || lia).
      reflexivity.
    + rewrite Hs. apply checksummed.
  - unfold Wireless.set_time_cmd.
    split; [reflexivity|]. split; [reflexivity|]. apply checksummed.
Qed.

End Wireless_frames.

Section Wireless_frames_examples.
Import Py BTLE.


End Wireless_frames_examples.

Section Wireless_measurements.
Import Py.
Local Open Scope nat_scope.

Lemma slice_after_prefix {A} (pre l : list A) (k : nat) :
  slice (pre ++ l) (len pre) (len pre + Z.of_nat k) = firstn k l.
Proof.
  unfold slice, len. rewrite !clamp_nonneg by lia.
  rewrite length_app.
  replace (Z.to_nat (Z.of_nat (length pre)) `min` (length pre + length l))
    with (length pre) by lia.
  rewrite skipn_app, skipn_all, Nat.sub_diag. simpl.
  change (drop 0 l) with l.
  replace (Z.to_nat (Z.of_nat (length pre) + Z.of_nat k)
             `min` (length pre + length l) - length pre)
    with (k `min` length l) by lia.
  destruct (Nat.le_ge_cases k (length l)).
  - rewrite Nat.min_l by lia. reflexivity.
  - rewrite Nat.min_r by lia. rewrite firstn_all.
    symmetry. apply firstn_all2. lia.
Qed.

(** A record with its first eight bytes there is decoded; a shorter rest
    of the result ends the loop in ValueError. *)
Lemma wireless_record (pre l : list Z) (ms : list USB.measurement) :
  Wireless.get_data_record (pre ++ l) (len pre) ms
  = match Wireless.measurement_of l with
    | Some m => (ms ++ [m], None)
    | None => (ms, Some ValueError)
    end.
Proof.
  unfold Wireless.get_data_record.
  change 8%Z with (Z.of_nat 8). rewrite slice_after_prefix.
  do 8 (destruct l as [|? l]; [reflexivity|]). reflexivity.
Qed.

Lemma offsets_shift (base : Z) (n : nat) :
  map (fun k => base + Z.of_nat k * 10)%Z (seq 1 n)
  = map (fun k => (base + 10) + Z.of_nat k * 10)%Z (seq 0 n).
Proof.
  rewrite <- seq_shift, List.map_map. apply List.map_ext. intros k. lia.
Qed.

Lemma wireless_records (records : list (list Z)) :
  forall pre rest ms,
    Forall (fun r => length r = 10) records ->
    Wireless.get_data_loop
      (pre ++ concat records ++ rest)
      (map (fun k => len pre + Z.of_nat k * 10)%Z (seq 0 (length records))) ms
    = (ms ++ omap Wireless.measurement_of records, None).
Proof.
  induction records as [|r records IH]; intros pre rest ms Hf.
  - simpl. rewrite app_nil_r. reflexivity.
  - inversion Hf as [|? ? Hr Hrs]; subst.
    simpl length. simpl seq. simpl map.
    rewrite Z.mul_0_l, Z.add_0_r. simpl concat. rewrite <- app_assoc.
    cbn [Wireless.get_data_loop]. rewrite wireless_record.
    assert (Hm : exists m, Wireless.measurement_of (r ++ concat records ++ rest)
                           = Some m /\ Wireless.measurement_of r = Some m).
    { do 10 (destruct r as [|? r]; [discriminate Hr|]).
      eexists. split; reflexivity. }
    destruct Hm as (m & -> & Hm).
    rewrite offsets_shift.
    replace (len pre + 10)%Z with (len (pre ++ r))
      by (unfold len; rewrite length_app, Hr; lia).
    rewrite (app_assoc pre r). rewrite IH by exact Hrs.
    simpl. rewrite Hm. rewrite <- app_assoc. reflexivity.
Qed.

(** X4.  The wireless [get_data], on a result that is 38 bytes of header,
    then records of ten bytes, then a rest of fewer than ten: it appends
    one measurement per record, in order; a rest of eight or nine bytes
    is one more record; a rest of one to seven bytes ends the call in
    ValueError with the measurements of the records before it appended.
    A result of at most 38 bytes gives nothing and no error. *)
Theorem wireless_get_data_decodes_records
        (header rest : list Z) (records : list (list Z))
        (ms : list USB.measurement) :
  length header = 38 ->
  Forall (fun r => length r = 10) records ->
  length rest < 10 ->
  Wireless.get_data_of (header ++ concat records ++ rest) ms
  = (ms ++ omap Wireless.measurement_of records
        ++ (if 8 <=? length rest
            then omap Wireless.measurement_of [rest] else []),
     if (1 <=? length rest) && (length rest <? 8)
     then Some ValueError else None)
  /\ (forall short, length short <= 38 ->
                    Wireless.get_data_of short ms = (ms, None)).
Proof.
  intros Hh Hf Hr. split.
  2: { intros short Hs. unfold Wireless.get_data_of, Wireless.range, len.
       assert (Hq : ((Z.of_nat (length short) - 38 + 10 - 1) / 10 < 1)%Z)
         by (apply Z.div_lt_upper_bound; lia).
       replace (Z.to_nat ((Z.of_nat (length short) - 38 + 10 - 1) / 10))
         with 0 by lia.
       reflexivity. }
  assert (Hcl : length (concat records) = 10 * length records).
  { clear - Hf. induction Hf as [|r rs Hr _ IH]; simpl; [reflexivity|].
    rewrite length_app, Hr, IH. lia. }
  unfold Wireless.get_data_of, Wireless.range.
  assert (Hn : Z.to_nat ((len (header ++ concat records ++ rest) - 38 + 10 - 1)
                         / 10)
               = length records + (if 1 <=? length rest then 1 else 0)).
  { unfold len. rewrite !length_app, Hh, Hcl.
    destruct (Nat.leb_spec 1 (length rest)).
    - replace (Z.of_nat (38 + (10 * length records + length rest))
               - 38 + 10 - 1)%Z
        with ((Z.of_nat (length rest) - 1) + (Z.of_nat (length records) + 1) * 10)%Z
        by lia.
      rewrite Z.div_add by lia. rewrite Z.div_small by lia. lia.
    - replace (Z.of_nat (38 + (10 * length records + length rest))
               - 38 + 10 - 1)%Z
        with (9 + Z.of_nat (length records) * 10)%Z by lia.
      rewrite Z.div_add by lia. rewrite Z.div_small by lia. lia. }
  rewrite Hn.
  replace 38%Z with (len header) by (unfold len; lia).
  destruct (Nat.leb_spec 1 (length rest)) as [Hpos|Hzero].
  - rewrite seq_app, List.map_app. simpl seq. simpl map.
    assert (Hloop : forall l1 l2 m0,
               Wireless.get_data_loop (header ++ concat records ++ rest)
                                      (l1 ++ l2) m0
               = match Wireless.get_data_loop
                         (header ++ concat records ++ rest) l1 m0 with
                 | (m1, None) =>
                   Wireless.get_data_loop (header ++ concat records ++ rest)
                                          l2 m1
                 | (m1, Some e) => (m1, Some e)
                 end).
    { induction l1 as [|o l1 IHl]; intros l2 m0; simpl; [reflexivity|].
      destruct (Wireless.get_data_record _ o m0) as [m1 [e|]];
        [reflexivity | apply IHl]. }
    rewrite Hloop, wireless_records by exact Hf.
    cbn [Wireless.get_data_loop].
    replace (len header + Z.of_nat (length records) * 10)%Z
      with (len (header ++ concat records))
      by (unfold len; rewrite length_app, Hcl; lia).
    rewrite (app_assoc header), <- (app_nil_r rest) at 1.
    rewrite wireless_record. rewrite app_nil_r.
    destruct (Nat.leb_spec 8 (length rest)) as [H8|H8].
    + destruct (Nat.ltb_spec (length rest) 8); [lia|]. simpl.
      do 8 (destruct rest as [|? rest]; [simpl in H8; lia|]).
      simpl. rewrite <- app_assoc. reflexivity.
    + destruct (Nat.ltb_spec (length rest) 8); [|lia]. simpl.
      assert (Hnone : Wireless.measurement_of rest = None).
      { do 8 (destruct rest as [|? rest]; [reflexivity|]).
        simpl in H8. lia. }
      rewrite Hnone, app_nil_r. reflexivity.
  - destruct rest; [|simpl in Hzero; lia].
    rewrite Nat.add_0_r, wireless_records by exact Hf.
    simpl. rewrite app_nil_r. reflexivity.
Qed.

End Wireless_measurements.

Section Wireless_identifier_round_trip.
Import Py BTLE.
Local Open Scope nat_scope.

Lemma filter_padding (id : list Z) (k : nat) :
  Forall (fun c => (32 <= c < 128)%Z) id ->
  List.filter (fun b => (32 <=? b)%Z && (b <? 128)%Z) (id ++ repeat 0%Z k) = id.
Proof.
  intros Hf. rewrite List.filter_app.
  replace (List.filter _ (repeat 0%Z k)) with (@nil Z)
    by (induction k; simpl; auto).
  rewrite app_nil_r.
  induction Hf as [|c id Hc _ IH]; simpl; [reflexivity|].
  destruct (Z.leb_spec 32 c); [|lia].
  destruct (Z.ltb_spec c 128); [|lia]. simpl. f_equal. exact IH.
Qed.

Lemma strip_fixed (s : list Z) :
  no_lead s -> no_lead (rev s) -> strip s = s.
Proof.
  intros H1 H2. unfold strip.
  rewrite (lstrip_fixed s H1), (lstrip_fixed _ H2). apply rev_involutive.
Qed.

Lemma index_1 {A} (a b : A) (l : list A) : index (a :: b :: l) 1 = Some b.
Proof.
  unfold index, len. simpl length. change (1 <? 0)%Z with false. cbv iota.
  simpl orb.
  destruct (Z.leb_spec (Z.of_nat (S (S (length l)))) 1); [lia|]. reflexivity.
Qed.

Lemma set_id_cmd_field (id : list Z) :
  length id <= 20 ->
  slice (set_id_cmd id) 6 26 = id ++ repeat 0%Z (20 - length id).
Proof.
  intros Hl. unfold set_id_cmd, MAX_ID_LENGTH.
  rewrite truncated by lia. change (Z.to_nat 20) with 20.
  rewrite firstn_all2 by lia.
  rewrite !bt_store_shift.
  change [0; 0; 0; 0; 0; 0; 0; 0; 0; 0; 0; 0; 0; 0; 0; 0; 0; 0; 0; 0; 216]%Z
    with (repeat 0%Z 20 ++ [216%Z]).
  rewrite bt_store_0 by (rewrite length_app, repeat_length; simpl; lia).
  rewrite skipn_app, skipn_repeat, repeat_length.
  replace (length id - 20) with 0 by lia. simpl skipn.
  set (field := id ++ repeat 0%Z (20 - length id) ++ [216%Z]).
  set (tail := [_ mod 256]%Z).
  change (slice ([77; 255; 0; 24; 6; 253]%Z ++ field ++ tail)
                (len [77; 255; 0; 24; 6; 253]%Z)
                (len [77; 255; 0; 24; 6; 253]%Z + Z.of_nat 20)
          = id ++ repeat 0%Z (20 - length id)).
  rewrite slice_after_prefix. unfold field.
  rewrite app_assoc, <- app_assoc, firstn_app.
  rewrite firstn_all2
    by (rewrite length_app, repeat_length; lia).
  rewrite length_app, repeat_length.
  replace (20 - (length id + (20 - length id))) with 0 by lia.
  simpl. apply app_nil_r.
Qed.

(** X5.  The wireless identifier survives the way to the monitor and
    back.  For an identifier of at most 20 characters with codes from 32
    to 127 that neither begins nor ends with white space: the 20 bytes
    [set_id] puts at positions 6 to 25 of its command, found at positions
    2 to 21 of a GET_ID result for user 1, or at positions 23 to 42 for
    any other user, are decoded by [get_id] to that identifier. *)
Theorem wireless_identifier_round_trip
        (id before rest : list Z) (r0 user : Z) :
  length id <= 20 ->
  Forall (fun c => (32 <= c < 128)%Z) id ->
  no_lead id -> no_lead (rev id) ->
  length before = 21 ->
  get_id (r0 :: 1%Z :: slice (set_id_cmd id) 6 26 ++ rest) = Some (1%Z, id)
  /\ (user <> 1%Z ->
      get_id (r0 :: user :: before ++ slice (set_id_cmd id) 6 26 ++ rest)
      = Some (user, id)).
Proof.
  intros Hl Hf Ha Hb Hbef.
  rewrite set_id_cmd_field by exact Hl.
  set (field := id ++ repeat 0%Z (20 - length id)).
  assert (Hfl : length field = 20)
    by (unfold field; rewrite length_app, repeat_length; lia).
  assert (Hname : user_name field = id).
  { unfold user_name, field. rewrite filter_padding by exact Hf.
    apply strip_fixed; assumption. }
  split.
  - unfold get_id, MAX_ID_LENGTH.
    rewrite index_1. change (1 =? 1)%Z with true. cbv iota.
    change (slice (r0 :: 1%Z :: field ++ rest) 2 (20 + 2))
      with (slice ([r0; 1%Z] ++ field ++ rest) (len [r0; 1%Z])
                  (len [r0; 1%Z] + Z.of_nat 20)).
    rewrite slice_after_prefix, firstn_app, Hfl, Nat.sub_diag.
    rewrite firstn_all2 by lia. simpl. rewrite app_nil_r, Hname. reflexivity.
  - intros Hu. unfold get_id, MAX_ID_LENGTH.
    rewrite index_1.
    destruct (Z.eqb_spec user 1); [contradiction|].
    replace (slice (r0 :: user :: before ++ field ++ rest) 23 (20 + 23))
      with (slice ((r0 :: user :: before) ++ field ++ rest)
                  (len (r0 :: user :: before))
                  (len (r0 :: user :: before) + Z.of_nat 20)).
    + rewrite slice_after_prefix, firstn_app, Hfl, Nat.sub_diag.
      rewrite firstn_all2 by lia. simpl. rewrite app_nil_r, Hname.
      reflexivity.
    + unfold len. simpl length. rewrite Hbef. reflexivity.
Qed.

End Wireless_identifier_round_trip.

Section Wireless_examples.
Import Py BTLE.
Local Open Scope nat_scope.

Lemma wireless_get_data_decodes_records_witness :
  length (repeat 0%Z 38) = 38
  /\ Forall (fun r => length r = 10)
            [[120; 80; 65; 23; 1; 1; 12; 30; 0; 0]%Z]
  /\ length [118; 79; 60]%Z < 10
  /\ Wireless.get_data_of
       (repeat 0%Z 38 ++ concat [[120; 80; 65; 23; 1; 1; 12; 30; 0; 0]%Z]
               ++ [118; 79; 60]%Z) []
     = ([(codes "2023-01-01 12:30", 120, 80, 65)%Z], Some ValueError).
Proof.
  assert (H1 : length (repeat 0%Z 38) = 38) by reflexivity.
  assert (H2 : Forall (fun r => length r = 10)
                      [[120; 80; 65; 23; 1; 1; 12; 30; 0; 0]%Z])
    by (repeat constructor).
  assert (H3 : length [118; 79; 60]%Z < 10) by (simpl; lia).
  split; [exact H1|]. split; [exact H2|]. split; [exact H3|].
  exact (proj1 (wireless_get_data_decodes_records
                  (repeat 0%Z 38) [118; 79; 60]%Z
                  [[120; 80; 65; 23; 1; 1; 12; 30; 0; 0]%Z] [] H1 H2 H3)).
Defined.

Lemma wireless_identifier_round_trip_witness :
  get_id (0%Z :: 1%Z :: slice (set_id_cmd (codes "Ann 7")) 6 26 ++ [])
  = Some (1%Z, codes "Ann 7").
Proof.
  refine (proj1 (wireless_identifier_round_trip
                   (codes "Ann 7") (repeat 0%Z 21) [] 0%Z 2%Z _ _ _ _ _)).
  - simpl. lia.
  - repeat constructor; simpl; lia.
  - reflexivity.
  - reflexivity.
  - reflexivity.
Defined.

End Wireless_examples.

(* ================================================================== *)
(** * Further properties of the wired engine *)

Section Wired_responses.
Import Py USB.
Context {D : Type} `{HidDevice D}.
Variables (win32 prnt_takes_file : bool) (fuel : nat).

Lemma hexdigit_upper_ascii (n : Z) :
  0 <= n < 16 -> 48 <= hexdigit_upper n < 128.
Proof. intros Hn. unfold hexdigit_upper. destruct (Z.ltb_spec n 10); lia. Qed.

Lemma fmt_2X_decodes (n : Z) :
  0 <= n < 256 -> decode (fmt_2X n) = Some (fmt_2X n).
Proof.
  intros Hn. unfold fmt_2X, decode.
  pose proof (hexdigit_upper_ascii (n / 16)
                ltac:(split; [apply Z.div_pos | apply Z.div_lt_upper_bound];
                      lia)) as H1.
  pose proof (hexdigit_upper_ascii (n mod 16)
                ltac:(apply Z.mod_pos_bound; lia)) as H2.
  simpl.
  destruct (Z.leb_spec 0 (hexdigit_upper (n / 16))); [|lia].
  destruct (Z.ltb_spec (hexdigit_upper (n / 16)) 128); [|lia].
  destruct (Z.leb_spec 0 (hexdigit_upper (n mod 16))); [|lia].
  destruct (Z.ltb_spec (hexdigit_upper (n mod 16)) 128); [|lia].
  reflexivity.
Qed.

(** A response of more than three bytes is its first byte, the bytes the
    checksum runs over, and its last two. *)
Lemma response_parts (response : list Z) :
  3 < len response ->
  slice response 1 (len response - 2) = slice response 1 (-2)
  /\ length (slice_from response (-2)) = 2%nat
  /\ slice response 1 (-2) <> []
  /\ response = firstn 1 response ++ slice response 1 (-2)
                ++ slice_from response (-2).
Proof.
  unfold len. intros Hl. unfold slice, slice_from.
  rewrite (clamp_nonneg _ 1), (clamp_nonneg _ (Z.of_nat (length response) - 2)),
          (clamp_neg _ (-2)) by lia.
  replace (Z.to_nat 1 `min` length response)%nat with 1%nat by lia.
  replace (Z.to_nat (Z.of_nat (length response) - 2) `min` length response)%nat
    with (length response - Z.to_nat (- -2))%nat by lia.
  change (Z.to_nat (- -2)) with 2%nat.
  split; [reflexivity|]. split; [rewrite length_skipn; lia|]. split.
  - intros E. apply (f_equal (@length Z)) in E.
    rewrite length_firstn, length_skipn in E. simpl in E. lia.
  - rewrite <- (firstn_skipn 1 response) at 1. f_equal.
    rewrite <- (firstn_skipn (length response - 2 - 1) (skipn 1 response)) at 1.
    f_equal. rewrite skipn_skipn. f_equal. lia.
Qed.

Lemma payload_framed (payload : list Z) (x y : Z) :
  payload <> [] ->
  let response := 6 :: payload ++ [x; y] in
  unexpected response = false
  /\ slice response 1 (len response - 2) = payload
  /\ slice response 1 (-2) = payload
  /\ slice_from response (-2) = [x; y].
Proof.
  intros Hp response.
  assert (Hlen : len response = len payload + 3).
  { unfold response, len. simpl. rewrite length_app. simpl. lia. }
  assert (H3 : 3 < len response).
  { rewrite Hlen. unfold len. destruct payload; [congruence|simpl; lia]. }
  destruct (response_parts response H3) as (Hs & Hl2 & _ & Hparts).
  assert (Hmid : slice response 1 (-2) = payload /\
                 slice_from response (-2) = [x; y]).
  { assert (Hl : length (slice response 1 (-2)) = length payload).
    { apply (f_equal (@length Z)) in Hparts.
      rewrite !length_app, Hl2 in Hparts. unfold len in Hlen.
      destruct response; simpl in *; lia. }
    unfold response in Hparts at 1. simpl in Hparts.
    change (firstn 1 response) with [6] in Hparts. simpl in Hparts.
    injection Hparts as Hparts.
    apply app_inj_1 in Hparts; [|congruence].
    destruct Hparts as [<- <-]. auto. }
  destruct Hmid as [Hm Ht].
  split; [|split; [rewrite Hs; exact Hm | split; assumption]].
  unfold unexpected.
  destruct (Z.leb_spec (len response) 3); [lia|]. reflexivity.
Qed.

(** What a get command returns has been checked: the response read was
    the status byte 6, then the bytes returned, of which there is at
    least one, then the two upper-case hex digits of their sum modulo
    256. *)
Lemma accepted_is_checked (response payload : list Z) (d d' : D) :
  check_response prnt_takes_file response d = Some (Done (Some payload) d') ->
  payload <> []
  /\ response = 6 :: payload ++ fmt_2X (sum payload mod 256)
  /\ d' = d.
Proof.
  unfold check_response.
  destruct (Z.leb_spec (len response) 3) as [|H3]; simpl; [discriminate|].
  case_bool_decide as H6; simpl; [|discriminate].
  destruct (response_parts response H3) as (Hs & Hl2 & Hne & Hparts).
  rewrite Hs.
  destruct (decode (slice_from response (-2))) as [t|] eqn:Hd;
    [|discriminate].
  case_bool_decide as Ht;
    [|destruct prnt_takes_file; discriminate].
  intros E. injection E as <- <-. split; [exact Hne|]. split; [|reflexivity].
  subst t.
  destruct (slice_from response (-2)) as [|b1 [|b2 [|? ?]]];
    try discriminate Hl2.
  pose proof (Z.mod_pos_bound (sum (slice response 1 (-2))) 256 ltac:(lia))
    as Hck.
  apply decode_two_ascii in Hd as [-> ->].
  - destruct response as [|r0 response']; [vm_compute in H6; discriminate|].
    apply (index_nth _ 0 6 0) in H6; [|lia]. simpl in H6. subst r0.
    rewrite Hparts at 1. reflexivity.
  - apply hexdigit_upper_ascii.
    split; [apply Z.div_pos | apply Z.div_lt_upper_bound]; lia.
  - apply hexdigit_upper_ascii. apply Z.mod_pos_bound. lia.
Qed.

End Wired_responses.

Section Wired_rounds.
Import Py USB Wired.
Context {D : Type} `{HidDevice D}.
Variables (win32 prnt_takes_file : bool) (fuel : nat) (cmd : Z).

(** Rounds that were dropped are rounds the loop has used up. *)
Lemma loop_after_dropped (k : nat) (d d' : D) :
  dropped win32 prnt_takes_file fuel cmd k d d' ->
  forall n, send_command_loop win32 prnt_takes_file fuel (k + n) cmd None d = send_command_loop win32 prnt_takes_file fuel n cmd None d'.
Proof.
  induction 1 as [d|k d d1 d2 d' r Hw Hr Hc _ IH]; intros n; [reflexivity|].
  destruct (dropped_round win32 prnt_takes_file fuel (k + n) cmd d d1 d2 r
                          Hw Hr Hc) as [Hl _].
  change (S k + n)%nat with (S (k + n)). rewrite Hl. apply IH.
Qed.

Lemma kept_round (n : nat) (d d1 d2 : D) (r : list Z)
      (res : run D (option (list Z))) :
  USB_IO_write win32 (command_bytes cmd) d = Done tt d1 ->
  USB_IO_read fuel d1 = Done r d2 ->
  check_response prnt_takes_file r d2 = Some res ->
  send_command_loop win32 prnt_takes_file fuel (S n) cmd None d = res.
Proof.
  intros Hw Hr Hc. simpl. rewrite Hw. simpl. rewrite Hr. simpl.
  rewrite Hc. reflexivity.
Qed.

(** X6.  A get command returns the payload of the first well-formed
    response (status 6, a payload of at least one byte, the two
    upper-case hex digits of the sum of the payload modulo 256), if it
    comes in one of the first 15 rounds; the rounds before it were
    dropped, and no further round is made. *)
Theorem well_formed_response_is_returned
        (k : nat) (payload : list Z) (d d0 d1 d2 : D) :
  (k < 15)%nat ->
  payload <> [] ->
  dropped win32 prnt_takes_file fuel cmd k d d0 ->
  USB_IO_write win32 (command_bytes cmd) d0 = Done tt d1 ->
  USB_IO_read fuel d1
  = Done (6 :: payload ++ fmt_2X (sum payload mod 256)) d2 ->
  send_command win32 prnt_takes_file fuel cmd None d = Done (Some payload) d2.
Proof.
  intros Hk Hp Hd Hw Hr. unfold send_command, MAX_RETRY.
  replace 15%nat with (k + S (14 - k))%nat by lia.
  rewrite (loop_after_dropped k d d0 Hd).
  apply (kept_round _ d0 d1 d2 _ _ Hw Hr).
  destruct (payload_framed payload (hexdigit_upper (sum payload mod 256 / 16))
                           (hexdigit_upper ((sum payload mod 256) mod 16)) Hp)
    as (Hu & Hs1 & Hs2 & Ht).
  fold (fmt_2X (sum payload mod 256)) in Hu, Hs1, Hs2, Ht.
  unfold check_response. fold (unexpected (6 :: payload
                                             ++ fmt_2X (sum payload mod 256))).
  rewrite Hu, Hs1, Hs2, Ht.
  rewrite fmt_2X_decodes by (apply Z.mod_pos_bound; lia).
  rewrite bool_decide_eq_true_2 by reflexivity. reflexivity.
Qed.

Lemma loop_result (n : nat) :
  forall d d' res,
    send_command_loop win32 prnt_takes_file fuel n cmd None d = Done res d' ->
    match res with
    | None => dropped win32 prnt_takes_file fuel cmd n d d'
    | Some payload =>
      payload <> []
      /\ exists k d0 d1,
          (k < n)%nat /\ dropped win32 prnt_takes_file fuel cmd k d d0
          /\ USB_IO_write win32 (command_bytes cmd) d0 = Done tt d1
          /\ USB_IO_read fuel d1
             = Done (6 :: payload ++ fmt_2X (sum payload mod 256)) d'
    end.
Proof.
  induction n as [|n IH]; intros d d' res Hres.
  - simpl in Hres. injection Hres as <- <-. constructor.
  - simpl in Hres.
    destruct (USB_IO_write win32 (command_bytes cmd) d) as [[] d1| |] eqn:Hw;
      try discriminate Hres.
    simpl in Hres.
    destruct (USB_IO_read fuel d1) as [r d2| |] eqn:Hr; try discriminate Hres.
    simpl in Hres.
    destruct (check_response prnt_takes_file r d2) as [kept|] eqn:Hc.
    + subst kept. destruct res as [payload|].
      * destruct (accepted_is_checked prnt_takes_file r payload d2 d' Hc)
          as (Hne & -> & ->).
        split; [exact Hne|]. exists 0%nat, d, d1.
        split; [lia|]. split; [constructor|]. auto.
      * exfalso. unfold check_response in Hc.
        repeat (match type of Hc with
                | context [if ?c then _ else _] => destruct c
                | context [match ?c with _ => _ end] => destruct c
                end; try discriminate Hc).
    + specialize (IH d2 d' res Hres). destruct res as [payload|].
      * destruct IH as (Hne & k & d0 & d1' & Hk & Hd & Hw' & Hr').
        split; [exact Hne|]. exists (S k), d0, d1'.
        split; [lia|]. split; [|auto].
        econstructor; eassumption.
      * econstructor; eassumption.
Qed.

(** X7.  What a get command returns is what the device sent.  A payload
    returned is not empty and was read, within the first 15 rounds and
    after dropped rounds only, behind the status byte 6 and before the
    two upper-case hex digits of its sum modulo 256.  None is returned
    only after 15 rounds that were all dropped. *)
Theorem returned_payload_was_checked
        (d d' : D) (res : option (list Z)) :
  send_command win32 prnt_takes_file fuel cmd None d = Done res d' ->
  match res with
  | None => dropped win32 prnt_takes_file fuel cmd 15 d d'
  | Some payload =>
    payload <> []
    /\ exists k d0 d1,
        (k < 15)%nat /\ dropped win32 prnt_takes_file fuel cmd k d d0
        /\ USB_IO_write win32 (command_bytes cmd) d0 = Done tt d1
        /\ USB_IO_read fuel d1
           = Done (6 :: payload ++ fmt_2X (sum payload mod 256)) d'
  end.
Proof. apply loop_result. Qed.

(** [USB_IO.read] raises nothing, and what it returns does not depend on
    the rounds granted to its polling loop once they suffice. *)
Lemma read_more_fuel (n : nat) (d d' : D) (r : list Z) :
  USB_IO_read n d = Done r d' ->
  (forall m, (n <= m)%nat -> USB_IO_read m d = Done r d')
  /\ (forall m e d'', USB_IO_read m d <> Raised e d'').
Proof.
  intros Hn. split.
  - unfold USB_IO_read in *. revert Hn. generalize (@nil Z) as data.
    revert d. induction n as [|n IH]; intros d data Hn m Hm;
      [discriminate Hn|].
    destruct m as [|m]; [lia|]. simpl in *.
    destruct (hid_read d) as [buf d1]. destruct buf as [|b0 buf].
    + exact Hn.
    + apply IH; [exact Hn | lia].
  - intros m e d''. unfold USB_IO_read. generalize (@nil Z) as data.
    clear Hn. revert d. induction m as [|m IH]; intros d0 data;
      [discriminate|].
    simpl. destruct (hid_read d0) as [buf d1]. destruct buf as [|b0 buf].
    + discriminate.
    + apply IH.
Qed.

End Wired_rounds.

Section Wired_rounds_examples.
Import Py USB Wired.

Lemma retrying_drops_one :
  dropped false false 3 CMD_GET_ID 1 retrying
          {| pending := [[4; 6; 65; 52; 49]; []];
             written := [[4; 18; 22; 24; 36]]; pads_to_report := false |}.
Proof.
  econstructor; [reflexivity | reflexivity | reflexivity | constructor].
Qed.

Lemma well_formed_response_is_returned_witness :
  send_command false false 3 CMD_GET_ID None retrying
  = Done (Some [65])
         {| pending := [];
            written := [[4; 18; 22; 24; 36]; [4; 18; 22; 24; 36]];
            pads_to_report := false |}.
Proof.
  refine (well_formed_response_is_returned
            false false 3 CMD_GET_ID 1 [65] retrying _ _ _ _ _
            retrying_drops_one _ _).
  - lia.
  - discriminate.
  - reflexivity.
  - reflexivity.
Defined.

Lemma returned_payload_was_checked_witness :
  [65] <> []
  /\ exists k d0 d1,
      (k < 15)%nat /\ dropped false false 3 CMD_GET_ID k retrying d0
      /\ USB_IO_write false (command_bytes CMD_GET_ID) d0 = Done tt d1
      /\ USB_IO_read 3 d1
         = Done (6 :: [65] ++ fmt_2X (sum [65] mod 256))
                {| pending := [];
                   written := [[4; 18; 22; 24; 36]; [4; 18; 22; 24; 36]];
                   pads_to_report := false |}.
Proof.
  exact (returned_payload_was_checked
           false false 3 CMD_GET_ID retrying _ (Some [65]) eq_refl).
Defined.

End Wired_rounds_examples.

Section Wired_reports.
Import Py USB Wired.
Local Open Scope nat_scope.

Lemma report_payload_length (buf : list Z) :
  length (report_payload buf) <= 15 /\ length (report_payload buf) <= length buf - 1.
Proof.
  destruct buf as [|b0 buf]; [simpl; lia|]. unfold report_payload, slice.
  assert (Hb : (0 <= Z.land b0 15 <= 15)%Z).
  { change 15%Z with (Z.ones 4). rewrite Z.land_ones by lia.
    pose proof (Z.mod_pos_bound b0 (2 ^ 4) ltac:(lia)).
    change (Z.ones 4) with 15%Z. change (2 ^ 4)%Z with 16%Z in *. lia. }
  rewrite !clamp_nonneg by lia. rewrite length_firstn, length_skipn.
  simpl length. lia.
Qed.

Lemma read_loop_reports (reports : list (list Z)) :
  forall n data rest w p,
    Forall (fun r => r <> []) reports ->
    length reports < n ->
    read_loop n data {| pending := reports ++ [] :: rest; written := w;
                        pads_to_report := p |}
    = Done (data ++ concat (map report_payload reports))
           {| pending := rest; written := w; pads_to_report := p |}.
Proof.
  induction reports as [|r reports IH]; intros n data rest w p Hf Hn.
  - destruct n; [simpl in Hn; lia|]. simpl. rewrite app_nil_r. reflexivity.
  - destruct n; [simpl in Hn; lia|].
    inversion Hf as [|? ? Hr Hrs]; subst.
    destruct r as [|b0 r]; [congruence|].
    cbn [read_loop hid_read sim_device pending app written pads_to_report].
    rewrite IH by (assumption || simpl in Hn; lia).
    simpl concat. rewrite app_assoc. reflexivity.
Qed.

(** X8.  [USB_IO.read] on a device that delivers some non-empty reports
    and then lets the read time out: it returns the concatenation of what
    each report carries behind its first byte, as many bytes as the low
    four bits of that byte say (at most 15, and no more than the report
    holds), consumes the reports and the timeout, and leaves the rest. *)
Theorem read_concatenates_reports
        (reports rest w : list (list Z)) (p : bool) (n : nat) :
  Forall (fun r => r <> []) reports ->
  length reports < n ->
  USB_IO_read n {| pending := reports ++ [] :: rest; written := w;
                   pads_to_report := p |}
  = Done (concat (map report_payload reports))
         {| pending := rest; written := w; pads_to_report := p |}
  /\ Forall (fun r => length (report_payload r) <= 15
                      /\ length (report_payload r) <= length r - 1) reports.
Proof.
  intros Hf Hn. split.
  - unfold USB_IO_read. rewrite read_loop_reports by assumption. reflexivity.
  - apply List.Forall_forall. intros r _. apply report_payload_length.
Qed.

Lemma read_concatenates_reports_witness :
  USB_IO_read 3 {| pending := ([[3; 6; 65; 52; 0; 0; 0; 0];
                                [0x11; 49; 9; 9]] ++ [] :: [[1; 21]])%Z;
                   written := []; pads_to_report := false |}
  = Done [6; 65; 52; 49]%Z
         {| pending := [[1; 21]]%Z; written := [];
            pads_to_report := false |}.
Proof.
  refine (proj1 (read_concatenates_reports
                   [[3; 6; 65; 52; 0; 0; 0; 0]; [0x11; 49; 9; 9]]%Z
                   [[1; 21]]%Z [] false 3 _ _)).
  - repeat constructor; discriminate.
  - simpl. lia.
Defined.

End Wired_reports.

Section Wired_hexadecimal.
Import Py USB Wired.

Lemma hexnum_from_none (bs : list Z) : fold_left hexnum_step bs None = None.
Proof. induction bs as [|b bs IH]; simpl; auto. Qed.

Lemma hexnum_of_no_digit (bs : list Z) :
  Exists (fun b => decode_hexdigit b = None) bs ->
  forall word, fold_left hexnum_step bs word = None.
Proof.
  induction 1 as [b bs Hb|b bs _ IH]; intros word.
  - change (fold_left hexnum_step (b :: bs) word)
      with (fold_left hexnum_step bs (hexnum_step word b)).
    unfold hexnum_step. rewrite Hb.
    destruct word; apply hexnum_from_none.
  - apply IH.
Qed.

Lemma decode_hexdigit_range (b h : Z) :
  decode_hexdigit b = Some h -> 0 <= h < 16.
Proof.
  unfold decode_hexdigit.
  destruct (Z.leb_spec 48 b), (Z.leb_spec b 57); simpl;
    try (intros E; injection E as <-; lia);
    destruct (Z.leb_spec 65 b), (Z.leb_spec b 70); simpl;
      try (intros E; injection E as <-; lia);
      destruct (Z.leb_spec 97 b), (Z.leb_spec b 102); simpl;
        try (intros E; injection E as <-; lia); discriminate.
Qed.

Lemma hexnum_from (bs : list Z) :
  forall w,
    match fold_left hexnum_step bs (Some w), decode_hexnum bs with
    | Some v, Some v0 => v = w * 16 ^ len bs + v0 /\ 0 <= v0 < 16 ^ len bs
    | None, None => Exists (fun b => decode_hexdigit b = None) bs
    | _, _ => False
    end.
Proof.
  unfold decode_hexnum. fold hexnum_step.
  induction bs as [|b bs IH] using rev_ind; intros w.
  - simpl. change (len []) with 0. simpl. lia.
  - rewrite !fold_left_app. simpl. specialize (IH w).
    destruct (fold_left hexnum_step bs (Some w)) as [v|],
             (fold_left hexnum_step bs (Some 0)) as [v0|]; try contradiction.
    + destruct IH as [-> Hv0]. unfold hexnum_step.
      destruct (decode_hexdigit b) as [h|] eqn:Hh.
      * apply decode_hexdigit_range in Hh.
        unfold len. rewrite length_app. simpl length.
        rewrite Nat2Z.inj_add, Z.pow_add_r by lia.
        change (16 ^ Z.of_nat 1) with 16. fold (len bs). nia.
      * apply Exists_app. right. constructor. exact Hh.
    + simpl. apply Exists_app. left. exact IH.
Qed.

Lemma hexnum_bound (bs : list Z) (v : Z) :
  decode_hexnum bs = Some v -> 0 <= v < 16 ^ len bs.
Proof.
  intros Hv. pose proof (hexnum_from bs 0) as H1. rewrite Hv in H1.
  unfold decode_hexnum in Hv. fold hexnum_step in Hv. rewrite Hv in H1.
  tauto.
Qed.

(** X9.  [decode_hexnum] raises exactly when one of the bytes is no hex
    digit; otherwise its value lies below 16 to the number of digits,
    and the first digit is the most significant: the value of two
    strings in a row is the value of the first, shifted by the digits of
    the second, plus the value of the second. *)
Theorem decode_hexnum_is_big_endian (bs1 bs2 : list Z) :
  (decode_hexnum bs1 = None
   <-> Exists (fun b => decode_hexdigit b = None) bs1)
  /\ (forall v, decode_hexnum bs1 = Some v -> 0 <= v < 16 ^ len bs1)
  /\ (forall v1 v2, decode_hexnum bs1 = Some v1 ->
                    decode_hexnum bs2 = Some v2 ->
                    decode_hexnum (bs1 ++ bs2)
                    = Some (v1 * 16 ^ len bs2 + v2)).
Proof.
  pose proof (hexnum_from bs1 0) as H1.
  unfold decode_hexnum in *. fold hexnum_step in *.
  split; [|split].
  - split.
    + intros Hn. rewrite Hn in H1. exact H1.
    + intros Hex. apply hexnum_of_no_digit. exact Hex.
  - intros v Hv. rewrite Hv in H1. tauto.
  - intros v1 v2 Hv1 Hv2. rewrite fold_left_app, Hv1.
    pose proof (hexnum_from bs2 v1) as H2.
    unfold decode_hexnum in H2. fold hexnum_step in H2. rewrite Hv2 in H2.
    destruct (fold_left hexnum_step bs2 (Some v1)) as [v|]; [|contradiction].
    destruct H2 as [-> _]. reflexivity.
Qed.

End Wired_hexadecimal.

Section Wired_encoding.
Import Py USB Wired.
Local Open Scope nat_scope.

Lemma all_below (P : Z -> bool) (n : nat) :
  forallb P (map Z.of_nat (seq 0 n)) = true ->
  forall b, (0 <= b < Z.of_nat n)%Z -> P b = true.
Proof.
  intros Hall b Hb. rewrite forallb_forall in Hall. apply Hall.
  apply in_map_iff. exists (Z.to_nat b). split; [lia|].
  apply in_seq. lia.
Qed.

(** A byte written as two hex digits, in either case, is read back. *)
Lemma hex_round_trip (b : Z) :
  (0 <= b < 256)%Z ->
  decode_hexnum (hex [b]) = Some b /\ decode_hexnum (fmt_2X b) = Some b.
Proof.
  intros Hb.
  assert (Hall : forallb
                   (fun b => bool_decide (decode_hexnum (hex [b]) = Some b)
                             && bool_decide (decode_hexnum (fmt_2X b) = Some b))
                   (map Z.of_nat (seq 0 256)) = true)
    by (vm_compute; reflexivity).
  pose proof (all_below _ 256 Hall b Hb) as H. simpl in H.
  apply andb_true_iff in H as [H1 H2].
  apply bool_decide_eq_true_1 in H1. apply bool_decide_eq_true_1 in H2. auto.
Qed.

(** [dec_to_hex] of a number below 100 is the byte whose two hex digits
    are the decimal digits of the number. *)
Lemma dec_to_hex_digits (i : Z) :
  (0 <= i < 100)%Z ->
  is_byte (dec_to_hex i) = true /\ hex [dec_to_hex i] = fmt_2d i.
Proof.
  intros Hi.
  assert (Hall : forallb
                   (fun i => is_byte (dec_to_hex i)
                             && bool_decide (hex [dec_to_hex i] = fmt_2d i))
                   (map Z.of_nat (seq 0 100)) = true)
    by (vm_compute; reflexivity).
  pose proof (all_below _ 100 Hall i Hi) as H. simpl in H.
  apply andb_true_iff in H as [H1 H2].
  apply bool_decide_eq_true_1 in H2. auto.
Qed.

Lemma hex_app (l1 l2 : list Z) : hex (l1 ++ l2) = hex l1 ++ hex l2.
Proof. unfold hex. apply flat_map_app. Qed.

Lemma hex_length (l : list Z) : length (hex l) = 2 * length l.
Proof. induction l as [|b l IH]; simpl; [reflexivity|]. rewrite IH. lia. Qed.

Lemma slice_firstn {A} (l : list A) (k : nat) :
  slice l 0 (Z.of_nat k) = firstn k l.
Proof.
  change (slice l 0 (Z.of_nat k))
    with (slice ([] ++ l) (len (@nil A)) (len (@nil A) + Z.of_nat k)).
  apply slice_after_prefix.
Qed.

Lemma slice_pair {A} (pre l : list A) :
  slice (pre ++ l) (Z.of_nat (length pre)) (Z.of_nat (length pre) + 2)
  = firstn 2 l.
Proof. apply (slice_after_prefix pre l 2). Qed.

(** X10.  The argument of a set command as it goes over the wire: two
    lower-case hex digits per byte, then the two hex digits of the sum of
    those digits modulo 256.  The decoder of the engine reads every pair
    back as the byte it stands for, and the last pair as that sum. *)
Theorem encoded_argument_reads_back (arg : list Z) :
  forallb is_byte arg = true ->
  length (encode_arg arg) = 2 * length arg + 2
  /\ (forall i b, nth_error arg i = Some b ->
        decode_hexnum (slice (encode_arg arg) (Z.of_nat (2 * i))
                             (Z.of_nat (2 * i) + 2)) = Some b)
  /\ decode_hexnum (slice_from (encode_arg arg) (-2))
     = Some (sum (firstn (2 * length arg) (encode_arg arg)) mod 256)%Z.
Proof.
  intros Hb. unfold encode_arg.
  assert (Hck : (0 <= sum (hex arg) mod 256 < 256)%Z)
    by (apply Z.mod_pos_bound; lia).
  split; [rewrite length_app, hex_length; reflexivity|]. split.
  - intros i b Hi.
    apply nth_error_split in Hi as (l1 & l2 & -> & <-).
    rewrite hex_app. change (b :: l2) with ([b] ++ l2).
    rewrite hex_app, <- !app_assoc.
    rewrite <- hex_length, slice_pair.
    rewrite forallb_app in Hb. apply andb_true_iff in Hb as [_ Hb].
    simpl in Hb. apply andb_true_iff in Hb as [Hb _].
    unfold is_byte in Hb. apply andb_true_iff in Hb as [H0 H1].
    apply Z.leb_le in H0. apply Z.ltb_lt in H1.
    change (firstn 2 (hex [b] ++ hex l2 ++ hex [(sum (hex (l1 ++ [b] ++ l2))
                                                  mod 256)%Z]))
      with (hex [b]).
    apply hex_round_trip. lia.
  - unfold slice_from. rewrite clamp_neg by lia.
    rewrite length_app, hex_length. simpl length.
    replace (2 * length arg + 2 - Z.to_nat (- -2)) with (length (hex arg) + 0)
      by (rewrite hex_length; lia).
    rewrite skipn_app, skipn_all2 by lia. simpl app.
    replace (length (hex arg) + 0 - length (hex arg)) with 0 by lia.
    change (drop 0 (hex [(sum (hex arg) mod 256)%Z]))
      with (hex [(sum (hex arg) mod 256)%Z]).
    rewrite <- (hex_length arg), firstn_app, Nat.sub_diag, firstn_all.
    simpl firstn. rewrite app_nil_r.
    apply hex_round_trip. exact Hck.
Qed.

Lemma encoded_argument_reads_back_witness :
  decode_hexnum (slice (encode_arg (set_id_arg (codes "Ann7")))
                       (Z.of_nat (2 * 4)) (Z.of_nat (2 * 4) + 2))
  = Some 65%Z.
Proof.
  exact (proj1 (proj2 (encoded_argument_reads_back
                         (set_id_arg (codes "Ann7")) eq_refl))
               4 65%Z eq_refl).
Defined.

End Wired_encoding.

Section Wired_identifier_and_time.
Import Py USB Wired.
Local Open Scope nat_scope.

Lemma alnum_char (c : Z) :
  isalnum c = true -> (48 <= c <= 122)%Z.
Proof.
  unfold isalnum. intros H.
  repeat (apply orb_true_iff in H as [H|H]);
    apply andb_true_iff in H as [H1 H2];
    apply Z.leb_le in H1; apply Z.leb_le in H2; lia.
Qed.

(** The hex digits of letters and digits are decoded one character per
    pair. *)
Lemma get_id_loop_hex (id : list Z) :
  forall acc tl,
    Forall (fun c => isalnum c = true) id ->
    get_id_loop (hex id ++ tl) acc = get_id_loop tl (acc ++ id).
Proof.
  induction id as [|c id IH]; intros acc tl Hf.
  - simpl. rewrite app_nil_r. reflexivity.
  - inversion Hf as [|? ? Hc Hid]; subst.
    pose proof (alnum_char c Hc) as Hr.
    change (hex (c :: id) ++ tl)
      with (hexdigit_lower (c / 16) :: hexdigit_lower (c mod 16)
                           :: (hex id ++ tl)).
    cbn [get_id_loop]. unfold get_id_step.
    change [hexdigit_lower (c / 16); hexdigit_lower (c mod 16)]
      with (hex [c]).
    rewrite (proj1 (hex_round_trip c ltac:(lia))).
    destruct (Z.ltb_spec c 32); [lia|].
    destruct (Z.gtb_spec c 126); [lia|]. rewrite Hc. simpl.
    rewrite IH by exact Hid. rewrite <- app_assoc. reflexivity.
Qed.

Lemma get_id_loop_zero (k : nat) (acc : list Z) :
  get_id_loop (firstn (2 * k) (hex (repeat 0%Z k))) acc = acc.
Proof.
  destruct k as [|k]; [reflexivity|].
  replace (2 * S k) with (S (S (2 * k))) by lia. reflexivity.
Qed.

Lemma set_id_arg_field (id : list Z) :
  length id <= 11 ->
  set_id_arg id = [0; 1; 0; 1]%Z ++ id ++ repeat 0%Z (28 - length id).
Proof.
  intros Hl. unfold set_id_arg, ID_LENGTH.
  rewrite truncated by lia. change (Z.to_nat 11) with 11.
  rewrite firstn_all2 by lia.
  change (<[3:=1%Z]> (<[1:=1%Z]> (repeat 0%Z 32)))
    with ([0; 1; 0; 1]%Z ++ repeat 0%Z 28).
  cbn [app]. rewrite !usb_store_shift.
  rewrite usb_store_0 by (rewrite repeat_length; lia).
  rewrite skipn_repeat. reflexivity.
Qed.

(** X11.  The wired identifier survives the way to the monitor and back.
    For an identifier of at most 11 letters and digits: the bytes [set_id]
    puts behind the first four of its argument, written as hex digits and
    cut to the 22 that [get_patient_id] looks at, are decoded by [get_id]
    to that identifier. *)
Theorem wired_identifier_round_trip (id : list Z) :
  length id <= 11 ->
  Forall (fun c => isalnum c = true) id ->
  get_id (slice (hex (skipn 4 (set_id_arg id))) 0 (2 * ID_LENGTH)) = id
  /\ forallb is_byte (set_id_arg id) = true.
Proof.
  intros Hl Hf. rewrite set_id_arg_field by exact Hl. split.
  - change (skipn 4 ([0; 1; 0; 1]%Z ++ id ++ repeat 0%Z (28 - length id)))
      with (id ++ repeat 0%Z (28 - length id)).
    unfold ID_LENGTH. change (2 * 11)%Z with (Z.of_nat 22).
    rewrite slice_firstn, hex_app, firstn_app, hex_length.
    rewrite (firstn_all2 (hex id)) by (rewrite hex_length; lia).
    unfold get_id. rewrite get_id_loop_hex by exact Hf. simpl app.
    replace (28 - length id) with ((11 - length id) + 17) by lia.
    rewrite repeat_app, hex_app, firstn_app, hex_length, repeat_length.
    replace (22 - 2 * length id - 2 * (11 - length id)) with 0 by lia.
    simpl firstn at 2. rewrite app_nil_r.
    replace (22 - 2 * length id) with (2 * (11 - length id)) by lia.
    apply get_id_loop_zero.
  - rewrite !forallb_app. simpl.
    replace (forallb is_byte (repeat 0%Z (28 - length id))) with true
      by (induction (28 - length id); simpl; auto).
    rewrite andb_true_r. apply forallb_forall. intros c Hc.
    rewrite List.Forall_forall in Hf. apply Hf, alnum_char in Hc.
    unfold is_byte. apply andb_true_intro.
    split; [apply Z.leb_le | apply Z.ltb_lt]; lia.
Qed.

Lemma wired_identifier_round_trip_witness :
  get_id (slice (hex (skipn 4 (set_id_arg (codes "Ann7")))) 0 (2 * ID_LENGTH))
  = codes "Ann7".
Proof.
  refine (proj1 (wired_identifier_round_trip (codes "Ann7") _ _)).
  - simpl. lia.
  - repeat constructor.
Defined.

(** X12.  [set_date_time] puts the time on the wire as the fourteen
    decimal digits MMDDYYYYhhmmss, the layout [get_date_time] parses
    the monitor's answer in: for a time whose fields have two decimal
    digits (the year four), the argument is 40 bytes, its encoding 82
    characters, and the first fourteen of them are those digits. *)
Theorem time_goes_out_as_decimal_digits (dt : datetime) :
  (0 <= year dt < 10000)%Z ->
  (0 <= month dt < 100)%Z -> (0 <= day dt < 100)%Z ->
  (0 <= hour dt < 100)%Z -> (0 <= minute dt < 100)%Z ->
  (0 <= second dt < 100)%Z ->
  forallb is_byte (set_date_time_arg dt) = true
  /\ length (set_date_time_arg dt) = 40
  /\ length (encode_arg (set_date_time_arg dt)) = 82
  /\ firstn 14 (encode_arg (set_date_time_arg dt))
     = fmt_2d (month dt) ++ fmt_2d (day dt)
       ++ fmt_2d (year dt / 100) ++ fmt_2d (year dt mod 100)
       ++ fmt_2d (hour dt) ++ fmt_2d (minute dt) ++ fmt_2d (second dt).
Proof.
  intros Hy Hmo Hd Hh Hmi Hs.
  assert (Hy1 : (0 <= year dt / 100 < 100)%Z)
    by (split; [apply Z.div_pos | apply Z.div_lt_upper_bound]; lia).
  assert (Hy2 : (0 <= year dt mod 100 < 100)%Z)
    by (apply Z.mod_pos_bound; lia).
  destruct (dec_to_hex_digits _ Hmo) as [B1 E1].
  destruct (dec_to_hex_digits _ Hd) as [B2 E2].
  destruct (dec_to_hex_digits _ Hy1) as [B3 E3].
  destruct (dec_to_hex_digits _ Hy2) as [B4 E4].
  destruct (dec_to_hex_digits _ Hh) as [B5 E5].
  destruct (dec_to_hex_digits _ Hmi) as [B6 E6].
  destruct (dec_to_hex_digits _ Hs) as [B7 E7].
  assert (Hb : forallb is_byte (set_date_time_arg dt) = true).
  { unfold set_date_time_arg. rewrite forallb_app. simpl forallb.
    rewrite B1, B2, B3, B4, B5, B6, B7. reflexivity. }
  split; [exact Hb|]. split; [reflexivity|].
  split.
  - unfold encode_arg. rewrite length_app, hex_length. reflexivity.
  - unfold encode_arg, set_date_time_arg.
    change (hex ([dec_to_hex (month dt); dec_to_hex (day dt);
                  dec_to_hex (year dt / 100); dec_to_hex (year dt mod 100);
                  dec_to_hex (hour dt); dec_to_hex (minute dt);
                  dec_to_hex (second dt)] ++ repeat 0%Z 33))
      with (hex [dec_to_hex (month dt)] ++ hex [dec_to_hex (day dt)]
            ++ hex [dec_to_hex (year dt / 100)]
            ++ hex [dec_to_hex (year dt mod 100)]
            ++ hex [dec_to_hex (hour dt)] ++ hex [dec_to_hex (minute dt)]
            ++ hex [dec_to_hex (second dt)] ++ hex (repeat 0%Z 33)).
    rewrite <- E1, <- E2, <- E3, <- E4, <- E5, <- E6, <- E7. reflexivity.
Qed.

Lemma time_goes_out_as_decimal_digits_witness :
  firstn 14 (encode_arg (set_date_time_arg
                           {| year := 2026; month := 11; day := 4;
                              hour := 9; minute := 5; second := 59 |}))
  = codes "11042026090559".
Proof.
  refine (proj2 (proj2 (proj2 (time_goes_out_as_decimal_digits
            {| year := 2026; month := 11; day := 4;
               hour := 9; minute := 5; second := 59 |} _ _ _ _ _ _))));
    simpl; lia.
Defined.

End Wired_identifier_and_time.

Section Wired_measurements.
Import Py USB Wired.
Local Open Scope nat_scope.
Variable strptime : list Z -> option datetime.

(** One round of the loop of [get_data], by what the record holds. *)
Lemma wired_record (response : list Z) (offset : Z) (ms : list measurement) :
  get_data_record strptime response offset ms
  = match record_measurement strptime response offset with
    | Some m => (ms ++ [m], None)
    | None =>
      match mbind strptime
                  (decode (slice (slice response offset
                                        (offset + RECORD_LENGTH)) 0 10)) with
      | None => (ms, None)
      | Some _ => (ms, Some NotAHexDigit)
      end
    end.
Proof.
  unfold get_data_record, record_measurement.
  destruct (mbind strptime _) as [dt|]; [|reflexivity].
  destruct (decode_hexnum _) as [word|]; [|reflexivity].
  destruct (unpack_word word) as [[sys dia] pulse]. reflexivity.
Qed.

Lemma mask_range (w : Z) : (0 <= Z.land w 1023 <= 1023)%Z.
Proof.
  change 1023%Z with (Z.ones 10). rewrite Z.land_ones by lia.
  pose proof (Z.mod_pos_bound w (2 ^ 10) ltac:(lia)).
  change (Z.ones 10) with 1023%Z. change (2 ^ 10)%Z with 1024%Z in *. lia.
Qed.

Lemma record_measurement_range (response : list Z) (offset : Z)
      (m : measurement) :
  record_measurement strptime response offset = Some m -> in_range m.
Proof.
  unfold record_measurement.
  destruct (mbind strptime _) as [dt|]; [|discriminate].
  destruct (decode_hexnum _) as [word|]; [|discriminate].
  unfold unpack_word. intros E. injection E as <-. unfold in_range.
  repeat split; apply mask_range.
Qed.

(** X13.  The wired [get_data] keeps the order of the records and drops
    those without a date: where every record whose date parses has a
    hexadecimal word, the loop raises nothing and appends, in the order
    of the records, the measurement of each record that has one. *)
Theorem wired_get_data_keeps_order
        (response : list Z) (offsets : list Z) (ms : list measurement) :
  Forall (fun offset =>
            mbind strptime
                  (decode (slice (slice response offset
                                        (offset + RECORD_LENGTH)) 0 10))
            <> None ->
            decode_hexnum (slice (slice response offset
                                        (offset + RECORD_LENGTH)) 16 24)
            <> None) offsets ->
  get_data_loop strptime response offsets ms
  = (ms ++ omap (record_measurement strptime response) offsets, None).
Proof.
  revert ms. induction offsets as [|offset offsets IH]; intros ms Hf.
  - simpl. rewrite app_nil_r. reflexivity.
  - inversion Hf as [|? ? Ho Hos]; subst.
    cbn [get_data_loop]. rewrite wired_record.
    change (omap (record_measurement strptime response) (offset :: offsets))
      with (match record_measurement strptime response offset with
            | Some m => m :: omap (record_measurement strptime response) offsets
            | None => omap (record_measurement strptime response) offsets
            end).
    destruct (record_measurement strptime response offset) as [m|] eqn:Hm.
    + rewrite IH by exact Hos. rewrite <- app_assoc. reflexivity.
    + destruct (mbind strptime _) as [dt|] eqn:Hd.
      * exfalso. unfold record_measurement in Hm. rewrite Hd in Hm.
        destruct (decode_hexnum _) as [word|] eqn:Hw.
        -- destruct (unpack_word word) as [[? ?] ?]. discriminate.
        -- apply Ho; [discriminate | reflexivity].
      * apply IH. exact Hos.
Qed.

Lemma get_data_loop_appends (response : list Z) (offsets : list Z) :
  forall ms,
  exists added,
    fst (get_data_loop strptime response offsets ms) = ms ++ added
    /\ length added <= length offsets
    /\ Forall in_range added
    /\ (snd (get_data_loop strptime response offsets ms) = None
        \/ snd (get_data_loop strptime response offsets ms)
           = Some NotAHexDigit).
Proof.
  induction offsets as [|offset offsets IH]; intros ms.
  - exists []. simpl. rewrite app_nil_r. auto.
  - cbn [get_data_loop]. rewrite wired_record.
    destruct (record_measurement strptime response offset) as [m|] eqn:Hm.
    + destruct (IH (ms ++ [m])) as (added & Ha & Hl & Hr & He).
      exists (m :: added). rewrite Ha, <- app_assoc.
      split; [reflexivity|]. split; [simpl; lia|].
      split; [|exact He].
      constructor; [eapply record_measurement_range; exact Hm | exact Hr].
    + destruct (mbind strptime _) as [dt|].
      * exists []. simpl. rewrite app_nil_r. auto 6 with arith.
      * destruct (IH ms) as (added & Ha & Hl & Hr & He).
        exists added. split; [exact Ha|]. split; [simpl; lia|]. auto.
Qed.

(** X14.  Whatever the response, the wired [get_data] only appends to the
    measurements of the object, also when it raises: at most one per
    record the response announces, fewer than 65536 in all, each with
    systolic, diastolic and pulse between 0 and 1023; and it raises
    nothing but the exception of [decode_hexdigit]. *)
Theorem wired_get_data_only_appends
        (response : list Z) (ms : list measurement) :
  exists added,
    fst (get_data_of strptime response ms) = ms ++ added
    /\ (Z.of_nat (length added) < 65536)%Z
    /\ (forall n, decode_hexnum (slice_to response 4) = Some n ->
                  (Z.of_nat (length added) <= n)%Z)
    /\ (decode_hexnum (slice_to response 4) = None -> added = [])
    /\ Forall in_range added
    /\ (snd (get_data_of strptime response ms) = None
        \/ snd (get_data_of strptime response ms) = Some NotAHexDigit).
Proof.
  unfold get_data_of.
  destruct (decode_hexnum (slice_to response 4)) as [n|] eqn:Hn.
  - destruct (get_data_loop_appends response (record_offsets n) ms)
      as (added & Ha & Hl & Hr & He).
    exists added. split; [exact Ha|].
    unfold record_offsets in Hl. rewrite length_map, length_seq in Hl.
    assert (Hb : (0 <= n < 65536)%Z).
    { destruct (hexnum_bound (slice_to response 4) n Hn)
        as [H0 H1].
      split; [exact H0|].
      assert (Hlen : (len (slice_to response 4) <= 4)%Z).
      { unfold len, slice_to. rewrite length_firstn, clamp_nonneg by lia. lia. }
      eapply Z.lt_le_trans; [exact H1|].
      change 65536%Z with (16 ^ 4)%Z. apply Z.pow_le_mono_r; lia. }
    split; [lia|]. split; [intros n' E; injection E as <-; lia|].
    split; [discriminate|]. auto.
  - exists []. simpl. rewrite app_nil_r.
    split; [reflexivity|]. split; [simpl; lia|]. split; [discriminate|]. auto.
Qed.

End Wired_measurements.

Section Wired_measurements_example.
Import Py USB Wired.

Lemma wired_get_data_keeps_order_witness :
  get_data_loop strptime_digits two_slots [32; 64] []
  = ([] ++ omap (record_measurement strptime_digits two_slots) [32; 64], None).
Proof.
  refine (wired_get_data_keeps_order strptime_digits two_slots [32; 64] [] _).
  repeat constructor; intros _; vm_compute; discriminate.
Defined.

End Wired_measurements_example.

(* ================================================================== *)
(** * Further properties of a discovery round *)

Section Discovery_without_a_monitor.
Import Discovery.
Local Open Scope nat_scope.
Variable devices : list device.
Hypothesis none : Forall (fun d => matching d = false) devices.

Lemma not_matching (i : nat) (d : device) :
  devices !! i = Some d -> matching d = false.
Proof.
  intros Hd. rewrite List.Forall_forall in none. apply none.
  apply list_elem_of_In. eapply list_elem_of_lookup_2. exact Hd.
Qed.

Lemma no_match_step (s : state) (i : nat) :
  invariant devices s -> found_device s = None ->
  invariant devices (step_task devices i s)
  /\ found_device (step_task devices i s) = None.
Proof.
  intros Hinv Hf. unfold step_task.
  destruct (devices !! i) as [d|] eqn:Hd; [|auto].
  destruct (tasks s !! i) as [p|] eqn:Hp; [|auto].
  assert (Hw : waiting_ok d p).
  { destruct Hinv as [_ Hi]. rewrite Hf in Hi. destruct Hi as [_ Hall].
    eapply Hall; eassumption. }
  pose proof (not_matching i d Hd) as Hm.
  unfold on_exception. rewrite Hf. simpl.
  destruct p as [| | |n|e]; simpl in Hw; try tauto; auto.
  - split; [apply invariant_waiting with d; simpl; auto | exact Hf].
  - destruct (connects d) eqn:Hc; simpl;
      (split; [apply invariant_waiting with d; simpl; auto | exact Hf]).
  - destruct (services d) as [g|] eqn:Hg.
    + destruct (is_monitor g) eqn:Hg'; simpl.
      * exfalso. unfold matching in Hm. rewrite Hw, Hg, Hg' in Hm.
        discriminate.
      * split; [apply invariant_waiting with d; simpl; auto | exact Hf].
    + split; [apply invariant_waiting with d; simpl; auto | exact Hf].
Qed.

(** X15.  Where no candidate passes the test of [isbpm], nothing happens
    under any interleaving: the flag stays unset, no task enters
    [run_client], no command is written and nothing is printed by a
    task, so that [run], when [gather] has returned, prints that the
    monitor was not found. *)
Theorem no_monitor_is_not_found (schedule : list nat) :
  let s := run_tasks devices schedule (init devices) in
  found_device s = None
  /\ log s = []
  /\ reports_not_found s = true
  /\ (forall i p, tasks s !! i = Some p -> in_session p = false)
  /\ all_done (run_tasks devices (sequential devices) (init devices)) = true.
Proof.
  intros s.
  assert (Hrun : forall sched s0,
             invariant devices s0 -> found_device s0 = None ->
             invariant devices (run_tasks devices sched s0)
             /\ found_device (run_tasks devices sched s0) = None).
  { induction sched as [|i sched IH]; intros s0 Hi Hf; [auto|].
    simpl. destruct (no_match_step s0 i Hi Hf) as [Hi' Hf'].
    apply IH; assumption. }
  destruct (Hrun schedule (init devices) (invariant_init devices) eq_refl)
    as [[Hlen Hinv] Hf].
  fold s in Hlen, Hinv, Hf. rewrite Hf in Hinv. destruct Hinv as [Hlog Hall].
  split; [exact Hf|]. split; [exact Hlog|].
  split; [unfold reports_not_found; rewrite Hf; reflexivity|].
  split; [|apply sequential_completes].
  intros i p Hp.
  destruct (lookup_lt_is_Some_2 devices i) as [d Hd].
  { rewrite <- Hlen. eapply lookup_lt_Some. exact Hp. }
  eapply waiting_not_in_session, Hall; eassumption.
Qed.

End Discovery_without_a_monitor.

Section Discovery_exceptions.
Import Discovery Round.
Local Open Scope nat_scope.
Variable devices : list device.
Hypothesis addresses : Forall (fun d => address d <> ""%string) devices.
Hypothesis distinct : NoDup (map address devices).

Lemma printers_app (l1 l2 : list event) :
  printers (l1 ++ l2) = printers l1 ++ printers l2.
Proof. apply flat_map_app. Qed.

Lemma printed_set_pc (s : state) (i : nat) (p' : pc) (evs : list event) :
  printed_by_found devices s ->
  Forall (fun j => exists d, devices !! j = Some d
                             /\ found_device s = Some (address d))
         (printers evs) ->
  printed_by_found devices (set_pc i p' evs s).
Proof.
  intros Hs He. unfold printed_by_found, set_pc. simpl.
  rewrite printers_app. apply Forall_app. split; assumption.
Qed.

Lemma printed_on_exception (s : state) (i : nat) (d : device) (e : ending) :
  devices !! i = Some d ->
  printed_by_found devices s ->
  printed_by_found devices (on_exception i d e s).
Proof.
  intros Hd Hs. unfold on_exception. apply printed_set_pc; [exact Hs|].
  destruct (found_device s) as [a|] eqn:Hf; simpl; [|constructor].
  destruct (String.eqb_spec a (address d)) as [->|]; simpl;
    [|constructor].
  constructor; [|constructor]. exists d. auto.
Qed.

Lemma printed_step (s : state) (i : nat) :
  invariant devices s -> printed_by_found devices s ->
  printed_by_found devices (step_task devices i s).
Proof.
  intros Hinv Hs. unfold step_task.
  destruct (devices !! i) as [d|] eqn:Hd; [|exact Hs].
  destruct (tasks s !! i) as [p|] eqn:Hp; [|exact Hs].
  destruct p as [| | |[|n]|e]; try exact Hs.
  - destruct (truthy _); apply printed_set_pc; (exact Hs || constructor).
  - destruct (negb (connects d)); [apply printed_on_exception; assumption|].
    destruct (truthy _); apply printed_set_pc; (exact Hs || constructor).
  - destruct (services d) as [g|]; [|apply printed_on_exception; assumption].
    destruct (is_monitor g);
      [|apply printed_set_pc; (exact Hs || constructor)].
    destruct (truthy (found_device s)) eqn:Ht; simpl;
      [apply printed_set_pc; (exact Hs || constructor)|].
    destruct Hinv as [_ Hi].
    destruct (found_device s) as [a|] eqn:Hf.
    + destruct Hi as [Ha _]. rewrite (truthy_some a Ha) in Ht. discriminate.
    + destruct Hi as [Hlog _]. unfold printed_by_found. simpl.
      rewrite Hlog. constructor.
  - destruct (session_raises d); [apply printed_on_exception; assumption|].
    apply printed_set_pc; [exact Hs|].
    destruct (1 <? length devices); constructor.
  - apply printed_set_pc; [exact Hs | constructor].
Qed.

Lemma address_at (l : list device) (i : nat) (d : device) :
  l !! i = Some d -> map address l !! i = Some (address d).
Proof.
  revert i. induction l as [|x l IH]; intros [|i] Hi; simpl in *;
    try discriminate; [congruence | apply IH; exact Hi].
Qed.

(** X16.  The exception of a candidate other than the monitor is never
    printed: with distinct addresses, under any interleaving, a task
    that has printed an exception is the one task that printed the find,
    and its candidate passes the test of [isbpm]. *)
Theorem only_the_monitor_prints_an_exception (schedule : list nat) (j : nat) :
  let s := run_tasks devices schedule (init devices) in
  In j (printers (log s)) ->
  finders (log s) = [j]
  /\ exists d, devices !! j = Some d /\ matching d = true
               /\ found_device s = Some (address d).
Proof.
  intros s Hj.
  assert (Hrun : forall sched s0,
             invariant devices s0 -> printed_by_found devices s0 ->
             printed_by_found devices (run_tasks devices sched s0)).
  { induction sched as [|i sched IH]; intros s0 Hi Hp; [exact Hp|].
    simpl. apply IH; [apply invariant_step | apply printed_step]; assumption. }
  pose proof (Hrun schedule (init devices) (invariant_init devices)
                   ltac:(constructor)) as Hq.
  pose proof (invariant_run devices addresses schedule _
                            (invariant_init devices)) as [_ Hinv].
  fold s in Hq, Hinv.
  unfold printed_by_found in Hq. rewrite List.Forall_forall in Hq.
  destruct (Hq j Hj) as (d & Hd & Hf).
  rewrite Hf in Hinv.
  destruct Hinv as (_ & w & dw & pw & Hdw & _ & Haddr & Hm & _ & Hfw & _).
  assert (j = w).
  { eapply NoDup_lookup; [exact distinct | |].
    - apply address_at. exact Hd.
    - rewrite Haddr. apply address_at. exact Hdw. }
  subst w. rewrite Hd in Hdw. injection Hdw as <-.
  split; [exact Hfw|]. exists d. auto.
Qed.

End Discovery_exceptions.

Section Discovery_examples.
Import Discovery Round.
Local Open Scope nat_scope.

Example troubled_round :
  run_tasks troubled troubled_schedule (init troubled)
  = {| found_device := Some "c8:0f:10:00:00:0c"%string;
       tasks := [Finished ProbeFailed; Finished SessionFailed];
       log := [Found 1; Command 1; Command 1; Exception_printed 1] |}.
Proof. vm_compute. reflexivity. Qed.

Lemma no_monitor_is_not_found_witness :
  Forall (fun d => matching d = false) strangers
  /\ log (run_tasks strangers [0; 1; 0; 1; 0] (init strangers)) = []
  /\ reports_not_found (run_tasks strangers [0; 1; 0; 1; 0] (init strangers))
     = true.
Proof.
  assert (Hn : Forall (fun d => matching d = false) strangers)
    by (repeat constructor).
  split; [exact Hn|].
  pose proof (no_monitor_is_not_found strangers Hn [0; 1; 0; 1; 0])
    as (_ & Hl & Hr & _).
  split; [exact Hl | exact Hr].
Defined.

Lemma only_the_monitor_prints_an_exception_witness :
  In 1 (printers (log (run_tasks troubled troubled_schedule (init troubled))))
  /\ finders (log (run_tasks troubled troubled_schedule (init troubled))) = [1].
Proof.
  assert (Ha : Forall (fun d => address d <> ""%string) troubled)
    by (repeat constructor; discriminate).
  assert (Hd : NoDup (map address troubled)).
  { repeat constructor; simpl; intros Hin.
    - apply list_elem_of_In in Hin. simpl in Hin.
      destruct Hin as [E|[]]. discriminate E.
    - apply list_elem_of_In in Hin. destruct Hin. }
  assert (Hin : In 1 (printers (log (run_tasks troubled troubled_schedule
                                               (init troubled)))))
    by (vm_compute; auto).
  split; [exact Hin|].
  exact (proj1 (only_the_monitor_prints_an_exception
                  troubled Ha Hd troubled_schedule 1 Hin)).
Defined.

End Discovery_examples.

(* ================================================================== *)
(** * Properties of what the command-line tools call in [bpm_db.py] *)

Section Stored_measurements.
Import Py Database.
Local Open Scope nat_scope.

Lemma select_none (d p : list Z) (table : list row) :
  select d p table = [] <-> ~ In (p, d) (keys table).
Proof.
  unfold select, keys. induction table as [|r table IH]; simpl.
  - tauto.
  - repeat case_bool_decide; simpl; split.
    + discriminate.
    + intros Hn. exfalso. apply Hn. left. congruence.
    + intros Hs [E|Hin]; [congruence | tauto].
    + intros Hn. apply IH. tauto.
    + intros Hs [E|Hin]; [congruence | tauto].
    + intros Hn. apply IH. tauto.
    + intros Hs [E|Hin]; [congruence | tauto].
    + intros Hn. apply IH. tauto.
Qed.

Lemma keys_app (t1 t2 : list row) : keys (t1 ++ t2) = keys t1 ++ keys t2.
Proof. apply List.map_app. Qed.

(** One round of [insert_measurements]. *)
Lemma insert_one_old (p d : list Z) (s di pu : Z) (table : list row) (n : Z) :
  utf8_encodable d && utf8_encodable p = true ->
  In (p, d) (keys table) ->
  insert_one p (table, n) (d, s, di, pu) = inl (table, n).
Proof.
  intros He Hin. unfold insert_one. rewrite He. cbn [negb].
  pose proof (select_none d p table) as Hs.
  destruct (select d p table) as [|r rs]; [|reflexivity].
  exfalso. apply Hs; [reflexivity | exact Hin].
Qed.

Lemma insert_one_new (p d : list Z) (s di pu : Z) (table : list row) (n : Z) :
  utf8_encodable d && utf8_encodable p = true ->
  ~ In (p, d) (keys table) ->
  insert_one p (table, n) (d, s, di, pu)
  = if fits_integer s && fits_integer di && fits_integer pu
    then inl (table ++ [{| patient_id := p; date := d; sys := s; dia := di;
                           pulse := pu |}], (n + 1)%Z)
    else inr OverflowError.
Proof.
  intros He Hin. unfold insert_one. rewrite He. cbn [negb].
  rewrite (proj2 (select_none d p table) Hin). reflexivity.
Qed.

Lemma insert_one_unencodable (p d : list Z) (s di pu : Z) (st : list row * Z) :
  utf8_encodable d && utf8_encodable p = false ->
  insert_one p st (d, s, di, pu) = inr UnicodeEncodeError.
Proof.
  intros He. unfold insert_one. destruct st as [table n]. rewrite He.
  reflexivity.
Qed.

Lemma key_dec (k : list Z * list Z) (l : list (list Z * list Z)) :
  In k l \/ ~ In k l.
Proof.
  destruct (decide (k ∈ l)) as [H|H]; [left|right];
    rewrite <- list_elem_of_In; exact H.
Qed.

(** What the loop has done when it ends, and why it raised when it
    raises. *)
Lemma insert_loop_spec (p : list Z) (ms : list USB.measurement) :
  forall table n,
    match insert_loop p ms (table, n) with
    | inl (t, k) =>
      exists added,
        t = table ++ added
        /\ k = (n + Z.of_nat (length added))%Z
        /\ length added <= length ms
        /\ Forall (fun r => patient_id r = p) added
        /\ (NoDup (keys table) -> NoDup (keys t))
        /\ Forall (fun m => In (p, fst (fst (fst m))) (keys t)) ms
        /\ Forall (fun r => In (date r, sys r, dia r, pulse r) ms) added
        /\ Forall (fun r => fits_integer (sys r) && fits_integer (dia r)
                            && fits_integer (pulse r) = true) added
        /\ Forall (fun m => utf8_encodable (fst (fst (fst m)))
                            && utf8_encodable p = true) ms
    | inr UnicodeEncodeError =>
      utf8_encodable p = false
      \/ Exists (fun m => utf8_encodable (fst (fst (fst m))) = false) ms
    | inr OverflowError =>
      Exists (fun m => fits_integer (snd (fst (fst m)))
                       && fits_integer (snd (fst m))
                       && fits_integer (snd m) = false) ms
    end.
Proof.
  induction ms as [|m ms IH]; intros table n.
  - simpl. exists []. rewrite app_nil_r, Z.add_0_r.
    repeat (split; [auto; constructor|]). constructor.
  - cbn [insert_loop]. destruct m as [[[d s] di] pu].
    destruct (utf8_encodable d && utf8_encodable p) eqn:He.
    2:{ rewrite insert_one_unencodable by exact He.
        apply andb_false_iff in He as [He|He]; [right|left; exact He].
        constructor. exact He. }
    destruct (key_dec (p, d) (keys table)) as [Hin|Hin].
    + rewrite insert_one_old by assumption.
      specialize (IH table n).
      destruct (insert_loop p ms (table, n)) as [[t k]|[|]].
      * destruct IH as (added & Ht & Hk & Hl & Hp & Hu & Hd & Hr & Hf & Hs).
        exists added. split; [exact Ht|]. split; [exact Hk|].
        split; [simpl; lia|]. split; [exact Hp|]. split; [exact Hu|].
        split; [|split; [|split; [exact Hf|]]].
        -- constructor; [|exact Hd]. simpl. rewrite Ht, keys_app.
           apply in_or_app. left. exact Hin.
        -- eapply Forall_impl; [exact Hr|]. intros r Hr'. right. exact Hr'.
        -- constructor; [exact He | exact Hs].
      * destruct IH as [IH|IH]; [left; exact IH | right].
        apply Exists_cons_tl. exact IH.
      * apply Exists_cons_tl. exact IH.
    + rewrite insert_one_new by assumption.
      destruct (fits_integer s && fits_integer di && fits_integer pu) eqn:Hfit.
      2:{ apply Exists_cons_hd. exact Hfit. }
      set (r := {| patient_id := p; date := d; sys := s; dia := di;
                   pulse := pu |}).
      specialize (IH (table ++ [r]) (n + 1)%Z).
      destruct (insert_loop p ms (table ++ [r], (n + 1)%Z)) as [[t k]|[|]].
      * destruct IH as (added & Ht & Hk & Hl & Hp & Hu & Hd & Hr & Hf & Hs).
        exists (r :: added).
        split; [rewrite Ht, <- app_assoc; reflexivity|].
        split; [rewrite Hk; simpl length; lia|]. split; [simpl; lia|].
        split; [constructor; [reflexivity | exact Hp]|].
        split; [|split; [|split; [|split]]].
        -- intros Hnd. apply Hu. rewrite keys_app.
           apply NoDup_app. split; [exact Hnd|]. split.
           ++ intros k0 Hk1 Hk2. apply list_elem_of_In in Hk1, Hk2.
              simpl in Hk2. destruct Hk2 as [<-|[]]. exact (Hin Hk1).
           ++ repeat constructor. intros Hk2. apply list_elem_of_In in Hk2.
              destruct Hk2.
        -- constructor; [|exact Hd].
           simpl. rewrite Ht, !keys_app. apply in_or_app. left.
           apply in_or_app. right. left. reflexivity.
        -- constructor; [left; reflexivity|].
           eapply Forall_impl; [exact Hr|]. intros r' Hr'. right. exact Hr'.
        -- constructor; [exact Hfit | exact Hf].
        -- constructor; [exact He | exact Hs].
      * destruct IH as [IH|IH]; [left; exact IH | right].
        apply Exists_cons_tl. exact IH.
      * apply Exists_cons_tl. exact IH.
Qed.

(** X17.  [insert_measurements] only adds rows.  Where it ends
    normally: the rows added are all for the patient given, each is one
    of the measurements handed over, the count it prints is the number
    of rows added, at most the number of measurements, and afterwards
    every date handed over has a row of that patient; a table without
    two rows of one patient and date stays so.  Where it raises, the
    table is as it was before the call, and the exception names its
    cause: UnicodeEncodeError, a surrogate in the identifier or in a
    date; OverflowError, a number outside 64 bits. *)
Theorem insert_measurements_adds_new_dates_only
        (p : list Z) (ms : list USB.measurement) (table : list row) :
  match insert_measurements p ms table with
  | (t, inl no_inserted) =>
    exists added,
      t = table ++ added
      /\ no_inserted = Z.of_nat (length added)
      /\ length added <= length ms
      /\ Forall (fun r => patient_id r = p
                          /\ In (date r, sys r, dia r, pulse r) ms) added
      /\ Forall (fun m => In (p, fst (fst (fst m))) (keys t)) ms
      /\ (NoDup (keys table) -> NoDup (keys t))
  | (t, inr UnicodeEncodeError) =>
    t = table
    /\ (utf8_encodable p = false
        \/ Exists (fun m => utf8_encodable (fst (fst (fst m))) = false) ms)
  | (t, inr OverflowError) =>
    t = table
    /\ Exists (fun m => fits_integer (snd (fst (fst m)))
                        && fits_integer (snd (fst m))
                        && fits_integer (snd m) = false) ms
  end.
Proof.
  unfold insert_measurements.
  pose proof (insert_loop_spec p ms table 0%Z) as Hs.
  destruct (insert_loop p ms (table, 0%Z)) as [[t k]|[|]].
  - destruct Hs as (added & Ht & Hk & Hl & Hp & Hu & Hd & Hr & _ & _).
    exists added. split; [exact Ht|]. split; [exact Hk|]. split; [exact Hl|].
    split; [|split; [exact Hd | exact Hu]].
    rewrite List.Forall_forall in *. intros r Hin. split; auto.
  - split; [reflexivity | exact Hs].
  - split; [reflexivity | exact Hs].
Qed.

Lemma insert_present (p : list Z) (ms : list USB.measurement) :
  forall table n,
    Forall (fun m => In (p, fst (fst (fst m))) (keys table)) ms ->
    Forall (fun m => utf8_encodable (fst (fst (fst m)))
                     && utf8_encodable p = true) ms ->
    insert_loop p ms (table, n) = inl (table, n).
Proof.
  induction ms as [|m ms IH]; intros table n Hf He; [reflexivity|].
  inversion Hf as [|? ? Hm Hms]; subst.
  inversion He as [|? ? Hm' Hms']; subst. cbn [insert_loop].
  destruct m as [[[d s] di] pu].
  rewrite insert_one_old by assumption. apply IH; assumption.
Qed.

(** X18.  [insert_measurements] is idempotent.  After a call that ended
    normally, the same measurements handed over again for the same
    patient change nothing, count nothing and raise nothing, whatever
    the table was before the first call.  After a call that raised, the
    table is as it was, and the same call raises the same again. *)
Theorem insert_measurements_twice_is_once
        (p : list Z) (ms : list USB.measurement) (table : list row) :
  match insert_measurements p ms table with
  | (t, inl _) => insert_measurements p ms t = (t, inl 0%Z)
  | (t, inr e) =>
    t = table /\ insert_measurements p ms t = (table, inr e)
  end.
Proof.
  unfold insert_measurements.
  pose proof (insert_loop_spec p ms table 0%Z) as Hs.
  destruct (insert_loop p ms (table, 0%Z)) as [[t k]|e] eqn:Hl.
  - destruct Hs as (added & _ & _ & _ & _ & _ & Hd & _ & _ & He).
    rewrite (insert_present p ms t 0%Z Hd He). reflexivity.
  - split; [reflexivity|]. rewrite Hl. reflexivity.
Qed.

(** X19.  [patient_id_format] accepts an identifier, unchanged, exactly
    when it is not empty and neither begins nor ends with white space;
    anything else is refused. *)
Theorem patient_id_format_accepts_trimmed (arg : list Z) :
  (patient_id_format arg = Some arg
   <-> arg <> [] /\ no_lead arg /\ no_lead (rev arg))
  /\ (patient_id_format arg = None
      <-> arg = [] \/ ~ (no_lead arg /\ no_lead (rev arg))).
Proof.
  assert (Hs : arg = strip arg <-> no_lead arg /\ no_lead (rev arg)).
  { split.
    - intros E. rewrite E. apply strip_trimmed.
    - intros [H1 H2]. symmetry. apply strip_fixed; assumption. }
  unfold patient_id_format. destruct arg as [|c arg].
  - split; split; try discriminate; try tauto.
  - case_bool_decide as Hd.
    + split.
      * split; [intros _; split; [discriminate | tauto] | reflexivity].
      * split; [discriminate | intros [E|Hn]; [discriminate | tauto]].
    + split.
      * split; [discriminate | intros [_ Hn]; tauto].
      * split; [intros _; right; tauto | reflexivity].
Qed.

End Stored_measurements.

Section Stored_measurements_example.
Import Py Database.
Local Open Scope nat_scope.

Lemma insert_measurements_adds_new_dates_only_witness :
  let old := {| patient_id := codes "Ann7"; date := codes "2023-01-01 12:30";
                sys := 120; dia := 80; pulse := 65 |} in
  let new := {| patient_id := codes "Ann7"; date := codes "2023-01-02 08:00";
                sys := 118; dia := 79; pulse := 60 |} in
  let ms := [(codes "2023-01-01 12:30", 121, 81, 66);
             (codes "2023-01-02 08:00", 118, 79, 60);
             (codes "2023-01-02 08:00", 117, 78, 59)]%Z in
  insert_measurements (codes "Ann7") ms [old] = ([old; new], inl 1%Z)
  /\ exists added,
      [old; new] = [old] ++ added
      /\ 1%Z = Z.of_nat (length added)
      /\ length added <= length ms
      /\ Forall (fun r => patient_id r = codes "Ann7"
                          /\ In (date r, sys r, dia r, pulse r) ms) added
      /\ Forall (fun m => In (codes "Ann7", fst (fst (fst m)))
                             (keys [old; new])) ms
      /\ (NoDup (keys [old]) -> NoDup (keys [old; new])).
Proof.
  intros old new ms.
  assert (Hrun : insert_measurements (codes "Ann7") ms [old]
                 = ([old; new], inl 1%Z)) by (vm_compute; reflexivity).
  split; [exact Hrun|].
  pose proof (insert_measurements_adds_new_dates_only (codes "Ann7") ms [old])
    as Hthm.
  rewrite Hrun in Hthm. exact Hthm.
Defined.

(** A date the table already has is not inserted again, so that the
    number that comes with it is never bound; a new date with a number
    of 64 bits and more rolls back the rows the call had inserted. *)
Example insert_measurements_run :
  insert_measurements
    (codes "Ann7")
    [(codes "2023-01-02 08:00", 118, 79, 60);
     (codes "2023-01-02 08:00", 2 ^ 63, 78, 59)]%Z []
  = ([{| patient_id := codes "Ann7"; date := codes "2023-01-02 08:00";
         sys := 118; dia := 79; pulse := 60 |}], inl 1%Z)
  /\ insert_measurements
       (codes "Ann7")
       [(codes "2023-01-02 08:00", 118, 79, 60);
        (codes "2023-01-03 08:00", 2 ^ 63, 78, 59)]%Z []
     = ([], inr OverflowError)
  /\ insert_measurements [65; 55296]%Z
                          [(codes "2023-01-02 08:00", 1, 2, 3)]%Z []
     = ([], inr UnicodeEncodeError).
Proof. repeat split; vm_compute; reflexivity. Qed.

End Stored_measurements_example.

Section Wired_set_commands.
Import Py USB.
Context {D : Type} `{HidDevice D}.
Variables (win32 prnt_takes_file : bool) (fuel : nat).

(** X20.  A set command the monitor never acknowledges fails in silence.
    On a transport that takes every write of the command and never
    answers it with the single byte 6: [send_command] with an argument
    goes through exactly 15 cycles of write and read, writes no part of
    the argument, and returns None; [set_id], which does not look at the
    result, ends as if the identifier had been set. *)
Theorem unacknowledged_set_command_is_silent
        (Inv : D -> Prop) (cmd : Z) (arg id : list Z) (d : D) :
  Inv d ->
  (forall d0, Inv d0 ->
     exists d1 r d2,
       USB_IO_write win32 (command_bytes cmd) d0 = Done tt d1
       /\ USB_IO_read fuel d1 = Done r d2
       /\ r <> [6]
       /\ Inv d2) ->
  send_command win32 prnt_takes_file fuel cmd (Some arg) d
  = Done None (Nat.iter 15 (attempt win32 fuel cmd) d)
  /\ (cmd = CMD_SET_ID ->
      set_id win32 prnt_takes_file fuel id d
      = Done tt (Nat.iter 15 (attempt win32 fuel cmd) d)).
Proof.
  intros Hd Hstep.
  assert (Hloop : forall n d0, Inv d0 ->
             send_command_loop win32 prnt_takes_file fuel n cmd (Some arg) d0
             = Done None (Nat.iter n (attempt win32 fuel cmd) d0)
             /\ forall arg',
                 send_command_loop win32 prnt_takes_file fuel n cmd
                                   (Some arg') d0
                 = send_command_loop win32 prnt_takes_file fuel n cmd
                                     (Some arg) d0).
  { induction n as [|n IH]; intros d0 Hd0; [split; reflexivity|].
    destruct (Hstep d0 Hd0) as (d1 & r & d2 & Hw & Hr & Hne & Hd2).
    assert (Hnack : negb (len r =? 1)
                    || negb (bool_decide (index r 0 = Some 6)) = true).
    { destruct r as [|b [|b' r']]; [reflexivity| |].
      - case_bool_decide as Hb; [|reflexivity].
        vm_compute in Hb. congruence.
      - unfold len. simpl length.
        destruct (Z.eqb_spec (Z.of_nat (S (S (length r')))) 1); [lia|].
        reflexivity. }
    destruct (IH d2 Hd2) as [IH1 IH2].
    assert (Ha : attempt win32 fuel cmd d0 = d2)
      by (unfold attempt; rewrite Hw; simpl; rewrite Hr; reflexivity).
    split.
    - rewrite Nat.iter_succ_r, Ha.
      simpl. rewrite Hw. simpl. rewrite Hr. simpl. rewrite Hnack.
      exact IH1.
    - intros arg'. simpl. rewrite Hw. simpl. rewrite Hr. simpl.
      rewrite Hnack. apply IH2. }
  destruct (Hloop 15%nat d Hd) as [H1 H2].
  split; [exact H1|].
  intros ->. unfold set_id, send_command, MAX_RETRY.
  rewrite (H2 (set_id_arg id)), H1. reflexivity.
Qed.

End Wired_set_commands.

Section Wired_set_commands_example.
Import Py USB.

Lemma unacknowledged_set_command_is_silent_witness :
  set_id false false 1 (codes "Ann7") plain_driver
  = Done tt (Nat.iter 15 (attempt false 1 CMD_SET_ID) plain_driver).
Proof.
  refine (proj2 (unacknowledged_set_command_is_silent
                   false false 1
                   (fun d => pending d = [] /\ pads_to_report d = false)
                   CMD_SET_ID [] (codes "Ann7") plain_driver _ _) eq_refl).
  - split; reflexivity.
  - intros [p w b] [Hp Hb]. simpl in Hp, Hb. subst.
    eexists _, _, _. split; [reflexivity|]. split; [reflexivity|].
    split; [discriminate | split; reflexivity].
Defined.

End Wired_set_commands_example.
